(** * Complaint deduplication and lifecycle engine

    A shallow embedding of the duplicate detector ([aiService.js]) and of the
    complaint / ticket repository operations ([firebaseService.js]) of the
    PCMC WhatsApp bot, with the properties of its specification stated over
    the embedded code.

    Conventions of the embedding.
    - A JavaScript number is an exact rational ([Q]); the rounding of IEEE
      doubles is not modelled.  [Math.sqrt] is a parameter of the model.
    - A rejected promise / thrown exception is the [Throw] case of [Js.exn];
      [try { .. } catch { .. }] is [Js.try_catch].
    - Every call to the language model (OpenAI chat completion followed by
      [JSON.parse]) is an oracle returning [Js.exn reply]: [Throw] stands for
      a network failure, an empty completion or unparsable JSON.  An oracle
      is a function of the request: one reply per distinct request.
    - Firestore collections are finite maps from document id to document;
      server timestamps and generated identifiers are arguments.  The chat
      documents of a sender (sub-collection [chats]) are a list in the
      order they were added.
    - A string is the sequence of its code units; case mapping and white
      space are those of ASCII.  [Math.random] is the sequence of its draws.
    - The helpers of [utils/helpers.js] (phone numbers, ticket ids), the
      classification calls of [aiService.js] and the complaint flow of
      [webhookController.js] are embedded beside the two services. *)

From Stdlib Require Import ZArith QArith Qabs Qround Lia Lqa String Ascii List Bool.
From Stdlib Require OrderedTypeEx.
From stdpp Require Import base option list sorting gmap strings.

Local Open Scope Q_scope.

(** ** JavaScript helpers *)

Module Js.

(** Result of an evaluation that may throw. *)
Inductive exn (A : Type) : Type :=
| Ok (a : A)
| Throw (message : string).
Arguments Ok {A} a.
Arguments Throw {A} message.

Definition bind {A B : Type} (m : exn A) (k : A -> exn B) : exn B :=
  match m with
  | Ok a => k a
  | Throw e => Throw e
  end.

(** [try { body } catch (error) { handler }] where the handler returns. *)
Definition try_catch {A : Type} (body : exn A) (handler : string -> A) : A :=
  match body with
  | Ok a => a
  | Throw e => handler e
  end.

(** [x || d] on an optional number: [undefined], [null] and [0] are falsy. *)
Definition or_num (x : option Q) (d : Q) : Q :=
  match x with
  | Some q => if Qeq_bool q 0 then d else q
  | None => d
  end.

(** [x || d] on an optional string: the empty string is falsy. *)
Definition or_str (x : option string) (d : string) : string :=
  match x with
  | Some s => if String.eqb s EmptyString then d else s
  | None => d
  end.

(** [x || false] on an optional boolean. *)
Definition or_false (x : option bool) : bool :=
  match x with
  | Some b => b
  | None => false
  end.

(** [!x] on a nullable string (an image URL). *)
Definition falsy_str (x : option string) : bool :=
  match x with
  | Some s => String.eqb s EmptyString
  | None => true
  end.

Definition Math_max (a b : Q) : Q := if Qle_bool a b then b else a.
Definition Math_min (a b : Q) : Q := if Qle_bool a b then a else b.

(** [Math.round]: nearest integer, halves towards plus infinity. *)
Definition Math_round (x : Q) : Q := inject_Z (Qfloor (x + (1 # 2))).

(** Characters and strings. *)
Definition is_digit (c : ascii) : bool :=
  let n := nat_of_ascii c in (48 <=? n)%nat && (n <=? 57)%nat.

Definition is_space (c : ascii) : bool :=
  let n := nat_of_ascii c in
  (n =? 32)%nat || ((9 <=? n)%nat && (n <=? 13)%nat).

Fixpoint drop_while (p : ascii -> bool) (l : list ascii) : list ascii :=
  match l with
  | [] => []
  | c :: l' => if p c then drop_while p l' else l
  end.

(** [s.trim()] (ASCII white space). *)
Definition trim (s : string) : string :=
  string_of_list_ascii
    (rev (drop_while is_space (rev (drop_while is_space (list_ascii_of_string s))))).

(** [s.replace(/[^0-9]/g, '')]. *)
Definition keep_digits (s : string) : string :=
  string_of_list_ascii (List.filter is_digit (list_ascii_of_string s)).

Definition digit_value (c : ascii) : Z := Z.of_nat (nat_of_ascii c) - 48.

(** [parseInt(s)] for [s] without sign or leading white space (here the
    argument holds digits only): the value of the longest prefix of decimal
    digits, [None] (that is [NaN]) when [s] does not start with a digit. *)
Fixpoint digits_prefix_value (l : list ascii) (acc : Z) : Z :=
  match l with
  | c :: l' =>
      if is_digit c then digits_prefix_value l' (10 * acc + digit_value c)%Z else acc
  | [] => acc
  end.

Definition parseInt (s : string) : option Z :=
  match list_ascii_of_string s with
  | c :: l => if is_digit c then Some (digits_prefix_value (c :: l) 0%Z) else None
  | [] => None
  end.

(** [s.startsWith(p)]. *)
Fixpoint startsWith (s p : string) {struct p} : bool :=
  match p with
  | EmptyString => true
  | String a p' =>
      match s with
      | String b s' => Ascii.eqb a b && startsWith s' p'
      | EmptyString => false
      end
  end.

(** [s.substring(n)]. *)
Fixpoint substring_from (s : string) (n : nat) {struct n} : string :=
  match n with
  | O => s
  | S n' =>
      match s with
      | String _ rest => substring_from rest n'
      | EmptyString => EmptyString
      end
  end.

(** [s.charAt(i)]: the empty string out of range. *)
Definition charAt (s : string) (i : Z) : string :=
  if (i <? 0)%Z then ""
  else match String.get (Z.to_nat i) s with
       | Some c => String c ""
       | None => ""
       end.

(** [s.toUpperCase()] and [s.toLowerCase()] on ASCII letters. *)
Definition upper (c : ascii) : ascii :=
  let n := nat_of_ascii c in
  if (97 <=? n)%nat && (n <=? 122)%nat then ascii_of_nat (n - 32) else c.

Definition lower (c : ascii) : ascii :=
  let n := nat_of_ascii c in
  if (65 <=? n)%nat && (n <=? 90)%nat then ascii_of_nat (n + 32) else c.

Definition toUpperCase (s : string) : string :=
  string_of_list_ascii (List.map upper (list_ascii_of_string s)).

Definition toLowerCase (s : string) : string :=
  string_of_list_ascii (List.map lower (list_ascii_of_string s)).

(** The digit of value [d] in [Number.prototype.toString(36)]. *)
Definition digit36 (d : Z) : ascii :=
  if (d <? 10)%Z then ascii_of_nat (Z.to_nat (48 + d))
  else ascii_of_nat (Z.to_nat (87 + d)).

Fixpoint digits36 (fuel : nat) (n : Z) : list ascii :=
  match fuel with
  | O => []
  | S fuel' =>
      if (n <? 36)%Z then [digit36 n]
      else digits36 fuel' (n / 36) ++ [digit36 (n mod 36)]
  end.

(** [n.toString(36)] for an integer [n >= 0]; a numeral has at most
    [log2 n + 1] digits. *)
Definition toString36 (n : Z) : string :=
  string_of_list_ascii (digits36 (S (Z.to_nat (Z.log2 n))) n).

End Js.

(** ** utils/helpers.js: identifiers and phone numbers *)

Module Helpers.

(** The loop of [generateRandomString]; [random i] is the value of the
    [i]-th call of [Math.random()]. *)
Fixpoint randomChars (count : nat) (charset : string) (random : nat -> Q) (i : nat)
  : string :=
  match count with
  | O => ""
  | S count' =>
      (Js.charAt charset
         (Qfloor (random i * inject_Z (Z.of_nat (String.length charset))))
       ++ randomChars count' charset random (S i))%string
  end.

Definition generateRandomString (length : Z) (charset : string) (random : nat -> Q)
  : string :=
  randomChars (Z.to_nat length) charset random 0.

(** [now] is [Date.now()]. *)
Definition generateTicketId (length : Z) (prefix : string) (now : Z)
    (random : nat -> Q) : string :=
  let timestamp := Js.toUpperCase (Js.toString36 now) in
  let randomPart :=
    generateRandomString (length - Z.of_nat (String.length timestamp))
      "0123456789ABCDEFGHIJKLMNOPQRSTUVWXYZ" random in
  let ticketId := (timestamp ++ randomPart)%string in
  if String.eqb prefix "" then ticketId else (prefix ++ "-" ++ ticketId)%string.

(** [/^[6-9]\d{9}$/.test(s)]. *)
Definition is_indian_mobile (s : string) : bool :=
  match list_ascii_of_string s with
  | c :: rest =>
      let n := nat_of_ascii c in
      (54 <=? n)%nat && (n <=? 57)%nat
      && (length rest =? 9)%nat && forallb Js.is_digit rest
  | [] => false
  end.

(** The argument is a string in every call; the empty string is falsy. *)
Definition formatPhoneNumber (phoneNumber : string) : string :=
  if String.eqb phoneNumber "" then ""
  else
    let cleaned := Js.keep_digits phoneNumber in
    if (String.length cleaned =? 10)%nat then ("91" ++ cleaned)%string
    else if (String.length cleaned =? 12)%nat && Js.startsWith cleaned "91" then cleaned
    else if (String.length cleaned =? 13)%nat && Js.startsWith cleaned "911"
    then Js.substring_from cleaned 1
    else if (10 <=? String.length cleaned)%nat && (String.length cleaned <=? 15)%nat
    then cleaned
    else phoneNumber.

Definition isValidPhoneNumber (phoneNumber : string) : bool :=
  if String.eqb phoneNumber "" then false
  else
    let cleaned := Js.keep_digits phoneNumber in
    if (String.length cleaned =? 12)%nat && Js.startsWith cleaned "91"
    then is_indian_mobile (Js.substring_from cleaned 2)
    else if (String.length cleaned =? 10)%nat then is_indian_mobile cleaned
    else (10 <=? String.length cleaned)%nat && (String.length cleaned <=? 15)%nat.

End Helpers.

(** ** aiService.js: the similarity engine *)

(** Parsed JSON replies of the language model.  A field the reply does not
    carry is [None]. *)
Record TextReply := {
  text_score : option Q;
  text_reasoning : option string;
  problem_match : option bool;
  severity_match : option bool;
  infrastructure_match : option bool }.

Record ImageReply := {
  image_score : option Q;
  image_reasoning : option string;
  same_location : option bool;
  same_problem : option bool;
  visual_match : option bool }.

Record TypeReply := {
  type_score : option Q;
  same_type : option bool;
  new_type : option string;
  existing_type : option string }.

(** A location as stored on a complaint; [address] may be absent. *)
Record Location := {
  latitude : Q;
  longitude : Q;
  address : option string }.

(** The argument of [analyzeTemporalRelevance].  [Timestamp r] is an object
    with a [toDate] member whose call yields [r]; [DateInput ms] is any other
    value, [ms] being the time value of [new Date(value)].  A time value of
    [None] is an Invalid Date ([undefined] gives one). *)
Inductive DateArg :=
| Timestamp (toDate : Js.exn (option Z))
| DateInput (timeValue : option Z).

(** The five analyzer results. *)
Module Semantic.
Record t := mk {
  score : Q;
  reasoning : string;
  problemMatch : bool;
  severityMatch : bool;
  infrastructureMatch : bool }.
Definition with_score (a : t) (x : Q) : t :=
  mk x (reasoning a) (problemMatch a) (severityMatch a) (infrastructureMatch a).
End Semantic.

Module Proximity.
Record t := mk {
  score : Q;
  distance : option Q;
  reasoning : string;
  withinProximity : bool;
  addressSimilarity : option Q }.
Definition with_score (a : t) (x : Q) : t :=
  mk x (distance a) (reasoning a) (withinProximity a) (addressSimilarity a).
End Proximity.

Module Image.
Record t := mk {
  score : Q;
  reasoning : string;
  sameLocation : option bool;
  sameProblem : option bool;
  visualMatch : bool }.
Definition with_score (a : t) (x : Q) : t :=
  mk x (reasoning a) (sameLocation a) (sameProblem a) (visualMatch a).
End Image.

Module Temporal.
(** [hoursDiff] is [None] for [NaN] and for [null]. *)
Record t := mk {
  score : Q;
  reasoning : string;
  hoursDiff : option Q }.
Definition with_score (a : t) (x : Q) : t := mk x (reasoning a) (hoursDiff a).
End Temporal.

Module ComplaintType.
Record t := mk {
  score : Q;
  sameType : bool;
  newType : string;
  existingType : string }.
Definition with_score (a : t) (x : Q) : t :=
  mk x (sameType a) (newType a) (existingType a).
End ComplaintType.

Module Breakdown.
Record t := mk {
  semantic : Semantic.t;
  location : Proximity.t;
  image : Image.t;
  temporal : Temporal.t;
  type : ComplaintType.t }.
End Breakdown.

(** The value returned by [checkComplaintSimilarity]; [breakdown] is [None]
    for the empty object of the failure path.  The [explanation] text is not
    modelled. *)
Module Similarity.
Record t := mk {
  score : Q;
  isDuplicate : bool;
  breakdown : option Breakdown.t;
  confidence : Q }.
End Similarity.

Module Weights.
Record t := mk { semantic : Q; location : Q; image : Q; temporal : Q; type : Q }.
End Weights.

Module AiService.
Section WithCollaborators.

(** The language-model calls of the analyzers. *)
Variable compareText : string -> string -> Js.exn TextReply.
Variable compareImages : string -> string -> Js.exn ImageReply.
Variable compareTypes : string -> string -> Js.exn TypeReply.
(** [calculateDistance] (haversine, kilometres) and
    [calculateAddressSimilarity] (token overlap of normalised addresses). *)
Variable calculateDistance : Q -> Q -> Q -> Q -> Q.
Variable calculateAddressSimilarity : string -> string -> Q.
(** [new Date()] at the time of the call, in milliseconds. *)
Variable now : Z.

Definition analyzeSemanticSimilarity (newComplaint existingComplaint : string)
  : Semantic.t :=
  Js.try_catch
    (Js.bind (compareText newComplaint existingComplaint) (fun analysis =>
     Js.Ok (Semantic.mk
              (Js.or_num (text_score analysis) 0)
              (Js.or_str (text_reasoning analysis) "No reasoning provided")
              (Js.or_false (problem_match analysis))
              (Js.or_false (severity_match analysis))
              (Js.or_false (infrastructure_match analysis)))))
    (fun _ => Semantic.mk 0 "Analysis failed" false false false).

(** The interpolated distances of the [reasoning] text are left out. *)
Definition analyzeLocationProximity (newLocation existingLocation : option Location)
  : Proximity.t :=
  Js.try_catch
    (match newLocation, existingLocation with
     | Some newLoc, Some existingLoc =>
         let distance :=
           calculateDistance (latitude newLoc) (longitude newLoc)
                             (latitude existingLoc) (longitude existingLoc) in
         let addressSimilarity :=
           calculateAddressSimilarity (Js.or_str (address newLoc) "")
                                      (Js.or_str (address existingLoc) "") in
         let '(score, reasoning, withinProximity) :=
           if Qle_bool distance 0.05 then (0.95, "Very close proximity", true)
           else if Qle_bool distance 0.1 then (0.85, "Close proximity", true)
           else if Qle_bool distance 0.2 then (0.7, "Nearby", true)
           else if Qle_bool distance 0.5 then (0.4, "Same area", false)
           else if Qle_bool distance 1.0 then (0.2, "Same locality", false)
           else (0, "Different areas", false) in
         let '(score, reasoning) :=
           if negb (Qle_bool addressSimilarity 0.8)
           then (Js.Math_min 1.0 (score + 0.2), (reasoning ++ " + similar addresses")%string)
           else (score, reasoning) in
         Js.Ok (Proximity.mk score (Some distance) reasoning withinProximity
                  (Some addressSimilarity))
     | _, _ =>
         Js.Ok (Proximity.mk 0 None "One or both locations missing" false None)
     end)
    (fun _ => Proximity.mk 0 None "Location analysis failed" false None).

Definition analyzeImageSimilarity (newImageUrl existingImageUrl : option string)
  : Image.t :=
  if Js.falsy_str newImageUrl || Js.falsy_str existingImageUrl then
    Image.mk 0 "One or both images missing" None None false
  else
    Js.try_catch
      (Js.bind (compareImages (default "" newImageUrl) (default "" existingImageUrl))
         (fun analysis =>
          Js.Ok (Image.mk
                   (Js.or_num (image_score analysis) 0)
                   (Js.or_str (image_reasoning analysis) "No reasoning provided")
                   (Some (Js.or_false (same_location analysis)))
                   (Some (Js.or_false (same_problem analysis)))
                   (Js.or_false (visual_match analysis)))))
      (fun _ => Image.mk 0 "Image analysis failed" None None false).

(** [hoursDiff] is [(now - existingDate) / (1000 * 60 * 60)]; with an
    Invalid Date it is [NaN], every comparison with which is false. *)
Definition analyzeTemporalRelevance (existingComplaintDate : DateArg) : Temporal.t :=
  Js.try_catch
    (Js.bind
       (match existingComplaintDate with
        | Timestamp toDate => toDate
        | DateInput timeValue => Js.Ok timeValue
        end)
       (fun existingDate =>
        let hoursDiff :=
          match existingDate with
          | Some ms => Some (inject_Z (now - ms) / inject_Z (1000 * 60 * 60))
          | None => None
          end in
        let le (bound : Q) :=
          match hoursDiff with
          | Some h => Qle_bool h bound
          | None => false
          end in
        let '(score, reasoning) :=
          if le 24 then (1.0, "Same day complaint")
          else if le 72 then (0.8, "Within 3 days")
          else if le 168 then (0.6, "Within 1 week")
          else if le 720 then (0.3, "Within 1 month")
          else (0.1, "Old complaint") in
        Js.Ok (Temporal.mk score reasoning hoursDiff)))
    (fun _ => Temporal.mk 0.5 "Date analysis failed" None).

Definition analyzeComplaintType (newComplaint existingComplaint : string)
  : ComplaintType.t :=
  Js.try_catch
    (Js.bind (compareTypes newComplaint existingComplaint) (fun analysis =>
     Js.Ok (ComplaintType.mk
              (Js.or_num (type_score analysis) 0)
              (Js.or_false (same_type analysis))
              (Js.or_str (new_type analysis) "unknown")
              (Js.or_str (existing_type analysis) "unknown"))))
    (fun _ => ComplaintType.mk 0 false "unknown" "unknown").

(** WEIGHTED SCORING SYSTEM of [checkComplaintSimilarity]. *)
Definition weights : Weights.t :=
  Weights.mk 0.35 0.30 0.20 0.10 0.05.

Definition finalScore (semanticAnalysis : Semantic.t) (locationAnalysis : Proximity.t)
    (imageAnalysis : Image.t) (temporalAnalysis : Temporal.t)
    (typeAnalysis : ComplaintType.t) : Q :=
  (Semantic.score semanticAnalysis * Weights.semantic weights) +
  (Proximity.score locationAnalysis * Weights.location weights) +
  (Image.score imageAnalysis * Weights.image weights) +
  (Temporal.score temporalAnalysis * Weights.temporal weights) +
  (ComplaintType.score typeAnalysis * Weights.type weights).

Definition decideDuplicateStatus (finalScore : Q) (semantic : Semantic.t)
    (location : Proximity.t) (image : Image.t) : bool :=
  if Qle_bool 0.85 finalScore then true
  else if Qle_bool 0.75 finalScore && Proximity.withinProximity location then true
  else if Qle_bool 0.85 (Semantic.score semantic)
          && Qle_bool 0.7 (Proximity.score location) then true
  else if Qle_bool 0.9 (Proximity.score location)
          && Qle_bool 0.6 (Semantic.score semantic) then true
  else if Qle_bool 0.8 (Image.score image)
          && Qle_bool 0.6 (Proximity.score location) then true
  else Qle_bool 0.8 finalScore.

Definition calculateConfidence (finalScore : Q) (semantic : Semantic.t)
    (location : Proximity.t) (image : Image.t) : Q :=
  let strongIndicators :=
    length (List.filter (fun b : bool => b)
              [ Qle_bool 0.8 (Semantic.score semantic);
                Proximity.withinProximity location;
                Qle_bool 0.7 (Image.score image) ]) in
  if (2 <=? strongIndicators)%nat then Js.Math_min 1.0 (finalScore + 0.1)
  else finalScore.

(** [existingComplaint.createdAt] where [existingComplaint] is the text of
    the stored complaint: a string has no such property, the value is
    [undefined]. *)
Definition createdAt_of_text (existingComplaint : string) : DateArg :=
  DateInput None.

Definition checkComplaintSimilarity (newComplaint existingComplaint : string)
    (newLocation existingLocation : option Location)
    (newImageUrl existingImageUrl : option string) : Similarity.t :=
  Js.try_catch
    (let semanticAnalysis := analyzeSemanticSimilarity newComplaint existingComplaint in
     let locationAnalysis := analyzeLocationProximity newLocation existingLocation in
     let imageAnalysis := analyzeImageSimilarity newImageUrl existingImageUrl in
     let temporalAnalysis := analyzeTemporalRelevance (createdAt_of_text existingComplaint) in
     let typeAnalysis := analyzeComplaintType newComplaint existingComplaint in
     let finalScore :=
       finalScore semanticAnalysis locationAnalysis imageAnalysis temporalAnalysis
                  typeAnalysis in
     let isDuplicate :=
       decideDuplicateStatus finalScore semanticAnalysis locationAnalysis imageAnalysis in
     Js.Ok (Similarity.mk finalScore isDuplicate
              (Some (Breakdown.mk semanticAnalysis locationAnalysis imageAnalysis
                       temporalAnalysis typeAnalysis))
              (calculateConfidence finalScore semanticAnalysis locationAnalysis
                 imageAnalysis)))
    (fun _ => Similarity.mk 0 false None 0).

(** The completion text of the rating prompt of [calculateEthicalScore]. *)
Variable rateMessage : string -> Js.exn string.

Definition calculateEthicalScore (messageText : string) : Z :=
  Js.try_catch
    (Js.bind (rateMessage messageText) (fun content =>
     let response := Js.trim content in
     let score := Js.parseInt (Js.keep_digits response) in
     let finalScore :=
       match score with
       | None => 7%Z
       | Some n => Z.max 1 (Z.min 10 n)
       end in
     Js.Ok finalScore))
    (fun _ => 7%Z).

(** The completion texts of the three classification prompts. *)
Variable askDepartment : string -> Js.exn string.
Variable askPriority : string -> Js.exn string.
Variable askComplaintType : string -> Js.exn string.

Definition validDepartments : list string :=
  [ "Water Supply"; "Waste Management"; "Roads & Infrastructure";
    "Health & Sanitation"; "Building & Planning"; "Electricity";
    "Parks & Recreation"; "Traffic & Transport"; "Property Tax";
    "General Administration" ].

Definition validPriorities : list string := [ "emergency"; "high"; "medium"; "low" ].

Definition validTypes : list string :=
  [ "Water Supply Issues"; "Drainage Problems"; "Road Maintenance";
    "Street Lighting"; "Waste Collection"; "Public Toilets";
    "Building Permits"; "Property Tax"; "Traffic Management";
    "Park Maintenance"; "Health Services"; "General Services" ].

(** [list.includes(x)]. *)
Definition includes (items : list string) (x : string) : bool :=
  existsb (String.eqb x) items.

Definition categorizeDepartment (description : string) : string :=
  Js.try_catch
    (Js.bind (askDepartment description) (fun content =>
     let response := Js.trim content in
     let department :=
       if includes validDepartments response then response
       else "General Administration" in
     Js.Ok department))
    (fun _ => "General Administration").

Definition assessComplaintPriority (description : string) : string :=
  Js.try_catch
    (Js.bind (askPriority description) (fun content =>
     let response := Js.toLowerCase (Js.trim content) in
     let priority := if includes validPriorities response then response else "medium" in
     Js.Ok priority))
    (fun _ => "medium").

Definition categorizeComplaintType (description : string) : string :=
  Js.try_catch
    (Js.bind (askComplaintType description) (fun content =>
     let response := Js.trim content in
     let type := if includes validTypes response then response else "General Services" in
     Js.Ok type))
    (fun _ => "General Services").

End WithCollaborators.
End AiService.

(** ** firebaseService.js: documents and collections *)

Module Complaint.
(** [workflow] of a complaint document (its [steps] log is not modelled). *)
Record workflow_t := mkWorkflow {
  step : string;
  nextAction : string;
  completionPercentage : Z;
  lastUpdated : Z }.

(** A document of the [complaints] collection.  [followUpUsers] is [None]
    while the document has no such field.  The analysis and metadata
    fields copied from the intent analysis are not modelled. *)
Record t := mk {
  id : string;
  description : string;
  department : string;
  priority : string;
  category : string;
  createdBy : string;
  status : string;
  createdAt : Z;
  updatedAt : Z;
  estimatedResolutionTime : Z;
  location : option Location;
  imageUrl : option string;
  requiresLocationSharing : bool;
  ticketId : option string;
  workflow : workflow_t;
  followUpUsers : option (list string);
  confirmedAt : option Z;
  cancelledAt : option Z }.
End Complaint.

Module Ticket.
Record workflow_t := mkWorkflow {
  currentStep : string;
  nextStep : string;
  completionPercentage : Z;
  lastUpdated : Z }.

(** A document of the [tickets] collection. *)
Record t := mk {
  ticketId : string;
  complaintId : string;
  createdBy : string;
  department : string;
  status : string;
  priority : string;
  category : string;
  description : string;
  location : Location;
  createdAt : Z;
  updatedAt : Z;
  estimatedResolution : Z;
  assignedTo : option string;
  updates : list string;
  followUpUsers : list string;
  workflow : workflow_t }.
End Ticket.

(** A document of the [citizens] collection (the fields used here). *)
Module Citizen.
Record t := mk {
  ethicalScore : option Q;
  totalMessages : option Z;
  complaintsCount : Z;
  avgEthicalScore : option Q;
  lastUpdated : Z }.
End Citizen.

(** The message object handed to [saveChatMessage] (the fields used here);
    [None] is a field left out. *)
Module MessageData.
Record t := mk {
  sender : option string;
  messageType : option string;
  intent : option string;
  language : option string;
  ethicalScore : option Q }.
End MessageData.

(** A document of a sub-collection [citizens/<phone>/chats] (the fields
    used here). *)
Module Chat.
Record t := mk {
  sender : string;
  messageType : string;
  intent : string;
  language : string;
  ethicalScore : Q;
  createdAt : Z }.
End Chat.

(** The three collections, and under [chats] the chat documents of every
    sender in the order they were added; their generated document ids are
    not kept. *)
Record Store := {
  complaints : gmap string Complaint.t;
  tickets : gmap string Ticket.t;
  citizens : gmap string Citizen.t;
  chats : gmap string (list Chat.t) }.

(** Asynchronous repository code: a computation over the store that returns
    or throws; writes made before a throw stay. *)
Module Async.

Definition M (A : Type) : Type := Store -> Js.exn A * Store.

Definition ret {A : Type} (a : A) : M A := fun s => (Js.Ok a, s).

Definition throw {A : Type} (message : string) : M A := fun s => (Js.Throw message, s).

Definition bind {A B : Type} (m : M A) (k : A -> M B) : M B :=
  fun s =>
    match m s with
    | (Js.Ok a, s') => k a s'
    | (Js.Throw e, s') => (Js.Throw e, s')
    end.

Definition try_catch {A : Type} (body : M A) (handler : string -> M A) : M A :=
  fun s =>
    match body s with
    | (Js.Ok a, s') => (Js.Ok a, s')
    | (Js.Throw e, s') => handler e s'
    end.

Definition get_store : M Store := fun s => (Js.Ok s, s).
Definition put_store (s' : Store) : M unit := fun _ => (Js.Ok tt, s').

End Async.

Declare Scope async_scope.
Delimit Scope async_scope with async.
Notation "'let*' x ':=' m 'in' k" := (Async.bind m (fun x => k))
  (at level 10, x binder, m at level 100, k at level 200) : async_scope.

(** The Firestore document operations the service uses. *)
Module Firestore.

Definition set_complaint (docId : string) (c : Complaint.t) : Async.M unit :=
  fun s => (Js.Ok tt,
            {| complaints := <[docId := c]> (complaints s);
               tickets := tickets s; citizens := citizens s; chats := chats s |}).

(** [ref.update(..)]: fails with NOT_FOUND when the document is missing. *)
Definition update_complaint (docId : string) (f : Complaint.t -> Complaint.t)
  : Async.M unit :=
  fun s =>
    match complaints s !! docId with
    | Some c =>
        (Js.Ok tt,
         {| complaints := <[docId := f c]> (complaints s);
            tickets := tickets s; citizens := citizens s; chats := chats s |})
    | None => (Js.Throw "NOT_FOUND", s)
    end.

Definition set_ticket (docId : string) (t : Ticket.t) : Async.M unit :=
  fun s => (Js.Ok tt,
            {| complaints := complaints s;
               tickets := <[docId := t]> (tickets s); citizens := citizens s;
               chats := chats s |}).

Definition update_ticket (docId : string) (f : Ticket.t -> Ticket.t)
  : Async.M unit :=
  fun s =>
    match tickets s !! docId with
    | Some t =>
        (Js.Ok tt,
         {| complaints := complaints s;
            tickets := <[docId := f t]> (tickets s); citizens := citizens s;
            chats := chats s |})
    | None => (Js.Throw "NOT_FOUND", s)
    end.

Definition update_citizen (docId : string) (f : Citizen.t -> Citizen.t)
  : Async.M unit :=
  fun s =>
    match citizens s !! docId with
    | Some c =>
        (Js.Ok tt,
         {| complaints := complaints s; tickets := tickets s;
            citizens := <[docId := f c]> (citizens s); chats := chats s |})
    | None => (Js.Throw "NOT_FOUND", s)
    end.

Definition set_citizen (docId : string) (c : Citizen.t) : Async.M unit :=
  fun s => (Js.Ok tt,
            {| complaints := complaints s; tickets := tickets s;
               citizens := <[docId := c]> (citizens s); chats := chats s |}).

(** [collection(..).doc(docId)]: the client library refuses an empty
    document id (its message is given without its quotation marks). *)
Definition doc (docId : string) : Async.M unit :=
  if String.eqb docId ""
  then Async.throw
         "Value for argument documentPath is not a valid resource path. Path must be a non-empty string."
  else Async.ret tt.

(** [collection('citizens').doc(docId).collection('chats').add(m)]; the
    parent document need not exist. *)
Definition add_chat (docId : string) (m : Chat.t) : Async.M unit :=
  fun s => (Js.Ok tt,
            {| complaints := complaints s; tickets := tickets s;
               citizens := citizens s;
               chats := <[docId := default [] (chats s !! docId) ++ [m]]> (chats s) |}).

(** [FieldValue.increment(n)] applied to a field that may be absent. *)
Definition increment (field : option Z) (n : Z) : option Z :=
  Some (default 0%Z field + n)%Z.

(** [FieldValue.arrayUnion(x)] applied to a field that may be absent. *)
Definition arrayUnion (field : option (list string)) (x : string) : list string :=
  match field with
  | Some l => if bool_decide (x ∈ l) then l else l ++ [x]
  | None => [x]
  end.

(** The first document, in document-id order, of those satisfying [p]:
    a query with [limit(1)] and no [orderBy]. *)
Definition first_by_id {A : Type} (p : A -> bool) (m : gmap string A)
  : option (string * A) :=
  foldr (fun d acc =>
           match acc with
           | Some d' => if String.ltb (fst d) (fst d') then Some d else Some d'
           | None => Some d
           end)
        None (List.filter (fun d => p (snd d)) (map_to_list m)).

(** Documents satisfying [p], greatest [key] first, at most [n] of them:
    [where(..).orderBy(key, 'desc').limit(n)]. *)
Definition query_desc {A : Type} (p : A -> bool) (key : A -> Z) (n : nat)
    (m : gmap string A) : list (string * A) :=
  take n (merge_sort (fun d d' => (key (snd d') <= key (snd d))%Z)
                     (H := fun d d' => decide (key (snd d') <= key (snd d))%Z)
                     (List.filter (fun d => p (snd d)) (map_to_list m))).

(** Documents satisfying [p] in the order [le], at most [n] of them:
    [where(..).orderBy(..).orderBy(..).limit(n)]. *)
Definition query_by {A : Type} (p : A -> bool) (le : A -> A -> bool) (n : nat)
    (m : gmap string A) : list (string * A) :=
  take n (merge_sort (fun d d' => le (snd d) (snd d') = true)
                     (H := fun d d' => decide (le (snd d) (snd d') = true))
                     (List.filter (fun d => p (snd d)) (map_to_list m))).

End Firestore.

(** The location object of an incoming WhatsApp message. *)
Record WhatsappLocation := {
  wa_latitude : Q;
  wa_longitude : Q;
  wa_address : option string }.

(** The best candidate retained by the scan of [checkDuplicateComplaint]. *)
Module Match.
Record t := mk {
  complaint : Complaint.t;
  similarity : Similarity.t;
  docId : string }.
End Match.

(** The object returned by [checkDuplicateComplaint].  The fields of a
    duplicate result (ticket id, status, similarity, confidence, breakdown,
    department, priority, location) are read off the retained match. *)
Inductive DuplicateResult :=
| NoCandidates
| Duplicate (bestMatch : Match.t)
| NotDuplicate (highestScore : Q) (totalChecked : nat)
| Fallback (error : string).

Definition is_Some_b {A : Type} (x : option A) : bool :=
  match x with
  | Some _ => true
  | None => false
  end.

Definition isDuplicate (r : DuplicateResult) : bool :=
  match r with
  | Duplicate _ => true
  | _ => false
  end.

(** An entry of the list returned by [getUserComplaintStatus]. *)
Module ComplaintSummary.
Record t := mk {
  id : string;
  ticketId : string;
  description : string;
  department : string;
  status : string;
  priority : string;
  category : string;
  createdAt : Z;
  updatedAt : Z;
  confirmedAt : option Z;
  estimatedResolutionTime : Z;
  location : option Location;
  workflow : Complaint.workflow_t;
  imageUrl : option string }.
End ComplaintSummary.

(** A JavaScript value as data: the own enumerable properties of an object
    in the order of [Object.entries], and the name of its constructor
    ([None] for an object without one). *)
Set Warnings "-register-all".
Inductive JsValue :=
| JsNull
| JsUndefined
| JsBool (b : bool)
| JsNumber (q : Q)
| JsString (s : string)
| JsDate (timeValue : Z)
| JsArray (items : list JsValue)
| JsObject (constructorName : option string) (entries : list (string * JsValue)).
Set Warnings "+register-all".

Module Value.

(** [!!v]. *)
Definition truthy (v : JsValue) : bool :=
  match v with
  | JsNull | JsUndefined => false
  | JsBool b => b
  | JsNumber q => negb (Qeq_bool q 0)
  | JsString s => negb (String.eqb s "")
  | JsDate _ | JsArray _ | JsObject _ _ => true
  end.

Definition is_undefined (v : JsValue) : bool :=
  match v with
  | JsUndefined => true
  | _ => false
  end.

Definition is_null (v : JsValue) : bool :=
  match v with
  | JsNull => true
  | _ => false
  end.

(** [entries[key]] over the own properties of an object. *)
Fixpoint lookup (entries : list (string * JsValue)) (key : string) : JsValue :=
  match entries with
  | (k, v) :: rest => if String.eqb k key then v else lookup rest key
  | [] => JsUndefined
  end.

(** [v.key] for a value [v] that is neither [null] nor [undefined]. *)
Definition prop (v : JsValue) (key : string) : JsValue :=
  match v with
  | JsObject _ entries => lookup entries key
  | _ => JsUndefined
  end.

(** [v === s] for a string literal [s]. *)
Definition is_string (v : JsValue) (s : string) : bool :=
  match v with
  | JsString s' => String.eqb s' s
  | _ => false
  end.

End Value.

Module FirebaseService.

(** The tests by which [sanitizeFirestoreData] recognises a Firestore
    object (FieldValue, reference, GeoPoint, Timestamp) and returns it as
    it is. *)
Definition preserved (constructorName : option string)
    (entries : list (string * JsValue)) : bool :=
  let data := Value.lookup entries in
  match constructorName with
  | Some name =>
      String.eqb name "FieldValue" || String.eqb name "FieldValueImpl"
      || String.eqb name "FieldTransform"
  | None => false
  end
  || (Value.is_string (data "_methodName") "serverTimestamp"
      || (Value.truthy (data "_delegate")
          && Value.is_string (Value.prop (data "_delegate") "_methodName")
               "serverTimestamp"))
  || (Value.truthy (data "_methodName")
      || (Value.truthy (data "_delegate")
          && Value.truthy (Value.prop (data "_delegate") "_methodName")))
  || (Value.truthy (data "_path") || Value.truthy (data "_converter")
      || Value.truthy (data "_delegate") || Value.truthy (data "_serializer"))
  || (negb (Value.is_undefined (data "_latitude"))
      && negb (Value.is_undefined (data "_longitude")))
  || (negb (Value.is_undefined (data "seconds"))
      && negb (Value.is_undefined (data "nanoseconds"))).

Fixpoint sanitizeFirestoreData (data : JsValue) : JsValue :=
  match data with
  | JsNull => JsNull
  | JsUndefined => JsNull
  | JsObject constructorName entries =>
      if preserved constructorName entries then data
      else
        JsObject (Some "Object")
          ((fix sanitized (entries : list (string * JsValue)) :=
              match entries with
              | (key, value) :: rest =>
                  let sanitizedValue := sanitizeFirestoreData value in
                  if Value.is_null sanitizedValue then sanitized rest
                  else (key, sanitizedValue) :: sanitized rest
              | [] => []
              end) entries)
  | JsArray items =>
      JsArray
        (List.filter (fun item => negb (Value.is_null item))
           (List.map sanitizeFirestoreData items))
  | _ => data
  end.

Section WithCollaborators.
Local Open Scope async_scope.

(** [formatPhoneNumber] of [utils/helpers]. *)
Variable formatPhoneNumber : string -> string.
Variable Math_sqrt : Q -> Q.
(** The [ai] service: classification calls and the analyzers' calls. *)
Variable categorizeDepartment : string -> Js.exn string.
Variable assessComplaintPriority : string -> Js.exn string.
Variable categorizeComplaintType : string -> Js.exn string.
Variable compareText : string -> string -> Js.exn TextReply.
Variable compareImages : string -> string -> Js.exn ImageReply.
Variable compareTypes : string -> string -> Js.exn TypeReply.
(** The haversine formula (shared by [calculateDistance] and
    [calculateQuickDistance]) and [calculateAddressSimilarity]. *)
Variable haversine : Q -> Q -> Q -> Q -> Q.
Variable calculateAddressSimilarity : string -> string -> Q.
(** [geocodeAddress]: always answers, with coordinates text at worst. *)
Variable geocodeAddress : Q -> Q -> string.

Definition updateCitizenEthicalScore (phoneNumber : string) (messageEthicalScore : Q)
    (now : Z) : Async.M unit :=
  Async.try_catch
    (let formattedPhone := formatPhoneNumber phoneNumber in
     let* s := Async.get_store in
     match citizens s !! formattedPhone with
     | Some currentData =>
         let currentScore := Js.or_num (Citizen.ethicalScore currentData) 7.5 in
         let totalMessages :=
           Js.or_num (option_map inject_Z (Citizen.totalMessages currentData)) 1 in
         let weight := Js.Math_min totalMessages 100 in
         let decay := Js.Math_max 0.1 (1 / Math_sqrt (totalMessages + 1)) in
         let newScore :=
           ((currentScore * weight * (1 - decay)) + (messageEthicalScore * 3))
           / (weight * (1 - decay) + 3) in
         let roundedScore := Js.Math_round (newScore * 10) / 10 in
         let finalScore := Js.Math_max 1 (Js.Math_min 10 roundedScore) in
         Firestore.update_citizen formattedPhone (fun c =>
           Citizen.mk (Some finalScore) (Citizen.totalMessages c)
             (Citizen.complaintsCount c) (Some finalScore) now)
     | None => Async.ret tt
     end)
    (fun _ => Async.ret tt).

Definition updateCitizenComplaintCount (phoneNumber : string) (now : Z)
  : Async.M unit :=
  Async.try_catch
    (let formattedPhone := formatPhoneNumber phoneNumber in
     Firestore.update_citizen formattedPhone (fun c =>
       Citizen.mk (Citizen.ethicalScore c) (Citizen.totalMessages c)
         (Citizen.complaintsCount c + 1) (Citizen.avgEthicalScore c) now))
    (fun _ => Async.ret tt).

(** [updateCitizenStats], on the fields of [Citizen.t]: the counters of
    queries and sessions and the preferred language are fields that are
    not modelled. *)
Definition updateCitizenStats (phoneNumber : string) (messageData : MessageData.t)
    (now : Z) : Async.M unit :=
  Async.try_catch
    (let formattedPhone := formatPhoneNumber phoneNumber in
     let* _ := Firestore.doc formattedPhone in
     Firestore.update_citizen formattedPhone (fun c =>
       Citizen.mk (Citizen.ethicalScore c) (Citizen.totalMessages c)
         (match MessageData.intent messageData with
          | Some intent =>
              if String.eqb intent "complaint" then (Citizen.complaintsCount c + 1)%Z
              else Citizen.complaintsCount c
          | None => Citizen.complaintsCount c
          end)
         (Citizen.avgEthicalScore c) now))
    (fun _ => Async.ret tt).

(** [saveChatMessage]; the id of the chat document, which it returns, is
    generated by the store and read by none of its callers. *)
Definition saveChatMessage (phoneNumber : string) (messageData : MessageData.t)
    (now : Z) : Async.M unit :=
  Async.try_catch
    (let formattedPhone := formatPhoneNumber phoneNumber in
     let* _ := Firestore.doc formattedPhone in
     let messageDoc :=
       {| Chat.sender := Js.or_str (MessageData.sender messageData) formattedPhone;
          Chat.messageType := Js.or_str (MessageData.messageType messageData) "text";
          Chat.intent := Js.or_str (MessageData.intent messageData) "unknown";
          Chat.language := Js.or_str (MessageData.language messageData) "auto";
          Chat.ethicalScore := default 7 (MessageData.ethicalScore messageData);
          Chat.createdAt := now |} in
     let* _ := Firestore.add_chat formattedPhone messageDoc in
     let* _ := updateCitizenStats formattedPhone messageData now in
     Async.ret tt)
    (fun error => Async.throw error).

Definition calculateEstimatedResolutionTime (department priority : string) : Z :=
  let baseTime : Q :=
    if String.eqb department "Water Supply" then 24
    else if String.eqb department "Waste Management" then 48
    else if String.eqb department "Roads & Infrastructure" then 72
    else if String.eqb department "Health & Sanitation" then 24
    else if String.eqb department "Building & Planning" then 168
    else if String.eqb department "Electricity" then 12
    else if String.eqb department "Parks & Recreation" then 48
    else if String.eqb department "Traffic & Transport" then 24
    else if String.eqb department "Property Tax" then 72
    else if String.eqb department "General Administration" then 48
    else 48 in
  let multiplier : Q :=
    if String.eqb priority "emergency" then 0.25
    else if String.eqb priority "high" then 0.5
    else if String.eqb priority "medium" then 1.0
    else if String.eqb priority "low" then 1.5
    else 1.0 in
  Qceiling (baseTime * multiplier).

(** [calculateQuickDistance]; [None] is [Infinity]. *)
Definition calculateQuickDistance (loc1 loc2 : option Location) : option Q :=
  match loc1, loc2 with
  | Some l1, Some l2 =>
      if Qeq_bool (latitude l1) 0 || Qeq_bool (latitude l2) 0 then None
      else Some (haversine (latitude l1) (longitude l1) (latitude l2) (longitude l2))
  | _, _ => None
  end.

Definition addUserToComplaintFollowUp (complaintId phoneNumber : string) (now : Z)
  : Async.M unit :=
  Async.try_catch
    (let formattedPhone := formatPhoneNumber phoneNumber in
     let* _ := Firestore.update_complaint complaintId (fun c =>
       {| Complaint.id := Complaint.id c;
          Complaint.description := Complaint.description c;
          Complaint.department := Complaint.department c;
          Complaint.priority := Complaint.priority c;
          Complaint.category := Complaint.category c;
          Complaint.createdBy := Complaint.createdBy c;
          Complaint.status := Complaint.status c;
          Complaint.createdAt := Complaint.createdAt c;
          Complaint.updatedAt := now;
          Complaint.estimatedResolutionTime := Complaint.estimatedResolutionTime c;
          Complaint.location := Complaint.location c;
          Complaint.imageUrl := Complaint.imageUrl c;
          Complaint.requiresLocationSharing := Complaint.requiresLocationSharing c;
          Complaint.ticketId := Complaint.ticketId c;
          Complaint.workflow := Complaint.workflow c;
          Complaint.followUpUsers :=
            Some (Firestore.arrayUnion (Complaint.followUpUsers c) formattedPhone);
          Complaint.confirmedAt := Complaint.confirmedAt c;
          Complaint.cancelledAt := Complaint.cancelledAt c |}) in
     let* s := Async.get_store in
     match Firestore.first_by_id
             (fun t => String.eqb (Ticket.complaintId t) complaintId) (tickets s) with
     | Some ticketDoc =>
         Firestore.update_ticket (fst ticketDoc) (fun t =>
           {| Ticket.ticketId := Ticket.ticketId t;
              Ticket.complaintId := Ticket.complaintId t;
              Ticket.createdBy := Ticket.createdBy t;
              Ticket.department := Ticket.department t;
              Ticket.status := Ticket.status t;
              Ticket.priority := Ticket.priority t;
              Ticket.category := Ticket.category t;
              Ticket.description := Ticket.description t;
              Ticket.location := Ticket.location t;
              Ticket.createdAt := Ticket.createdAt t;
              Ticket.updatedAt := now;
              Ticket.estimatedResolution := Ticket.estimatedResolution t;
              Ticket.assignedTo := Ticket.assignedTo t;
              Ticket.updates := Ticket.updates t;
              Ticket.followUpUsers :=
                Firestore.arrayUnion (Some (Ticket.followUpUsers t)) formattedPhone;
              Ticket.workflow := Ticket.workflow t |})
     | None => Async.ret tt
     end)
    (fun _ => Async.ret tt).

(** One iteration of the scan of [checkDuplicateComplaint] over a document
    of the snapshot; the state is [(bestMatch, highestScore)]. *)
Definition scanCandidate (complaintText formattedPhone : string)
    (location : option Location) (imageUrl : option string) (now : Z)
    (state : option Match.t * Q) (doc : string * Complaint.t)
  : option Match.t * Q :=
  let '(bestMatch, highestScore) := state in
  let existingComplaint := snd doc in
  if String.eqb (Complaint.createdBy existingComplaint) formattedPhone then state
  else
    let skip :=
      Js.try_catch
        (Js.bind (categorizeDepartment complaintText) (fun newDepartment =>
         Js.Ok
           (negb (String.eqb (Complaint.department existingComplaint) newDepartment)
            && (negb (is_Some_b location)
                || negb (is_Some_b (Complaint.location existingComplaint))
                || match calculateQuickDistance location
                           (Complaint.location existingComplaint) with
                   | Some d => negb (Qle_bool d 0.2)
                   | None => true
                   end))))
        (fun _ => false) in
    if skip then state
    else
      Js.try_catch
        (Js.bind
           (Js.Ok (AiService.checkComplaintSimilarity compareText compareImages
                     compareTypes haversine calculateAddressSimilarity now
                     complaintText (Complaint.description existingComplaint)
                     location (Complaint.location existingComplaint)
                     imageUrl (Complaint.imageUrl existingComplaint)))
           (fun similarity =>
            Js.Ok
              (if negb (Qle_bool (Similarity.score similarity) highestScore)
               then (Some (Match.mk existingComplaint similarity (fst doc)),
                     Similarity.score similarity)
               else state)))
        (fun _ => state).

Definition scanCandidates (complaintText formattedPhone : string)
    (location : option Location) (imageUrl : option string) (now : Z)
    (docs : list (string * Complaint.t)) : option Match.t * Q :=
  fold_left (scanCandidate complaintText formattedPhone location imageUrl now)
            docs (None, 0).

(** The candidate query: open complaints of the last 30 days, newest
    first, at most 50. *)
Definition queryCandidates (now : Z) (s : Store) : list (string * Complaint.t) :=
  let thirtyDaysAgo := (now - 30 * 24 * 60 * 60 * 1000)%Z in
  Firestore.query_desc
    (fun c =>
       (String.eqb (Complaint.status c) "active"
        || String.eqb (Complaint.status c) "in_progress"
        || String.eqb (Complaint.status c) "open")
       && (thirtyDaysAgo <=? Complaint.createdAt c)%Z)
    Complaint.createdAt 50 (complaints s).

Definition checkDuplicateComplaint (complaintText phoneNumber : string)
    (location : option Location) (imageUrl : option string) (now : Z)
  : Async.M DuplicateResult :=
  Async.try_catch
    (let formattedPhone := formatPhoneNumber phoneNumber in
     let* s := Async.get_store in
     let docs := queryCandidates now s in
     match docs with
     | [] => Async.ret NoCandidates
     | _ =>
         let '(bestMatch, highestScore) :=
           scanCandidates complaintText formattedPhone location imageUrl now docs in
         match bestMatch with
         | Some best =>
             if Similarity.isDuplicate (Match.similarity best) then
               let* _ := addUserToComplaintFollowUp (Match.docId best) formattedPhone now in
               Async.ret (Duplicate best)
             else Async.ret (NotDuplicate highestScore (length docs))
         | None => Async.ret (NotDuplicate highestScore (length docs))
         end
     end)
    (fun error => Async.ret (Fallback error)).

(** [Promise.allSettled]: a rejected classification keeps the default. *)
Definition settled (result : Js.exn string) (fallback : string) : string :=
  match result with
  | Js.Ok value => value
  | Js.Throw _ => fallback
  end.

Definition createDraftComplaint (description phoneNumber : string)
    (imageUrl : option string) (complaintId : string) (now : Z)
  : Async.M Complaint.t :=
  Async.try_catch
    (let formattedPhone := formatPhoneNumber phoneNumber in
     let department := settled (categorizeDepartment description) "General Administration" in
     let priority := settled (assessComplaintPriority description) "medium" in
     let category := settled (categorizeComplaintType description) "General Services" in
     let estimatedResolutionTime := calculateEstimatedResolutionTime department priority in
     let draftComplaint :=
       {| Complaint.id := complaintId;
          Complaint.description := Js.trim description;
          Complaint.department := department;
          Complaint.priority := priority;
          Complaint.category := category;
          Complaint.createdBy := formattedPhone;
          Complaint.status := "draft";
          Complaint.createdAt := now;
          Complaint.updatedAt := now;
          Complaint.estimatedResolutionTime := estimatedResolutionTime;
          Complaint.location := None;
          Complaint.imageUrl := if Js.falsy_str imageUrl then None else imageUrl;
          Complaint.requiresLocationSharing := true;
          Complaint.ticketId := None;
          Complaint.workflow :=
            {| Complaint.step := "location_required";
               Complaint.nextAction := "await_location";
               Complaint.completionPercentage := 30;
               Complaint.lastUpdated := now |};
          Complaint.followUpUsers := None;
          Complaint.confirmedAt := None;
          Complaint.cancelledAt := None |} in
     let* _ := Firestore.set_complaint complaintId draftComplaint in
     Async.ret draftComplaint)
    (fun error => Async.throw error).

Definition createTicketRecord (ticketId complaintId : string)
    (complaintData : Complaint.t) (locationData : Location) (now : Z)
  : Async.M unit :=
  Async.try_catch
    (let ticketData :=
       {| Ticket.ticketId := ticketId;
          Ticket.complaintId := complaintId;
          Ticket.createdBy := Complaint.createdBy complaintData;
          Ticket.department := Complaint.department complaintData;
          Ticket.status := "open";
          Ticket.priority := Complaint.priority complaintData;
          Ticket.category := Complaint.category complaintData;
          Ticket.description := Complaint.description complaintData;
          Ticket.location := locationData;
          Ticket.createdAt := now;
          Ticket.updatedAt := now;
          Ticket.estimatedResolution :=
            (now + Complaint.estimatedResolutionTime complaintData * 60 * 60 * 1000)%Z;
          Ticket.assignedTo := None;
          Ticket.updates := [];
          Ticket.followUpUsers := [Complaint.createdBy complaintData];
          Ticket.workflow :=
            {| Ticket.currentStep := "ticket_created";
               Ticket.nextStep := "department_assignment";
               Ticket.completionPercentage := 70;
               Ticket.lastUpdated := now |} |} in
     Firestore.set_ticket ticketId ticketData)
    (fun error => Async.throw error).

(** The [updateData] of [confirmComplaint] applied to a document. *)
Definition confirmUpdate (ticketId : string) (locationData : Location) (now : Z)
    (c : Complaint.t) : Complaint.t :=
  {| Complaint.id := Complaint.id c;
     Complaint.description := Complaint.description c;
     Complaint.department := Complaint.department c;
     Complaint.priority := Complaint.priority c;
     Complaint.category := Complaint.category c;
     Complaint.createdBy := Complaint.createdBy c;
     Complaint.status := "active";
     Complaint.createdAt := Complaint.createdAt c;
     Complaint.updatedAt := now;
     Complaint.estimatedResolutionTime := Complaint.estimatedResolutionTime c;
     Complaint.location := Some locationData;
     Complaint.imageUrl := Complaint.imageUrl c;
     Complaint.requiresLocationSharing := false;
     Complaint.ticketId := Some ticketId;
     Complaint.workflow :=
       {| Complaint.step := "confirmed";
          Complaint.nextAction := "assign_department";
          Complaint.completionPercentage := 60;
          Complaint.lastUpdated := now |};
     Complaint.followUpUsers := Complaint.followUpUsers c;
     Complaint.confirmedAt := Some now;
     Complaint.cancelledAt := Complaint.cancelledAt c |}.

(** [ticketId] is the value drawn by [generateTicketId(8)]. *)
Definition confirmComplaint (complaintId : string)
    (whatsappLocationData : WhatsappLocation) (ticketId : string) (now : Z)
  : Async.M string :=
  Async.try_catch
    (let* s := Async.get_store in
     match complaints s !! complaintId with
     | None => Async.throw ("Complaint " ++ complaintId ++ " not found")%string
     | Some complaintData =>
         let locationData :=
           {| latitude := wa_latitude whatsappLocationData;
              longitude := wa_longitude whatsappLocationData;
              address :=
                Some (Js.or_str (wa_address whatsappLocationData)
                        (geocodeAddress (wa_latitude whatsappLocationData)
                                        (wa_longitude whatsappLocationData))) |} in
         let* _ := Firestore.update_complaint complaintId
                     (confirmUpdate ticketId locationData now) in
         let* _ := createTicketRecord ticketId complaintId
                     (confirmUpdate ticketId locationData now complaintData)
                     locationData now in
         let* _ := updateCitizenComplaintCount (Complaint.createdBy complaintData) now in
         Async.ret ticketId
     end)
    (fun error => Async.throw error).

(** The [updateData] of [cancelComplaint] applied to a document. *)
Definition cancelUpdate (now : Z) (c : Complaint.t) : Complaint.t :=
  {| Complaint.id := Complaint.id c;
     Complaint.description := Complaint.description c;
     Complaint.department := Complaint.department c;
     Complaint.priority := Complaint.priority c;
     Complaint.category := Complaint.category c;
     Complaint.createdBy := Complaint.createdBy c;
     Complaint.status := "cancelled";
     Complaint.createdAt := Complaint.createdAt c;
     Complaint.updatedAt := now;
     Complaint.estimatedResolutionTime := Complaint.estimatedResolutionTime c;
     Complaint.location := Complaint.location c;
     Complaint.imageUrl := Complaint.imageUrl c;
     Complaint.requiresLocationSharing := Complaint.requiresLocationSharing c;
     Complaint.ticketId := Complaint.ticketId c;
     Complaint.workflow :=
       {| Complaint.step := "cancelled";
          Complaint.nextAction := "none";
          Complaint.completionPercentage := 0;
          Complaint.lastUpdated := now |};
     Complaint.followUpUsers := Complaint.followUpUsers c;
     Complaint.confirmedAt := Complaint.confirmedAt c;
     Complaint.cancelledAt := Some now |}.

Definition cancelComplaint (complaintId : string) (now : Z) : Async.M unit :=
  Async.try_catch
    (Firestore.update_complaint complaintId (cancelUpdate now))
    (fun error => Async.throw error).

(** [ensureCitizenExists], on the fields of [Citizen.t]; the name is kept
    in fields that are not modelled. *)
Definition ensureCitizenExists (phoneNumber : string) (now : Z) : Async.M string :=
  Async.try_catch
    (let formattedPhone := formatPhoneNumber phoneNumber in
     let* _ := Firestore.doc formattedPhone in
     let* s := Async.get_store in
     let* _ :=
       match citizens s !! formattedPhone with
       | None =>
           Firestore.set_citizen formattedPhone
             {| Citizen.ethicalScore := Some 7.5;
                Citizen.totalMessages := Some 0%Z;
                Citizen.complaintsCount := 0;
                Citizen.avgEthicalScore := Some 7.5;
                Citizen.lastUpdated := now |}
       | Some _ =>
           Firestore.update_citizen formattedPhone (fun c =>
             {| Citizen.ethicalScore := Citizen.ethicalScore c;
                Citizen.totalMessages := Firestore.increment (Citizen.totalMessages c) 1;
                Citizen.complaintsCount := Citizen.complaintsCount c;
                Citizen.avgEthicalScore := Citizen.avgEthicalScore c;
                Citizen.lastUpdated := now |})
       end in
     Async.ret formattedPhone)
    (fun error => Async.throw error).

(** The entry of the status list made from a document. *)
Definition complaintSummary (data : Complaint.t) : ComplaintSummary.t :=
  {| ComplaintSummary.id := Complaint.id data;
     ComplaintSummary.ticketId := Js.or_str (Complaint.ticketId data) "Pending";
     ComplaintSummary.description :=
       (String.substring 0 120 (Complaint.description data)
        ++ (if (120 <? String.length (Complaint.description data))%nat
            then "..." else ""))%string;
     ComplaintSummary.department := Complaint.department data;
     ComplaintSummary.status := Complaint.status data;
     ComplaintSummary.priority := Complaint.priority data;
     ComplaintSummary.category := Complaint.category data;
     ComplaintSummary.createdAt := Complaint.createdAt data;
     ComplaintSummary.updatedAt := Complaint.updatedAt data;
     ComplaintSummary.confirmedAt := Complaint.confirmedAt data;
     ComplaintSummary.estimatedResolutionTime := Complaint.estimatedResolutionTime data;
     ComplaintSummary.location := Complaint.location data;
     ComplaintSummary.workflow := Complaint.workflow data;
     ComplaintSummary.imageUrl := Complaint.imageUrl data |}.

(** The order of the status query: [status] ascending, then [createdAt]
    descending. *)
Definition statusOrder (c c' : Complaint.t) : bool :=
  String.ltb (Complaint.status c) (Complaint.status c')
  || (String.eqb (Complaint.status c) (Complaint.status c')
      && (Complaint.createdAt c' <=? Complaint.createdAt c)%Z).

Definition getUserComplaintStatus (phoneNumber : string)
  : Async.M (list ComplaintSummary.t) :=
  Async.try_catch
    (let formattedPhone := formatPhoneNumber phoneNumber in
     let* s := Async.get_store in
     let docs :=
       Firestore.query_by
         (fun c =>
            String.eqb (Complaint.createdBy c) formattedPhone
            && negb (String.eqb (Complaint.status c) "cancelled"))
         statusOrder 25 (complaints s) in
     Async.ret (List.map (fun doc => complaintSummary (snd doc)) docs))
    (fun _ => Async.ret []).

End WithCollaborators.
End FirebaseService.

(** ** webhookController.js: the callers of confirmation and cancellation *)

Module WebhookController.
Section WithCollaborators.
Local Open Scope async_scope.

Variable formatPhoneNumber : string -> string.
Variable geocodeAddress : Q -> Q -> string.

(** The most recent draft of the reporter that still awaits a location. *)
Definition getPendingComplaintForUser (phoneNumber : string)
  : Async.M (option Complaint.t) :=
  Async.try_catch
    (let* s := Async.get_store in
     match Firestore.query_desc
             (fun c =>
                String.eqb (Complaint.createdBy c) phoneNumber
                && String.eqb (Complaint.status c) "draft"
                && Bool.eqb (Complaint.requiresLocationSharing c) true)
             Complaint.createdAt 1 (complaints s) with
     | doc :: _ => Async.ret (Some (snd doc))
     | [] => Async.ret None
     end)
    (fun _ => Async.ret None).

(** The message object under which a location message is saved; every
    field is defined, so that [sanitizeFirestoreData] keeps them all. *)
Definition locationMessage (phoneNumber : string) : MessageData.t :=
  {| MessageData.sender := Some phoneNumber;
     MessageData.messageType := Some "location";
     MessageData.intent := Some "location_sharing";
     MessageData.language := None;
     MessageData.ethicalScore := Some 9 |}.

(** The repository part of the handling of a location message: [Some] of
    the ticket id when a pending complaint was confirmed, [None] for a
    bare acknowledgment or after an error.  The writes of one message
    carry one timestamp. *)
Definition handleLocationMessage (phoneNumber : string)
    (locationData : WhatsappLocation) (ticketId : string) (now : Z)
  : Async.M (option string) :=
  Async.try_catch
    (let* _ := FirebaseService.saveChatMessage formatPhoneNumber phoneNumber
                 (locationMessage phoneNumber) now in
     let* pendingComplaint := getPendingComplaintForUser phoneNumber in
     match pendingComplaint with
     | Some pending =>
         let* ticket :=
           FirebaseService.confirmComplaint formatPhoneNumber geocodeAddress
             (Complaint.id pending) locationData ticketId now in
         Async.ret (Some ticket)
     | None => Async.ret None
     end)
    (fun _ => Async.ret None).

Definition handleComplaintCancellation (complaintId : string) (now : Z)
  : Async.M unit :=
  Async.try_catch
    (FirebaseService.cancelComplaint complaintId now)
    (fun _ => Async.ret tt).

Variable categorizeDepartment : string -> Js.exn string.
Variable assessComplaintPriority : string -> Js.exn string.
Variable categorizeComplaintType : string -> Js.exn string.
Variable compareText : string -> string -> Js.exn TextReply.
Variable compareImages : string -> string -> Js.exn ImageReply.
Variable compareTypes : string -> string -> Js.exn TypeReply.
Variable haversine : Q -> Q -> Q -> Q -> Q.
Variable calculateAddressSimilarity : string -> string -> Q.

(** The repository part of the complaint flow: the duplicate check is made
    without a location and without an image; [None] when the reporter was
    told of a duplicate, the draft otherwise.  [complaintId] is the value
    drawn by [generateComplaintId()]. *)
Definition handleComplaintFlow (messageText phoneNumber : string)
    (imageUrl : option string) (complaintId : string) (now : Z)
  : Async.M (option Complaint.t) :=
  Async.try_catch
    (let* duplicateCheck :=
       FirebaseService.checkDuplicateComplaint formatPhoneNumber categorizeDepartment
         compareText compareImages compareTypes haversine calculateAddressSimilarity
         messageText phoneNumber None None now in
     if isDuplicate duplicateCheck then Async.ret None
     else
       let* draftComplaint :=
         FirebaseService.createDraftComplaint formatPhoneNumber categorizeDepartment
           assessComplaintPriority categorizeComplaintType
           messageText phoneNumber imageUrl complaintId now in
       Async.ret (Some draftComplaint))
    (fun _ => Async.ret None).

End WithCollaborators.
End WebhookController.

(** ** Vocabulary of the properties and running examples *)

(** The verdict [checkComplaintSimilarity] derives from the five analyzer
    results: the aggregate is recomputed from the sub-scores. *)
Definition verdict (b : Breakdown.t) : bool :=
  AiService.decideDuplicateStatus
    (AiService.finalScore (Breakdown.semantic b) (Breakdown.location b)
       (Breakdown.image b) (Breakdown.temporal b) (Breakdown.type b))
    (Breakdown.semantic b) (Breakdown.location b) (Breakdown.image b).

(** [raises_one_score b b']: [b'] is [b] with exactly one of the five
    sub-scores replaced by a value at least as large; every other field,
    [withinProximity] included, is unchanged. *)
Inductive raises_one_score (b : Breakdown.t) : Breakdown.t -> Prop :=
| raise_text x :
    Semantic.score (Breakdown.semantic b) <= x ->
    raises_one_score b
      (Breakdown.mk (Semantic.with_score (Breakdown.semantic b) x) (Breakdown.location b)
         (Breakdown.image b) (Breakdown.temporal b) (Breakdown.type b))
| raise_location x :
    Proximity.score (Breakdown.location b) <= x ->
    raises_one_score b
      (Breakdown.mk (Breakdown.semantic b) (Proximity.with_score (Breakdown.location b) x)
         (Breakdown.image b) (Breakdown.temporal b) (Breakdown.type b))
| raise_image x :
    Image.score (Breakdown.image b) <= x ->
    raises_one_score b
      (Breakdown.mk (Breakdown.semantic b) (Breakdown.location b)
         (Image.with_score (Breakdown.image b) x) (Breakdown.temporal b) (Breakdown.type b))
| raise_recency x :
    Temporal.score (Breakdown.temporal b) <= x ->
    raises_one_score b
      (Breakdown.mk (Breakdown.semantic b) (Breakdown.location b) (Breakdown.image b)
         (Temporal.with_score (Breakdown.temporal b) x) (Breakdown.type b))
| raise_category x :
    ComplaintType.score (Breakdown.type b) <= x ->
    raises_one_score b
      (Breakdown.mk (Breakdown.semantic b) (Breakdown.location b) (Breakdown.image b)
         (Breakdown.temporal b) (ComplaintType.with_score (Breakdown.type b) x)).

(** All five sub-scores of a breakdown lie in [0, 1]. *)
Definition sub_scores_in_unit (b : Breakdown.t) : Prop :=
  0 <= Semantic.score (Breakdown.semantic b) <= 1 /\
  0 <= Proximity.score (Breakdown.location b) <= 1 /\
  0 <= Image.score (Breakdown.image b) <= 1 /\
  0 <= Temporal.score (Breakdown.temporal b) <= 1 /\
  0 <= ComplaintType.score (Breakdown.type b) <= 1.

(** The cascade of [decideDuplicateStatus] as a disjunction of its rules. *)
Definition duplicate_rules (finalScore : Q) (semantic : Semantic.t)
    (location : Proximity.t) (image : Image.t) : Prop :=
  0.85 <= finalScore \/
  (0.75 <= finalScore /\ Proximity.withinProximity location = true) \/
  (0.85 <= Semantic.score semantic /\ 0.70 <= Proximity.score location) \/
  (0.90 <= Proximity.score location /\ 0.60 <= Semantic.score semantic) \/
  (0.80 <= Image.score image /\ 0.60 <= Proximity.score location) \/
  0.80 <= finalScore.

(** A breakdown with close text and a nearby location. *)
Definition sample_breakdown : Breakdown.t :=
  Breakdown.mk
    (Semantic.mk 0.85 "same leak" true true true)
    (Proximity.mk 0.7 (Some 0.15) "Nearby" true (Some 0))
    (Image.mk 0 "One or both images missing" None None false)
    (Temporal.mk 0.1 "Old complaint" None)
    (ComplaintType.mk 1 true "water_supply" "water_supply").

(** A language model that finds the two reports alike. *)
Definition agreeing_text : string -> string -> Js.exn TextReply :=
  fun _ _ => Js.Ok {| text_score := Some 0.9; text_reasoning := Some "same leak";
                      problem_match := Some true; severity_match := Some true;
                      infrastructure_match := Some true |}.
Definition agreeing_images : string -> string -> Js.exn ImageReply :=
  fun _ _ => Js.Ok {| image_score := Some 0.8; image_reasoning := Some "same pipe";
                      same_location := Some true; same_problem := Some true;
                      visual_match := Some true |}.
Definition agreeing_types : string -> string -> Js.exn TypeReply :=
  fun _ _ => Js.Ok {| type_score := Some 1; same_type := Some true;
                      new_type := Some "water_supply";
                      existing_type := Some "water_supply" |}.

(** A decimal square root (fifteen digits), to run the update on examples. *)
Definition sqrt_dec (x : Q) : Q :=
  inject_Z (Z.sqrt (Qfloor (x * inject_Z (10 ^ 30)))) / inject_Z (10 ^ 15).

(** A store holding one reporter. *)
Definition one_citizen (phone : string) (c : Citizen.t) : Store :=
  {| complaints := ∅; tickets := ∅; citizens := {[ phone := c ]}; chats := ∅ |}.

(** The stored score of a reporter, when the reporter exists and has one. *)
Definition stored_score (phone : string) (s : Store) : option Q :=
  match citizens s !! phone with
  | Some c => Citizen.ethicalScore c
  | None => None
  end.

(** The update rule of the reputation tracker in the words of the
    specification: weight = min (totalMessages, 100),
    decay = max (0.1, 1 / sqrt (totalMessages + 1)),
    newScore = (currentScore weight (1 - decay) + messageScore 3)
               / (weight (1 - decay) + 3),
    result = clamp (round (newScore, 1 decimal), 1, 10). *)
Definition reputation_formula (sqrt : Q -> Q)
    (currentScore totalMessages messageScore : Q) : Q :=
  let weight := Js.Math_min totalMessages 100 in
  let decay := Js.Math_max 0.1 (1 / sqrt (totalMessages + 1)) in
  let newScore :=
    (currentScore * weight * (1 - decay) + messageScore * 3)
    / (weight * (1 - decay) + 3) in
  let rounded := inject_Z (Qfloor (newScore * 10 + (1 # 2))) / 10 in
  Js.Math_max 1 (Js.Math_min 10 rounded).

(** The haversine distance of two points of one meridian is the earth
    radius times the difference of their latitudes in radians; 355/113
    stands for pi. *)
Definition meridian_km (lat1 lon1 lat2 lon2 : Q) : Q :=
  6371 * Qabs (lat2 - lat1) * (355 # 113) / 180.

(** An active, ticketed complaint. *)
Definition active_complaint (id description createdBy : string) (createdAt : Z)
    (location : Location) (imageUrl : option string) : Complaint.t :=
  {| Complaint.id := id;
     Complaint.description := description;
     Complaint.department := "Water Supply";
     Complaint.priority := "medium";
     Complaint.category := "General Services";
     Complaint.createdBy := createdBy;
     Complaint.status := "active";
     Complaint.createdAt := createdAt;
     Complaint.updatedAt := createdAt;
     Complaint.estimatedResolutionTime := 24;
     Complaint.location := Some location;
     Complaint.imageUrl := imageUrl;
     Complaint.requiresLocationSharing := false;
     Complaint.ticketId := Some ("T" ++ id)%string;
     Complaint.workflow :=
       {| Complaint.step := "confirmed";
          Complaint.nextAction := "assign_department";
          Complaint.completionPercentage := 60;
          Complaint.lastUpdated := createdAt |};
     Complaint.followUpUsers := None;
     Complaint.confirmedAt := Some createdAt;
     Complaint.cancelledAt := None |}.

Definition signal_junction : Location :=
  {| latitude := 18.62; longitude := 73.80; address := None |}.
Definition one_degree_north : Location :=
  {| latitude := 19.62; longitude := 73.80; address := None |}.

(** Two open complaints of other reporters: [A] at the place of the new
    report, without a photo; [B] a hundred kilometres away, with a photo. *)
Definition shadow_store : Store :=
  {| complaints :=
       {[ "A" := active_complaint "A" "Pipe leaking at the signal" "919000000002"
                   1699990000000 signal_junction None;
          "B" := active_complaint "B" "Water leaking near the main signal" "919000000003"
                   1699995000000 one_degree_north (Some "b.jpg") ]};
     tickets := ∅;
     citizens := ∅; chats := ∅ |}.

(** The language model finds the text of [A] fairly close (0.6), the text
    of [B] identical, the photos alike and the categories equal. *)
Definition shadow_text (newComplaint existingComplaint : string) : Js.exn TextReply :=
  Js.Ok {| text_score :=
             Some (if String.eqb existingComplaint "Pipe leaking at the signal"
                   then 0.6 else 1.0);
           text_reasoning := None; problem_match := None; severity_match := None;
           infrastructure_match := None |}.
Definition shadow_images (newImageUrl existingImageUrl : string) : Js.exn ImageReply :=
  Js.Ok {| image_score := Some 1.0; image_reasoning := None; same_location := None;
           same_problem := None; visual_match := None |}.
Definition shadow_types (newComplaint existingComplaint : string) : Js.exn TypeReply :=
  Js.Ok {| type_score := Some 1.0; same_type := Some true; new_type := None;
           existing_type := None |}.

Definition shadow_similarity (existing : Complaint.t) : Similarity.t :=
  AiService.checkComplaintSimilarity shadow_text shadow_images shadow_types
    meridian_km (fun _ _ => 0) 1700000000000
    "Water leaking near the main signal" (Complaint.description existing)
    (Some signal_junction) (Complaint.location existing)
    (Some "new.jpg") (Complaint.imageUrl existing).

(** The reporters attached to a complaint document; none while the
    document has no [followUpUsers] field. *)
Definition complaint_followers (c : Complaint.t) : list string :=
  default [] (Complaint.followUpUsers c).

(** Run an asynchronous operation for its final store. *)
Definition exec {A : Type} (m : Async.M A) (s : Store) : Store := snd (m s).

Definition empty_store : Store := {| complaints := ∅; tickets := ∅; citizens := ∅;
                                     chats := ∅ |}.

(** A reporter drafts a complaint, shares a location, and a second
    reporter is then attached by the duplicate path. *)
Definition drafted : Store :=
  exec (FirebaseService.createDraftComplaint (fun phone => phone)
          (fun _ => Js.Ok "Water Supply") (fun _ => Js.Ok "high")
          (fun _ => Js.Ok "Water Leakage")
          "Pipe leaking at the signal" "919000000002" None
          "PCMC-20231114-0A1B2C" 1699990000000)
       empty_store.

Definition confirmed : Store :=
  exec (FirebaseService.confirmComplaint (fun phone => phone)
          (fun _ _ => "Location: 18.62, 73.8")
          "PCMC-20231114-0A1B2C"
          {| wa_latitude := 18.62; wa_longitude := 73.80; wa_address := None |}
          "LOY5K3QZ" 1699990060000)
       drafted.

Definition joined : Store :=
  exec (FirebaseService.addUserToComplaintFollowUp (fun phone => phone)
          "PCMC-20231114-0A1B2C" "919000000001" 1700000000000)
       confirmed.

(** The [locationData] that [confirmComplaint] builds from a message. *)
Definition locationData_of (geocodeAddress : Q -> Q -> string)
    (w : WhatsappLocation) : Location :=
  {| latitude := wa_latitude w;
     longitude := wa_longitude w;
     address := Some (Js.or_str (wa_address w)
                        (geocodeAddress (wa_latitude w) (wa_longitude w))) |}.

(** The chat document under which a location message is saved. *)
Definition location_chat (phoneNumber formattedPhone : string) (now : Z) : Chat.t :=
  {| Chat.sender := Js.or_str (Some phoneNumber) formattedPhone;
     Chat.messageType := "location";
     Chat.intent := "location_sharing";
     Chat.language := "auto";
     Chat.ethicalScore := 9;
     Chat.createdAt := now |}.

(** A profile whose time stamp alone has moved. *)
Definition touched (now : Z) (c : Citizen.t) : Citizen.t :=
  Citizen.mk (Citizen.ethicalScore c) (Citizen.totalMessages c)
    (Citizen.complaintsCount c) (Citizen.avgEthicalScore c) now.

(** What the saving of a location message leaves in the store [s0]: one
    more chat document of the sender; the profile kept under the number
    the statistics are filed under is touched when there is one; no
    complaint and no ticket is written. *)
Definition location_saved (formatPhoneNumber : string -> string)
    (phoneNumber : string) (now : Z) (s s0 : Store) : Prop :=
  let formattedPhone := formatPhoneNumber phoneNumber in
  let statsPhone := formatPhoneNumber formattedPhone in
  complaints s0 = complaints s /\
  tickets s0 = tickets s /\
  chats s0
  = <[formattedPhone :=
        default [] (chats s !! formattedPhone)
        ++ [location_chat phoneNumber formattedPhone now]]> (chats s) /\
  (citizens s0 = citizens s \/
   exists c, statsPhone <> "" /\ citizens s !! statsPhone = Some c /\
             citizens s0 = <[statsPhone := touched now c]> (citizens s)).

(** The workflow percentage of the complaint stored under [id]; 0 when
    there is none. *)
Definition percentage (id : string) (s : Store) : Z :=
  match complaints s !! id with
  | Some c => Complaint.completionPercentage (Complaint.workflow c)
  | None => 0
  end.

(** Every complaint document carries its document id in its [id] field, as
    [createDraftComplaint] writes it. *)
Definition wf_ids (s : Store) : Prop :=
  forall k c, complaints s !! k = Some c -> Complaint.id c = k.

(** Documents carry their id, and no workflow percentage exceeds 60. *)
Definition well_formed (s : Store) : Prop :=
  wf_ids s /\ forall id, (percentage id s <= 60)%Z.

(** The complaint under [id] is cancelled and its workflow is at 0. *)
Definition cancelled_at_zero (id : string) (s : Store) : Prop :=
  exists c, complaints s !! id = Some c /\
            Complaint.status c = "cancelled" /\
            Complaint.completionPercentage (Complaint.workflow c) = 0%Z.

(** What reaches the repository from the reporter's side. *)
Inductive Event :=
| LocationShared (phoneNumber : string) (locationData : WhatsappLocation)
    (ticketId : string) (now : Z)
| CancelPressed (complaintId : string) (now : Z).

(** Number of strict decreases between consecutive values. *)
Fixpoint drops (l : list Z) : nat :=
  match l with
  | a :: l' =>
      match l' with
      | b :: _ => ((if (b <? a)%Z then 1 else 0) + drops l')%nat
      | [] => 0%nat
      end
  | [] => 0%nat
  end.

(** The draft of the running example, cancelled. *)
Definition cancelled : Store :=
  exec (FirebaseService.cancelComplaint "PCMC-20231114-0A1B2C" 1699990100000) drafted.

(** The running example: the reporter shares a location, presses cancel,
    shares a location again and presses cancel again. *)
Definition reporter_events : list Event :=
  [ LocationShared "919000000002"
      {| wa_latitude := 18.62; wa_longitude := 73.80; wa_address := None |}
      "LOY5K3QZ" 1699990060000;
    CancelPressed "PCMC-20231114-0A1B2C" 1699990100000;
    LocationShared "919000000002"
      {| wa_latitude := 18.62; wa_longitude := 73.80; wa_address := None |}
      "LOY5M7PA" 1699990200000;
    CancelPressed "PCMC-20231114-0A1B2C" 1699990300000 ].

(** Every ticket has its creator among its followers. *)
Definition tickets_follow_creator (s : Store) : Prop :=
  forall k t, tickets s !! k = Some t -> Ticket.createdBy t ∈ Ticket.followUpUsers t.

(** The calls of the repository that write complaints and tickets. *)
Inductive ServiceCall :=
| CreateDraft (description phoneNumber : string) (imageUrl : option string)
    (complaintId : string) (now : Z)
| Confirm (complaintId : string) (w : WhatsappLocation) (ticketId : string) (now : Z)
| Cancel (complaintId : string) (now : Z)
| Join (complaintId phoneNumber : string) (now : Z).

(** The reporter's events over the repository. *)
Section ReporterEvents.
Variable formatPhoneNumber : string -> string.
Variable geocodeAddress : Q -> Q -> string.

(** The store after the handling of an event. *)
Definition handle (ev : Event) (s : Store) : Store :=
  match ev with
  | LocationShared phoneNumber locationData ticketId now =>
      exec (WebhookController.handleLocationMessage formatPhoneNumber geocodeAddress
              phoneNumber locationData ticketId now) s
  | CancelPressed complaintId now =>
      exec (WebhookController.handleComplaintCancellation complaintId now) s
  end.

(** The successive workflow percentages of a complaint along the events. *)
Fixpoint trace (id : string) (evs : list Event) (s : Store) : list Z :=
  percentage id s ::
  match evs with
  | ev :: evs' => trace id evs' (handle ev s)
  | [] => []
  end.

End ReporterEvents.

(** The scan of the candidate pool, candidate by candidate. *)
Section ScanVocabulary.
Variable categorizeDepartment : string -> Js.exn string.
Variable compareText : string -> string -> Js.exn TextReply.
Variable compareImages : string -> string -> Js.exn ImageReply.
Variable compareTypes : string -> string -> Js.exn TypeReply.
Variable haversine : Q -> Q -> Q -> Q -> Q.
Variable calculateAddressSimilarity : string -> string -> Q.
Variable complaintText : string.
Variable formattedPhone : string.
Variable location : option Location.
Variable imageUrl : option string.
Variable now : Z.

(** The similarity the engine reports for a candidate. *)
Definition similarity_of (c : Complaint.t) : Similarity.t :=
  AiService.checkComplaintSimilarity compareText compareImages compareTypes
    haversine calculateAddressSimilarity now
    complaintText (Complaint.description c) location (Complaint.location c)
    imageUrl (Complaint.imageUrl c).

(** A candidate is scanned unless it is the reporter's own, or the
    department differs and the two places are not known to be within
    200 m. *)
Definition scanned (c : Complaint.t) : bool :=
  negb (String.eqb (Complaint.createdBy c) formattedPhone)
  && negb
       match categorizeDepartment complaintText with
       | Js.Ok newDepartment =>
           negb (String.eqb (Complaint.department c) newDepartment)
           && (negb (is_Some_b location)
               || negb (is_Some_b (Complaint.location c))
               || match FirebaseService.calculateQuickDistance haversine location
                          (Complaint.location c) with
                  | Some d => negb (Qle_bool d 0.2)
                  | None => true
                  end)
       | Js.Throw _ => false
       end.

Definition retained (d : string * Complaint.t) : Match.t :=
  Match.mk (snd d) (similarity_of (snd d)) (fst d).

(** The state of the scan after the documents [done]. *)
Definition scan_inv (done : list (string * Complaint.t)) (state : option Match.t * Q)
  : Prop :=
  0 <= snd state /\
  (forall d, d ∈ done -> scanned (snd d) = true ->
             Similarity.score (similarity_of (snd d)) <= snd state) /\
  match fst state with
  | Some m => exists d, d ∈ done /\ scanned (snd d) = true /\ m = retained d /\
                        snd state = Similarity.score (similarity_of (snd d))
  | None => snd state = 0
  end.

End ScanVocabulary.

Section ServiceCalls.
Variable formatPhoneNumber : string -> string.
Variable categorizeDepartment : string -> Js.exn string.
Variable assessComplaintPriority : string -> Js.exn string.
Variable categorizeComplaintType : string -> Js.exn string.
Variable geocodeAddress : Q -> Q -> string.

Definition call (c : ServiceCall) (s : Store) : Store :=
  match c with
  | CreateDraft description phoneNumber imageUrl complaintId now =>
      exec (FirebaseService.createDraftComplaint formatPhoneNumber categorizeDepartment
              assessComplaintPriority categorizeComplaintType
              description phoneNumber imageUrl complaintId now) s
  | Confirm complaintId w ticketId now =>
      exec (FirebaseService.confirmComplaint formatPhoneNumber geocodeAddress
              complaintId w ticketId now) s
  | Cancel complaintId now =>
      exec (FirebaseService.cancelComplaint complaintId now) s
  | Join complaintId phoneNumber now =>
      exec (FirebaseService.addUserToComplaintFollowUp formatPhoneNumber
              complaintId phoneNumber now) s
  end.

End ServiceCalls.

(** A string of decimal digits only. *)
Definition digits_only (s : string) : Prop := Js.keep_digits s = s.

(** The value of an upper-case base-36 digit, and of a numeral
    ([parseInt(s, 36)] on such a numeral). *)
Definition value36 (c : ascii) : Z :=
  let n := Z.of_nat (nat_of_ascii c) in
  if (n <? 58)%Z then (n - 48)%Z else (n - 55)%Z.

Definition decode36 (s : string) : Z :=
  fold_left (fun acc c => (36 * acc + value36 c)%Z) (list_ascii_of_string s) 0%Z.

(** No [null] and no [undefined] below [v], outside FirebaseService.preserved objects. *)
Fixpoint defined_inside (v : JsValue) : bool :=
  match v with
  | JsArray items =>
      forallb (fun item => negb (Value.is_null item) && negb (Value.is_undefined item)
                           && defined_inside item) items
  | JsObject constructorName entries =>
      FirebaseService.preserved constructorName entries
      || forallb (fun entry => negb (Value.is_null (snd entry))
                               && negb (Value.is_undefined (snd entry))
                               && defined_inside (snd entry)) entries
  | _ => true
  end.

(** The entries that [FirebaseService.sanitizeFirestoreData] keeps of a regular object. *)
Fixpoint sanitized_entries (entries : list (string * JsValue))
  : list (string * JsValue) :=
  match entries with
  | (key, value) :: rest =>
      let sanitizedValue := FirebaseService.sanitizeFirestoreData value in
      if Value.is_null sanitizedValue then sanitized_entries rest
      else (key, sanitizedValue) :: sanitized_entries rest
  | [] => []
  end.

Section JsValue_induction.
Variable P : JsValue -> Prop.
Hypothesis Hnull : P JsNull.
Hypothesis Hundefined : P JsUndefined.
Hypothesis Hbool : forall b, P (JsBool b).
Hypothesis Hnumber : forall q, P (JsNumber q).
Hypothesis Hstring : forall s, P (JsString s).
Hypothesis Hdate : forall t, P (JsDate t).
Hypothesis Harray : forall items, Forall P items -> P (JsArray items).
Hypothesis Hobject :
  forall c entries, Forall (fun entry => P (snd entry)) entries -> P (JsObject c entries).

Fixpoint JsValue_induction (v : JsValue) : P v :=
  match v with
  | JsNull => Hnull
  | JsUndefined => Hundefined
  | JsBool b => Hbool b
  | JsNumber q => Hnumber q
  | JsString s => Hstring s
  | JsDate t => Hdate t
  | JsArray items =>
      Harray items
        ((fix all (l : list JsValue) : Forall P l :=
            match l with
            | [] => @List.Forall_nil _ P
            | x :: l' => @List.Forall_cons _ P x l' (JsValue_induction x) (all l')
            end) items)
  | JsObject c entries =>
      Hobject c entries
        ((fix all (l : list (string * JsValue)) : Forall (fun entry => P (snd entry)) l :=
            match l with
            | [] => @List.Forall_nil _ _
            | entry :: l' =>
                @List.Forall_cons _ (fun entry => P (snd entry)) entry l'
                  (JsValue_induction (snd entry)) (all l')
            end) entries)
  end.
End JsValue_induction.

(** The scores the language model replies lie in [lo, hi]; the prompts
    ask for a score between 0.0 and 1.0. *)
Definition replies_within
    (compareText : string -> string -> Js.exn TextReply)
    (compareImages : string -> string -> Js.exn ImageReply)
    (compareTypes : string -> string -> Js.exn TypeReply) (lo hi : Q) : Prop :=
  (forall a b r, compareText a b = Js.Ok r -> lo <= Js.or_num (text_score r) 0 <= hi) /\
  (forall a b r, compareImages a b = Js.Ok r -> lo <= Js.or_num (image_score r) 0 <= hi) /\
  (forall a b r, compareTypes a b = Js.Ok r -> lo <= Js.or_num (type_score r) 0 <= hi).

(** A draft of the reporter that still awaits a location. *)
Definition pending_draft (phoneNumber : string) (c : Complaint.t) : bool :=
  String.eqb (Complaint.createdBy c) phoneNumber
  && String.eqb (Complaint.status c) "draft"
  && Bool.eqb (Complaint.requiresLocationSharing c) true.

(** An open complaint of the 30 days before [now]: the filter of the
    candidate query. *)
Definition open_candidate (now : Z) (c : Complaint.t) : bool :=
  (String.eqb (Complaint.status c) "active"
   || String.eqb (Complaint.status c) "in_progress"
   || String.eqb (Complaint.status c) "open")
  && (now - 30 * 24 * 60 * 60 * 1000 <=? Complaint.createdAt c)%Z.

(** The update that a follow-up join makes to a complaint and to a ticket. *)
Definition complaint_joined (phone : string) (now : Z) (c : Complaint.t) : Complaint.t :=
  {| Complaint.id := Complaint.id c;
     Complaint.description := Complaint.description c;
     Complaint.department := Complaint.department c;
     Complaint.priority := Complaint.priority c;
     Complaint.category := Complaint.category c;
     Complaint.createdBy := Complaint.createdBy c;
     Complaint.status := Complaint.status c;
     Complaint.createdAt := Complaint.createdAt c;
     Complaint.updatedAt := now;
     Complaint.estimatedResolutionTime := Complaint.estimatedResolutionTime c;
     Complaint.location := Complaint.location c;
     Complaint.imageUrl := Complaint.imageUrl c;
     Complaint.requiresLocationSharing := Complaint.requiresLocationSharing c;
     Complaint.ticketId := Complaint.ticketId c;
     Complaint.workflow := Complaint.workflow c;
     Complaint.followUpUsers := Some (Firestore.arrayUnion (Complaint.followUpUsers c) phone);
     Complaint.confirmedAt := Complaint.confirmedAt c;
     Complaint.cancelledAt := Complaint.cancelledAt c |}.

Definition ticket_joined (phone : string) (now : Z) (t : Ticket.t) : Ticket.t :=
  {| Ticket.ticketId := Ticket.ticketId t;
     Ticket.complaintId := Ticket.complaintId t;
     Ticket.createdBy := Ticket.createdBy t;
     Ticket.department := Ticket.department t;
     Ticket.status := Ticket.status t;
     Ticket.priority := Ticket.priority t;
     Ticket.category := Ticket.category t;
     Ticket.description := Ticket.description t;
     Ticket.location := Ticket.location t;
     Ticket.createdAt := Ticket.createdAt t;
     Ticket.updatedAt := now;
     Ticket.estimatedResolution := Ticket.estimatedResolution t;
     Ticket.assignedTo := Ticket.assignedTo t;
     Ticket.updates := Ticket.updates t;
     Ticket.followUpUsers := Firestore.arrayUnion (Some (Ticket.followUpUsers t)) phone;
     Ticket.workflow := Ticket.workflow t |}.

(** The three shapes of a complaint document. *)
Definition lifecycle_shape (c : Complaint.t) : Prop :=
  (Complaint.status c = "draft" /\
   Complaint.completionPercentage (Complaint.workflow c) = 30%Z /\
   Complaint.requiresLocationSharing c = true /\
   Complaint.ticketId c = None /\ Complaint.location c = None /\
   Complaint.confirmedAt c = None /\ Complaint.cancelledAt c = None) \/
  (Complaint.status c = "active" /\
   Complaint.completionPercentage (Complaint.workflow c) = 60%Z /\
   Complaint.requiresLocationSharing c = false /\
   is_Some (Complaint.ticketId c) /\ is_Some (Complaint.location c) /\
   is_Some (Complaint.confirmedAt c)) \/
  (Complaint.status c = "cancelled" /\
   Complaint.completionPercentage (Complaint.workflow c) = 0%Z /\
   is_Some (Complaint.cancelledAt c)).

(** Complaints have one of the three shapes and point to stored tickets;
    tickets are open, at 70, stored under their id, and belong to stored
    complaints. *)
Definition lifecycle_invariant (s : Store) : Prop :=
  (forall k c, complaints s !! k = Some c ->
     Complaint.id c = k /\ lifecycle_shape c /\
     forall ticketId, Complaint.ticketId c = Some ticketId ->
                      is_Some (tickets s !! ticketId)) /\
  (forall k t, tickets s !! k = Some t ->
     Ticket.ticketId t = k /\ Ticket.status t = "open" /\
     Ticket.completionPercentage (Ticket.workflow t) = 70%Z /\
     is_Some (complaints s !! Ticket.complaintId t)).

(** The calls of the repository that write reporters' profiles, beside
    the calls that write complaints and tickets. *)
Inductive ProfileCall :=
| Ensure (phoneNumber : string) (now : Z)
| Rate (phoneNumber : string) (messageEthicalScore : Q) (now : Z)
| Saved (phoneNumber : string) (messageData : MessageData.t) (now : Z)
| Service (c : ServiceCall).

(** A profile as the service keeps it. *)
Definition profile_shape (c : Citizen.t) : Prop :=
  (exists q, Citizen.ethicalScore c = Some q /\ 1 <= q <= 10) /\
  Citizen.avgEthicalScore c = Citizen.ethicalScore c /\
  (0 <= Citizen.complaintsCount c)%Z.

Section ProfileCalls.
Variable formatPhoneNumber : string -> string.
Variable Math_sqrt : Q -> Q.
Variable categorizeDepartment : string -> Js.exn string.
Variable assessComplaintPriority : string -> Js.exn string.
Variable categorizeComplaintType : string -> Js.exn string.
Variable geocodeAddress : Q -> Q -> string.

Definition profile_call (c : ProfileCall) (s : Store) : Store :=
  match c with
  | Ensure phoneNumber now =>
      exec (FirebaseService.ensureCitizenExists formatPhoneNumber phoneNumber now) s
  | Rate phoneNumber messageEthicalScore now =>
      exec (FirebaseService.updateCitizenEthicalScore formatPhoneNumber Math_sqrt
              phoneNumber messageEthicalScore now) s
  | Saved phoneNumber messageData now =>
      exec (FirebaseService.saveChatMessage formatPhoneNumber
              phoneNumber messageData now) s
  | Service c =>
      call formatPhoneNumber categorizeDepartment assessComplaintPriority
        categorizeComplaintType geocodeAddress c s
  end.

(** The number of [ensureCitizenExists] calls made for a number that
    formats to [phone]: one per incoming message of that sender. *)
Definition ensured (phone : string) (calls : list ProfileCall) : Z :=
  Z.of_nat
    (length
       (List.filter
          (fun c => match c with
                    | Ensure phoneNumber _ => String.eqb (formatPhoneNumber phoneNumber) phone
                    | _ => false
                    end) calls)).

End ProfileCalls.

(** The profile kept under a formatted number after [n] calls of
    [ensureCitizenExists] for it: none when the number is the empty string
    (the store refuses the document id) or [n = 0]; otherwise a profile of
    the shape above whose [totalMessages] is [n - 1]. *)
Definition profile_state (s : Store) (phone : string) (n : Z) : Prop :=
  match citizens s !! phone with
  | Some c =>
      phone <> "" /\ profile_shape c /\
      Citizen.totalMessages c = Some (n - 1)%Z /\ (1 <= n)%Z
  | None => phone = "" \/ n = 0%Z
  end.

(** * Properties *)

(** ** Properties of the similarity engine *)

(** Comparisons computed by the code, read as propositions. *)
Lemma Qle_bool_false (x y : Q) : Qle_bool x y = false <-> y < x.
Proof.
  split; intros H.
  - apply Qnot_le_lt. intros Hle. apply Qle_bool_iff in Hle. congruence.
  - destruct (Qle_bool x y) eqn:E; [|reflexivity].
    apply Qle_bool_iff in E. exfalso. exact (Qlt_not_le _ _ H E).
Qed.

Ltac reflect_Qle :=
  repeat match goal with
    | H : Qle_bool _ _ = true |- _ => apply Qle_bool_iff in H
    | H : Qle_bool _ _ = false |- _ => apply Qle_bool_false in H
    end.

Ltac case_Qle :=
  repeat match goal with
    | |- context [Qle_bool ?a ?b] =>
        let E := fresh "E" in destruct (Qle_bool a b) eqn:E
    end.

Lemma Math_max_lower (a b : Q) : a <= Js.Math_max a b.
Proof. unfold Js.Math_max. case_Qle; reflect_Qle; lra. Qed.

Lemma Math_max_min_upper (a b x : Q) : a <= b -> Js.Math_max a (Js.Math_min b x) <= b.
Proof. intros H. unfold Js.Math_max, Js.Math_min. case_Qle; reflect_Qle; lra. Qed.

Lemma decideDuplicateStatus_true_iff (finalScore : Q) (semantic : Semantic.t)
    (location : Proximity.t) (image : Image.t) :
  AiService.decideDuplicateStatus finalScore semantic location image = true <->
  duplicate_rules finalScore semantic location image.
Proof.
  unfold AiService.decideDuplicateStatus, duplicate_rules.
  destruct (Proximity.withinProximity location);
    case_Qle; simpl; reflect_Qle; split; intros H;
    try reflexivity; try discriminate;
    try (exfalso; intuition (try discriminate; lra));
    intuition lra.
Qed.

(** C6. The duplicate verdict is true exactly when one of the six rules
    holds (aggregate at least 0.85; aggregate at least 0.75 and within
    proximity; text at least 0.85 and location at least 0.70; location at
    least 0.90 and text at least 0.60; image at least 0.80 and location at
    least 0.60; aggregate at least 0.80), and false otherwise. *)
Theorem decideDuplicateStatus_rules (finalScore : Q) (semantic : Semantic.t)
    (location : Proximity.t) (image : Image.t) :
  (AiService.decideDuplicateStatus finalScore semantic location image = true <->
   0.85 <= finalScore \/
   (0.75 <= finalScore /\ Proximity.withinProximity location = true) \/
   (0.85 <= Semantic.score semantic /\ 0.70 <= Proximity.score location) \/
   (0.90 <= Proximity.score location /\ 0.60 <= Semantic.score semantic) \/
   (0.80 <= Image.score image /\ 0.60 <= Proximity.score location) \/
   0.80 <= finalScore) /\
  (AiService.decideDuplicateStatus finalScore semantic location image = false <->
   ~ (0.85 <= finalScore \/
      (0.75 <= finalScore /\ Proximity.withinProximity location = true) \/
      (0.85 <= Semantic.score semantic /\ 0.70 <= Proximity.score location) \/
      (0.90 <= Proximity.score location /\ 0.60 <= Semantic.score semantic) \/
      (0.80 <= Image.score image /\ 0.60 <= Proximity.score location) \/
      0.80 <= finalScore)).
Proof.
  pose proof (decideDuplicateStatus_true_iff finalScore semantic location image) as Hiff.
  unfold duplicate_rules in Hiff.
  split; [exact Hiff|].
  rewrite <- Hiff.
  destruct (AiService.decideDuplicateStatus finalScore semantic location image);
    split; intros H; congruence.
Qed.

Lemma finalScore_monotone (s s' : Semantic.t) (l l' : Proximity.t) (i i' : Image.t)
    (t t' : Temporal.t) (c c' : ComplaintType.t) :
  Semantic.score s <= Semantic.score s' ->
  Proximity.score l <= Proximity.score l' ->
  Image.score i <= Image.score i' ->
  Temporal.score t <= Temporal.score t' ->
  ComplaintType.score c <= ComplaintType.score c' ->
  AiService.finalScore s l i t c <= AiService.finalScore s' l' i' t' c'.
Proof.
  intros Hs Hl Hi Ht Hc. unfold AiService.finalScore, AiService.weights. simpl. lra.
Qed.

(** Raising sub-scores pointwise, with [withinProximity] kept, keeps a
    duplicate verdict. *)
Lemma verdict_monotone (b b' : Breakdown.t) :
  Semantic.score (Breakdown.semantic b) <= Semantic.score (Breakdown.semantic b') ->
  Proximity.score (Breakdown.location b) <= Proximity.score (Breakdown.location b') ->
  Image.score (Breakdown.image b) <= Image.score (Breakdown.image b') ->
  Temporal.score (Breakdown.temporal b) <= Temporal.score (Breakdown.temporal b') ->
  ComplaintType.score (Breakdown.type b) <= ComplaintType.score (Breakdown.type b') ->
  Proximity.withinProximity (Breakdown.location b')
  = Proximity.withinProximity (Breakdown.location b) ->
  verdict b = true -> verdict b' = true.
Proof.
  intros Hs Hl Hi Ht Hc Hw. unfold verdict.
  pose proof (finalScore_monotone _ _ _ _ _ _ _ _ _ _ Hs Hl Hi Ht Hc) as Hf.
  intros H.
  apply decideDuplicateStatus_true_iff in H.
  apply decideDuplicateStatus_true_iff.
  unfold duplicate_rules in *. rewrite Hw. intuition lra.
Qed.

(** C7. [decideDuplicateStatus] is monotonic: raising any one sub-score,
    the others held fixed, the weighted aggregate recomputed and
    [withinProximity] unchanged, never turns a duplicate verdict into a
    non-duplicate one. *)
Theorem decideDuplicateStatus_monotonic (b b' : Breakdown.t) :
  raises_one_score b b' -> verdict b = true -> verdict b' = true.
Proof.
  intros Hraise. apply verdict_monotone;
    destruct Hraise; simpl; try reflexivity; try apply Qle_refl; assumption.
Qed.

Lemma decideDuplicateStatus_monotonic_witness :
  verdict (Breakdown.mk (Semantic.with_score (Breakdown.semantic sample_breakdown) 0.9)
             (Breakdown.location sample_breakdown) (Breakdown.image sample_breakdown)
             (Breakdown.temporal sample_breakdown) (Breakdown.type sample_breakdown))
  = true.
Proof.
  apply (decideDuplicateStatus_monotonic sample_breakdown).
  - apply raise_text. simpl. unfold Qle. simpl. lia.
  - vm_compute. reflexivity.
Defined.

(** C8. The aggregate score reported by [checkComplaintSimilarity] is
    0.35 text + 0.30 location + 0.20 image + 0.10 recency + 0.05 category
    over the five analyzer results of its breakdown; the weights sum to 1,
    so the aggregate lies in [0, 1] whenever every sub-score does. *)
Theorem checkComplaintSimilarity_weighted_sum
    (compareText : string -> string -> Js.exn TextReply)
    (compareImages : string -> string -> Js.exn ImageReply)
    (compareTypes : string -> string -> Js.exn TypeReply)
    (calculateDistance : Q -> Q -> Q -> Q -> Q)
    (calculateAddressSimilarity : string -> string -> Q) (now : Z)
    (newComplaint existingComplaint : string)
    (newLocation existingLocation : option Location)
    (newImageUrl existingImageUrl : option string) :
  let result :=
    AiService.checkComplaintSimilarity compareText compareImages compareTypes
      calculateDistance calculateAddressSimilarity now newComplaint existingComplaint
      newLocation existingLocation newImageUrl existingImageUrl in
  let b :=
    Breakdown.mk
      (AiService.analyzeSemanticSimilarity compareText newComplaint existingComplaint)
      (AiService.analyzeLocationProximity calculateDistance calculateAddressSimilarity
         newLocation existingLocation)
      (AiService.analyzeImageSimilarity compareImages newImageUrl existingImageUrl)
      (AiService.analyzeTemporalRelevance now (AiService.createdAt_of_text existingComplaint))
      (AiService.analyzeComplaintType compareTypes newComplaint existingComplaint) in
  Similarity.breakdown result = Some b /\
  Similarity.score result ==
    0.35 * Semantic.score (Breakdown.semantic b) +
    0.30 * Proximity.score (Breakdown.location b) +
    0.20 * Image.score (Breakdown.image b) +
    0.10 * Temporal.score (Breakdown.temporal b) +
    0.05 * ComplaintType.score (Breakdown.type b) /\
  Weights.semantic AiService.weights + Weights.location AiService.weights +
  Weights.image AiService.weights + Weights.temporal AiService.weights +
  Weights.type AiService.weights == 1 /\
  (sub_scores_in_unit b -> 0 <= Similarity.score result <= 1).
Proof.
  cbv zeta. unfold AiService.checkComplaintSimilarity. simpl.
  split; [reflexivity|].
  unfold AiService.finalScore, AiService.weights. simpl.
  split; [ring|]. split; [reflexivity|].
  unfold sub_scores_in_unit. simpl. intros (Hs & Hl & Hi & Ht & Hc). lra.
Qed.

Lemma checkComplaintSimilarity_weighted_sum_witness :
  0 <= Similarity.score
         (AiService.checkComplaintSimilarity agreeing_text agreeing_images agreeing_types
            (fun _ _ _ _ => 0) (fun _ _ => 0) 0
            "Water leaking near the main signal" "Water leaking near the main signal"
            None None (Some "a.jpg") (Some "b.jpg")) <= 1.
Proof.
  apply (checkComplaintSimilarity_weighted_sum agreeing_text agreeing_images agreeing_types
           (fun _ _ _ _ => 0) (fun _ _ => 0) 0
           "Water leaking near the main signal" "Water leaking near the main signal"
           None None (Some "a.jpg") (Some "b.jpg")).
  unfold sub_scores_in_unit. vm_compute. intuition discriminate.
Defined.

(** ** The per-message ethical score *)

Lemma drop_while_In (p : ascii -> bool) (l : list ascii) (c : ascii) :
  In c (Js.drop_while p l) -> In c l.
Proof.
  induction l as [|a l IH]; simpl; [tauto|].
  destruct (p a); [right; auto | tauto].
Qed.

Lemma trim_In (s : string) (c : ascii) :
  In c (list_ascii_of_string (Js.trim s)) -> In c (list_ascii_of_string s).
Proof.
  unfold Js.trim. rewrite list_ascii_of_string_of_list_ascii.
  intros H. apply in_rev in H. apply drop_while_In in H.
  apply in_rev in H. apply drop_while_In in H. exact H.
Qed.

Lemma filter_none (f : ascii -> bool) (l : list ascii) :
  (forall c, In c l -> f c = false) -> List.filter f l = [].
Proof.
  induction l as [|a l IH]; simpl; intros H; [reflexivity|].
  rewrite (H a (or_introl eq_refl)). apply IH. intros c Hc. apply H. right. exact Hc.
Qed.

Lemma parseInt_without_digit (s : string) :
  (forall c, In c (list_ascii_of_string s) -> Js.is_digit c = false) ->
  Js.parseInt (Js.keep_digits (Js.trim s)) = None.
Proof.
  intros H. unfold Js.keep_digits.
  rewrite (filter_none Js.is_digit).
  - reflexivity.
  - intros c Hc. apply H. apply trim_In. exact Hc.
Qed.

(** C10. [calculateEthicalScore] returns an integer between 1 and 10; when
    the classifier call fails, or its response holds no digit, it returns
    the neutral default 7. *)
Theorem calculateEthicalScore_range (rateMessage : string -> Js.exn string)
    (messageText : string) :
  (1 <= AiService.calculateEthicalScore rateMessage messageText <= 10)%Z /\
  (forall e, rateMessage messageText = Js.Throw e ->
             AiService.calculateEthicalScore rateMessage messageText = 7%Z) /\
  (forall content,
      rateMessage messageText = Js.Ok content ->
      (forall c, In c (list_ascii_of_string content) -> Js.is_digit c = false) ->
      AiService.calculateEthicalScore rateMessage messageText = 7%Z).
Proof.
  unfold AiService.calculateEthicalScore.
  split; [|split].
  - destruct (rateMessage messageText) as [content|e]; simpl; [|lia].
    destruct (Js.parseInt (Js.keep_digits (Js.trim content))); lia.
  - intros e ->. reflexivity.
  - intros content -> Hnone. simpl.
    rewrite (parseInt_without_digit content Hnone). reflexivity.
Qed.

Lemma calculateEthicalScore_range_witness :
  AiService.calculateEthicalScore (fun _ => Js.Throw "Request timed out")
    "Please fix the road" = 7%Z.
Proof.
  apply (proj1 (proj2 (calculateEthicalScore_range
                         (fun _ => Js.Throw "Request timed out") "Please fix the road"))
           "Request timed out").
  reflexivity.
Defined.

Example calculateEthicalScore_plain :
  AiService.calculateEthicalScore (fun _ => Js.Ok " 8 ") "Please fix the road" = 8%Z.
Proof. reflexivity. Qed.

Example calculateEthicalScore_out_of_ten :
  AiService.calculateEthicalScore (fun _ => Js.Ok "8/10") "Please fix the road" = 10%Z.
Proof. reflexivity. Qed.

Example calculateEthicalScore_zero :
  AiService.calculateEthicalScore (fun _ => Js.Ok "0") "..." = 1%Z.
Proof. reflexivity. Qed.

Example calculateEthicalScore_words :
  AiService.calculateEthicalScore (fun _ => Js.Ok "seven") "..." = 7%Z.
Proof. reflexivity. Qed.

(** ** The reporter's standing score *)

Section ReputationTracker.
Variable formatPhoneNumber : string -> string.
Variable Math_sqrt : Q -> Q.

Lemma clamp_1_10 (x : Q) : 1 <= Js.Math_max 1 (Js.Math_min 10 x) <= 10.
Proof.
  split; [apply Math_max_lower | apply Math_max_min_upper; lra].
Qed.

(** C9, as the code has it.  For an existing reporter the update stores
    the score of the rule (weighted mean with weight min (totalMessages, 100)
    and decay max (0.1, 1 / sqrt (totalMessages + 1)), rounded to one
    decimal, clamped to [1, 10]) computed from the stored score and message
    count, with 7.5 standing in for a missing or zero score and 1 for a
    missing or zero count; the stored score lies in [1, 10]. *)
Theorem updateCitizenEthicalScore_formula (phoneNumber : string)
    (messageEthicalScore : Q) (now : Z) (s : Store) (currentData : Citizen.t) :
  citizens s !! formatPhoneNumber phoneNumber = Some currentData ->
  let currentScore := Js.or_num (Citizen.ethicalScore currentData) 7.5 in
  let totalMessages :=
    Js.or_num (option_map inject_Z (Citizen.totalMessages currentData)) 1 in
  let stored := reputation_formula Math_sqrt currentScore totalMessages messageEthicalScore in
  (exists s',
     FirebaseService.updateCitizenEthicalScore formatPhoneNumber Math_sqrt
       phoneNumber messageEthicalScore now s = (Js.Ok tt, s') /\
     stored_score (formatPhoneNumber phoneNumber) s' = Some stored) /\
  1 <= stored <= 10 /\
  (forall q n,
     Citizen.ethicalScore currentData = Some q -> ~ q == 0 ->
     Citizen.totalMessages currentData = Some n -> n <> 0%Z ->
     stored = reputation_formula Math_sqrt q (inject_Z n) messageEthicalScore).
Proof.
  intros Hdoc. cbv zeta. split; [|split].
  - unfold FirebaseService.updateCitizenEthicalScore, Async.try_catch, Async.bind,
      Async.get_store, Firestore.update_citizen.
    rewrite Hdoc. simpl. rewrite Hdoc.
    eexists. split; [reflexivity|].
    unfold stored_score. simpl. rewrite lookup_insert_eq. reflexivity.
  - apply clamp_1_10.
  - intros q n -> Hq -> Hn. simpl.
    destruct (Qeq_bool q 0) eqn:E; [apply Qeq_bool_iff in E; contradiction|].
    destruct (Qeq_bool (inject_Z n) 0) eqn:E'; [|reflexivity].
    apply Qeq_bool_iff in E'. exfalso. apply Hn.
    unfold Qeq, inject_Z in E'. simpl in E'. lia.
Qed.

(** Whatever the store, the update returns: its failures are swallowed. *)
Lemma updateCitizenEthicalScore_total (phoneNumber : string)
    (messageEthicalScore : Q) (now : Z) (s : Store) :
  exists s',
    FirebaseService.updateCitizenEthicalScore formatPhoneNumber Math_sqrt
      phoneNumber messageEthicalScore now s = (Js.Ok tt, s').
Proof.
  unfold FirebaseService.updateCitizenEthicalScore, Async.try_catch, Async.bind,
    Async.get_store, Firestore.update_citizen.
  simpl. destruct (citizens s !! formatPhoneNumber phoneNumber) eqn:E.
  - rewrite E. eexists. reflexivity.
  - eexists. reflexivity.
Qed.

End ReputationTracker.

Lemma updateCitizenEthicalScore_formula_witness :
  exists s',
    FirebaseService.updateCitizenEthicalScore (fun p => p) sqrt_dec
      "919876543210" 10 0
      (one_citizen "919876543210" (Citizen.mk (Some 7.5) (Some 10%Z) 0 None 0))
    = (Js.Ok tt, s') /\
    stored_score "919876543210" s' = Some 8.3.
Proof.
  destruct (updateCitizenEthicalScore_formula (fun p => p) sqrt_dec
              "919876543210" 10 0
              (one_citizen "919876543210" (Citizen.mk (Some 7.5) (Some 10%Z) 0 None 0))
              (Citizen.mk (Some 7.5) (Some 10%Z) 0 None 0))
    as ((s' & Hrun & Hstored) & _ & _).
  - reflexivity.
  - exists s'. split; [exact Hrun|].
    rewrite Hstored. vm_compute. reflexivity.
Defined.

(** C9 fails on the code at a reporter's first message.  The profile is
    created with [totalMessages] 0 and score 7.5; the rule at
    totalMessages = 0 has weight 0 and yields the message score, 10, while
    the update computes with totalMessages = 1 and stores 9.8. *)
Lemma updateCitizenEthicalScore_first_message :
  stored_score "919876543210"
    (exec (FirebaseService.updateCitizenEthicalScore (fun p => p) sqrt_dec
             "919876543210" 10 0)
          (one_citizen "919876543210" (Citizen.mk (Some 7.5) (Some 0%Z) 0 None 0)))
  = Some 9.8 /\
  reputation_formula sqrt_dec 7.5 0 10 == 10 /\
  ~ 9.8 == 10.
Proof.
  split; [vm_compute; reflexivity|]. split; [vm_compute; reflexivity|].
  vm_compute. discriminate.
Qed.

(** ** Degradation of the five analyzers *)

Section Analyzers.
Variable compareText : string -> string -> Js.exn TextReply.
Variable compareImages : string -> string -> Js.exn ImageReply.
Variable compareTypes : string -> string -> Js.exn TypeReply.
Variable calculateDistance : Q -> Q -> Q -> Q -> Q.
Variable calculateAddressSimilarity : string -> string -> Q.
Variable now : Z.

(** C4, as the code has it.  On a failure of the language model the text,
    image and category analyzers return score 0 (with the rationale
    "Analysis failed", "Image analysis failed", and for the category no
    rationale but the types "unknown"); the location and image analyzers
    return score 0 with a "missing" rationale when an input is missing.
    The recency analyzer returns 0.5 with "Date analysis failed" when
    reading the date throws.  No analyzer throws: the evaluation always
    carries a breakdown of five results. *)
Theorem analyzers_degrade :
  (forall newComplaint existingComplaint e,
      compareText newComplaint existingComplaint = Js.Throw e ->
      AiService.analyzeSemanticSimilarity compareText newComplaint existingComplaint
      = Semantic.mk 0 "Analysis failed" false false false) /\
  (forall newLocation existingLocation,
      newLocation = None \/ existingLocation = None ->
      AiService.analyzeLocationProximity calculateDistance calculateAddressSimilarity
        newLocation existingLocation
      = Proximity.mk 0 None "One or both locations missing" false None) /\
  (forall newImageUrl existingImageUrl,
      Js.falsy_str newImageUrl = true \/ Js.falsy_str existingImageUrl = true ->
      AiService.analyzeImageSimilarity compareImages newImageUrl existingImageUrl
      = Image.mk 0 "One or both images missing" None None false) /\
  (forall newImageUrl existingImageUrl e,
      compareImages newImageUrl existingImageUrl = Js.Throw e ->
      Image.score
        (AiService.analyzeImageSimilarity compareImages (Some newImageUrl)
           (Some existingImageUrl)) == 0 /\
      (newImageUrl <> "" -> existingImageUrl <> "" ->
       AiService.analyzeImageSimilarity compareImages (Some newImageUrl)
         (Some existingImageUrl)
       = Image.mk 0 "Image analysis failed" None None false)) /\
  (forall newComplaint existingComplaint e,
      compareTypes newComplaint existingComplaint = Js.Throw e ->
      AiService.analyzeComplaintType compareTypes newComplaint existingComplaint
      = ComplaintType.mk 0 false "unknown" "unknown") /\
  (forall e,
      AiService.analyzeTemporalRelevance now (Timestamp (Js.Throw e))
      = Temporal.mk 0.5 "Date analysis failed" None) /\
  (forall newComplaint existingComplaint newLocation existingLocation
          newImageUrl existingImageUrl,
      exists b,
        Similarity.breakdown
          (AiService.checkComplaintSimilarity compareText compareImages compareTypes
             calculateDistance calculateAddressSimilarity now
             newComplaint existingComplaint newLocation existingLocation
             newImageUrl existingImageUrl) = Some b).
Proof.
  repeat split.
  - intros n x e H. unfold AiService.analyzeSemanticSimilarity. rewrite H. reflexivity.
  - intros n x [-> | ->]; [reflexivity|]. destruct n; reflexivity.
  - intros n x [H | H]; unfold AiService.analyzeImageSimilarity; rewrite H;
      [reflexivity | rewrite orb_true_r; reflexivity].
  - unfold AiService.analyzeImageSimilarity. simpl.
    destruct (String.eqb newImageUrl "" || String.eqb existingImageUrl "");
      [reflexivity|]. rewrite H. reflexivity.
  - intros Hn Hx. unfold AiService.analyzeImageSimilarity. simpl.
    apply String.eqb_neq in Hn, Hx. rewrite Hn, Hx. simpl. rewrite H. reflexivity.
  - intros n x e H. unfold AiService.analyzeComplaintType. rewrite H. reflexivity.
  - eexists. reflexivity.
Qed.

End Analyzers.

Lemma analyzers_degrade_witness :
  AiService.analyzeSemanticSimilarity (fun _ _ => Js.Throw "Request timed out")
    "Water leaking near the main signal" "Pipe leaking at the signal"
  = Semantic.mk 0 "Analysis failed" false false false.
Proof.
  apply (proj1 (analyzers_degrade (fun _ _ => Js.Throw "Request timed out")
                  agreeing_images agreeing_types (fun _ _ _ _ => 0) (fun _ _ => 0) 0)
           "Water leaking near the main signal" "Pipe leaking at the signal"
           "Request timed out").
  reflexivity.
Defined.

(** C4 fails on the code for the recency analyzer, which does not degrade
    to 0: it yields 0.5 when reading the date fails, and 0.1 when there is
    no date. *)
Lemma analyzeTemporalRelevance_not_zero :
  ~ Temporal.score
      (AiService.analyzeTemporalRelevance 1700000000000
         (Timestamp (Js.Throw "toDate is not a function"))) == 0 /\
  ~ Temporal.score
      (AiService.analyzeTemporalRelevance 1700000000000 (DateInput None)) == 0.
Proof. split; vm_compute; discriminate. Qed.

Example analyzeTemporalRelevance_missing_date :
  AiService.analyzeTemporalRelevance 1700000000000 (DateInput None)
  = Temporal.mk 0.1 "Old complaint" None.
Proof. reflexivity. Qed.

Example analyzeTemporalRelevance_recent :
  AiService.analyzeTemporalRelevance 1700000000000 (DateInput (Some 1699992800000%Z))
  = Temporal.mk 1.0 "Same day complaint" (Some (7200000 # 3600000)).
Proof. reflexivity. Qed.

(** ** The duplicate check over a candidate pool *)

(** C2 fails on the code.  Both candidates are scanned; [A] receives a
    duplicate verdict (location at least 0.90 and text at least 0.60) with
    aggregate 0.555; [B] receives a non-duplicate verdict with aggregate
    0.61.  The scan keeps the highest aggregate, which is that of [B], and
    the check answers "no duplicate" with highest score 0.61: nobody joins
    the follow-up of [A]. *)
Lemma checkDuplicateComplaint_shadowed_duplicate :
  (exists a b,
      complaints shadow_store !! "A" = Some a /\
      complaints shadow_store !! "B" = Some b /\
      Similarity.isDuplicate (shadow_similarity a) = true /\
      Similarity.score (shadow_similarity a) == 0.555 /\
      Similarity.isDuplicate (shadow_similarity b) = false /\
      Similarity.score (shadow_similarity b) == 0.61) /\
  exists highestScore,
    FirebaseService.checkDuplicateComplaint (fun phone => phone)
      (fun _ => Js.Ok "Water Supply") shadow_text shadow_images shadow_types
      meridian_km (fun _ _ => 0)
      "Water leaking near the main signal" "919000000001"
      (Some signal_junction) (Some "new.jpg") 1700000000000 shadow_store
    = (Js.Ok (NotDuplicate highestScore 2), shadow_store) /\
    highestScore == 0.61.
Proof.
  split.
  - eexists. eexists.
    split; [reflexivity|]. split; [reflexivity|].
    repeat split; vm_compute; reflexivity.
  - eexists. split; [vm_compute; reflexivity|]. vm_compute. reflexivity.
Qed.

(** ** Follow-up reporters *)

(** C3 fails on the code for the complaint document.  The draft is stored
    without [followUpUsers], so its creator is not among its followers, at
    creation and after confirmation; after a duplicate-triggered join the
    set holds the joining reporter only.  The ticket of the same complaint
    is created with its creator as first follower and keeps it. *)
Lemma createDraftComplaint_creator_not_follower :
  (exists c, complaints drafted !! "PCMC-20231114-0A1B2C" = Some c /\
             Complaint.createdBy c = "919000000002" /\
             Complaint.followUpUsers c = None /\
             Complaint.createdBy c ∉ complaint_followers c) /\
  (exists c, complaints confirmed !! "PCMC-20231114-0A1B2C" = Some c /\
             Complaint.createdBy c ∉ complaint_followers c) /\
  (exists c, complaints joined !! "PCMC-20231114-0A1B2C" = Some c /\
             Complaint.createdBy c = "919000000002" /\
             complaint_followers c = ["919000000001"] /\
             Complaint.createdBy c ∉ complaint_followers c) /\
  (exists t, tickets joined !! "LOY5K3QZ" = Some t /\
             Ticket.createdBy t = "919000000002" /\
             Ticket.followUpUsers t = ["919000000002"; "919000000001"]).
Proof.
  repeat split.
  - eexists. split; [vm_compute; reflexivity|]. repeat split.
    unfold complaint_followers. simpl. apply not_elem_of_nil.
  - eexists. split; [vm_compute; reflexivity|].
    unfold complaint_followers. simpl. apply not_elem_of_nil.
  - eexists. split; [vm_compute; reflexivity|]. repeat split.
    unfold complaint_followers. simpl.
    intros H. apply list_elem_of_singleton in H. discriminate.
  - eexists. split; [vm_compute; reflexivity|]. repeat split.
Qed.

(** ** Confirmation and cancellation *)

Section Lifecycle.
Variable formatPhoneNumber : string -> string.
Variable geocodeAddress : Q -> Q -> string.

Lemma confirmComplaint_unknown (complaintId : string) (w : WhatsappLocation)
    (ticketId : string) (now : Z) (s : Store) :
  complaints s !! complaintId = None ->
  FirebaseService.confirmComplaint formatPhoneNumber geocodeAddress
    complaintId w ticketId now s
  = (Js.Throw ("Complaint " ++ complaintId ++ " not found")%string, s).
Proof.
  intros H. unfold FirebaseService.confirmComplaint, Async.try_catch, Async.bind,
    Async.get_store. simpl. rewrite H. reflexivity.
Qed.

Lemma confirmComplaint_known (complaintId : string) (w : WhatsappLocation)
    (ticketId : string) (now : Z) (s : Store) (c : Complaint.t) :
  complaints s !! complaintId = Some c ->
  exists s' t,
    FirebaseService.confirmComplaint formatPhoneNumber geocodeAddress
      complaintId w ticketId now s = (Js.Ok ticketId, s') /\
    complaints s' =
      <[complaintId :=
          FirebaseService.confirmUpdate ticketId (locationData_of geocodeAddress w) now c]>
        (complaints s) /\
    tickets s' = <[ticketId := t]> (tickets s) /\
    Ticket.complaintId t = complaintId /\
    Ticket.createdBy t = Complaint.createdBy c /\
    Ticket.status t = "open" /\
    Ticket.followUpUsers t = [Complaint.createdBy c] /\
    Ticket.completionPercentage (Ticket.workflow t) = 70%Z.
Proof.
  intros H.
  unfold FirebaseService.confirmComplaint, FirebaseService.createTicketRecord,
    FirebaseService.updateCitizenComplaintCount, Async.try_catch, Async.bind,
    Async.get_store, Async.ret, Firestore.update_complaint, Firestore.set_ticket,
    Firestore.update_citizen.
  simpl. rewrite H. simpl. rewrite H. simpl.
  destruct (citizens s !! formatPhoneNumber (Complaint.createdBy c)) eqn:E;
    simpl; eexists; eexists; (split; [reflexivity|]); simpl; repeat split.
Qed.

Lemma cancelComplaint_unknown (complaintId : string) (now : Z) (s : Store) :
  complaints s !! complaintId = None ->
  FirebaseService.cancelComplaint complaintId now s = (Js.Throw "NOT_FOUND", s).
Proof.
  intros H. unfold FirebaseService.cancelComplaint, Async.try_catch,
    Firestore.update_complaint. rewrite H. reflexivity.
Qed.

Lemma cancelComplaint_known (complaintId : string) (now : Z) (s : Store)
    (c : Complaint.t) :
  complaints s !! complaintId = Some c ->
  FirebaseService.cancelComplaint complaintId now s
  = (Js.Ok tt,
     {| complaints := <[complaintId := FirebaseService.cancelUpdate now c]> (complaints s);
        tickets := tickets s;
        citizens := citizens s; chats := chats s |}).
Proof.
  intros H. unfold FirebaseService.cancelComplaint, Async.try_catch,
    Firestore.update_complaint. rewrite H. reflexivity.
Qed.

End Lifecycle.

(** ** The callers: confirmation reaches drafts only *)

Lemma query_desc_elem {A : Type} (p : A -> bool) (key : A -> Z) (n : nat)
    (m : gmap string A) (d : string * A) :
  d ∈ Firestore.query_desc p key n m -> m !! fst d = Some (snd d) /\ p (snd d) = true.
Proof.
  unfold Firestore.query_desc. intros H.
  apply subseteq_take in H.
  rewrite merge_sort_Permutation in H.
  apply list_elem_of_In in H. apply filter_In in H. destruct H as [H Hp].
  split; [|exact Hp].
  apply list_elem_of_In in H. apply elem_of_map_to_list' in H. exact H.
Qed.

Lemma getPendingComplaintForUser_draft (phoneNumber : string) (s : Store) :
  exists r,
    WebhookController.getPendingComplaintForUser phoneNumber s = (Js.Ok r, s) /\
    forall d, r = Some d ->
      exists k, complaints s !! k = Some d /\
                Complaint.createdBy d = phoneNumber /\
                Complaint.status d = "draft" /\
                Complaint.requiresLocationSharing d = true.
Proof.
  unfold WebhookController.getPendingComplaintForUser, Async.try_catch, Async.bind,
    Async.get_store, Async.ret. simpl.
  destruct (Firestore.query_desc _ _ _ _) as [|doc rest] eqn:E.
  - eexists. split; [reflexivity|]. discriminate.
  - eexists. split; [reflexivity|]. intros d [= <-].
    assert (Hin : doc ∈ Firestore.query_desc
              (fun c => String.eqb (Complaint.createdBy c) phoneNumber
                        && String.eqb (Complaint.status c) "draft"
                        && Bool.eqb (Complaint.requiresLocationSharing c) true)
              Complaint.createdAt 1 (complaints s)).
    { rewrite E. apply list_elem_of_here. }
    apply query_desc_elem in Hin. destruct Hin as [Hk Hp].
    apply andb_prop in Hp. destruct Hp as [Hp Hr].
    apply andb_prop in Hp. destruct Hp as [Hb Hs].
    exists (fst doc). split; [exact Hk|].
    apply String.eqb_eq in Hb, Hs. apply Bool.eqb_prop in Hr. auto.
Qed.

Lemma Async_bind_ok {A B : Type} (m : Async.M A) (k : A -> Async.M B)
    (s s' : Store) (a : A) :
  m s = (Js.Ok a, s') -> Async.bind m k s = k a s'.
Proof. intros H. unfold Async.bind. rewrite H. reflexivity. Qed.

Lemma Async_try_catch_ok {A : Type} (body : Async.M A) (handler : string -> Async.M A)
    (s : Store) (a : A) (s' : Store) :
  body s = (Js.Ok a, s') -> Async.try_catch body handler s = (Js.Ok a, s').
Proof. intros H. unfold Async.try_catch. rewrite H. reflexivity. Qed.

Section Reporter.
Variable formatPhoneNumber : string -> string.
Variable geocodeAddress : Q -> Q -> string.

Local Abbreviation handle := (handle formatPhoneNumber geocodeAddress) (only parsing).
Local Abbreviation trace := (trace formatPhoneNumber geocodeAddress) (only parsing).

(** The saving of a location message: refused as a whole when the
    sender's number formats to the empty string, made otherwise. *)
Lemma saveChatMessage_location (phoneNumber : string) (now : Z) (s : Store) :
  (formatPhoneNumber phoneNumber = "" /\
   exists e,
     FirebaseService.saveChatMessage formatPhoneNumber phoneNumber
       (WebhookController.locationMessage phoneNumber) now s = (Js.Throw e, s)) \/
  (formatPhoneNumber phoneNumber <> "" /\
   exists s0,
     FirebaseService.saveChatMessage formatPhoneNumber phoneNumber
       (WebhookController.locationMessage phoneNumber) now s = (Js.Ok tt, s0) /\
     location_saved formatPhoneNumber phoneNumber now s s0).
Proof.
  unfold FirebaseService.saveChatMessage, FirebaseService.updateCitizenStats,
    Firestore.doc, Firestore.add_chat, Firestore.update_citizen,
    Async.try_catch, Async.bind, Async.ret, Async.throw, location_saved.
  destruct (String.eqb (formatPhoneNumber phoneNumber) "") eqn:E.
  - left. apply String.eqb_eq in E. split; [exact E|]. eexists. reflexivity.
  - right. apply String.eqb_neq in E. split; [exact E|].
    cbn [citizens complaints tickets chats].
    destruct (String.eqb (formatPhoneNumber (formatPhoneNumber phoneNumber)) "") eqn:E2.
    + eexists. split; [reflexivity|]. cbn [citizens complaints tickets chats].
      repeat split. left. reflexivity.
    + cbn [citizens complaints tickets chats].
      destruct (citizens s !! formatPhoneNumber (formatPhoneNumber phoneNumber))
        as [c|] eqn:Hc.
      * eexists. split; [reflexivity|]. cbn [citizens complaints tickets chats].
        repeat split. right. exists c. apply String.eqb_neq in E2.
        split; [exact E2|]. split; reflexivity.
      * eexists. split; [reflexivity|]. cbn [citizens complaints tickets chats].
        repeat split. left. reflexivity.
Qed.

Lemma Async_bind_throw {A B : Type} (m : Async.M A) (k : A -> Async.M B)
    (s s' : Store) (e : string) :
  m s = (Js.Throw e, s') -> Async.bind m k s = (Js.Throw e, s').
Proof. intros H. unfold Async.bind. rewrite H. reflexivity. Qed.

Lemma handle_location_cases (phoneNumber : string) (w : WhatsappLocation)
    (ticketId : string) (now : Z) (s : Store) :
  wf_ids s ->
  (complaints (handle (LocationShared phoneNumber w ticketId now) s) = complaints s /\
   tickets (handle (LocationShared phoneNumber w ticketId now) s) = tickets s) \/
  exists d,
    complaints s !! Complaint.id d = Some d /\
    Complaint.createdBy d = phoneNumber /\
    Complaint.status d = "draft" /\
    Complaint.requiresLocationSharing d = true /\
    complaints (handle (LocationShared phoneNumber w ticketId now) s)
    = <[Complaint.id d :=
          FirebaseService.confirmUpdate ticketId (locationData_of geocodeAddress w) now d]>
        (complaints s).
Proof.
  intros Hwf.
  destruct (saveChatMessage_location phoneNumber now s)
    as [[_ (e & Hsave)] | (_ & s0 & Hsave & Hc0 & Ht0 & _)].
  { left. unfold handle, exec, WebhookController.handleLocationMessage, Async.try_catch.
    rewrite (Async_bind_throw _ _ _ _ _ Hsave). split; reflexivity. }
  destruct (getPendingComplaintForUser_draft phoneNumber s0) as (r & Hrun & Hspec).
  rewrite Hc0 in Hspec.
  destruct r as [d|].
  - destruct (Hspec d eq_refl) as (k & Hk & Hby & Hst & Hreq).
    pose proof (Hwf k d Hk) as Hid. subst k.
    assert (Hk0 : complaints s0 !! Complaint.id d = Some d) by (rewrite Hc0; exact Hk).
    destruct (confirmComplaint_known formatPhoneNumber geocodeAddress
                (Complaint.id d) w ticketId now s0 d Hk0)
      as (s' & t & Hconf & Hcs & _).
    assert (Hhandle :
      WebhookController.handleLocationMessage formatPhoneNumber geocodeAddress
        phoneNumber w ticketId now s = (Js.Ok (Some ticketId), s')).
    { unfold WebhookController.handleLocationMessage.
      apply Async_try_catch_ok.
      rewrite (Async_bind_ok _ _ _ _ _ Hsave).
      rewrite (Async_bind_ok _ _ _ _ _ Hrun).
      rewrite (Async_bind_ok _ _ _ _ _ Hconf). reflexivity. }
    right. exists d. unfold handle, exec. rewrite Hhandle. cbn [snd].
    rewrite Hcs, Hc0. repeat split; assumption.
  - left. unfold handle, exec, WebhookController.handleLocationMessage.
    rewrite (Async_try_catch_ok _ _ _ None s0); [cbn [snd]; split; assumption|].
    rewrite (Async_bind_ok _ _ _ _ _ Hsave).
    rewrite (Async_bind_ok _ _ _ _ _ Hrun). reflexivity.
Qed.

Lemma handle_cancel_cases (complaintId : string) (now : Z) (s : Store) :
  (complaints s !! complaintId = None /\
   handle (CancelPressed complaintId now) s = s) \/
  exists c,
    complaints s !! complaintId = Some c /\
    complaints (handle (CancelPressed complaintId now) s)
    = <[complaintId := FirebaseService.cancelUpdate now c]> (complaints s).
Proof.
  unfold handle, exec, WebhookController.handleComplaintCancellation, Async.try_catch.
  destruct (complaints s !! complaintId) as [c|] eqn:E.
  - right. exists c. rewrite (cancelComplaint_known _ _ _ _ E). split; reflexivity.
  - left. rewrite (cancelComplaint_unknown _ _ _ E). split; reflexivity.
Qed.

Lemma wf_ids_insert (s s' : Store) (k : string) (c c' : Complaint.t) :
  wf_ids s -> complaints s !! k = Some c -> Complaint.id c' = Complaint.id c ->
  complaints s' = <[k := c']> (complaints s) -> wf_ids s'.
Proof.
  intros Hwf Hk Hid Hs' k' x. rewrite Hs'.
  destruct (decide (k = k')) as [<-|Hne].
  - rewrite lookup_insert_eq. intros [= <-]. rewrite Hid. exact (Hwf _ _ Hk).
  - rewrite lookup_insert_ne by exact Hne. apply Hwf.
Qed.

Lemma handle_wf_ids (ev : Event) (s : Store) : wf_ids s -> wf_ids (handle ev s).
Proof.
  intros Hwf. destruct ev as [p w t n | k n].
  - destruct (handle_location_cases p w t n s Hwf)
      as [[Hc _] | (d & Hd & _ & _ & _ & Hs')];
      [intros k c; rewrite Hc; apply Hwf|].
    eapply wf_ids_insert; [exact Hwf | exact Hd | | exact Hs']. reflexivity.
  - destruct (handle_cancel_cases k n s) as [[_ ->] | (c & Hc & Hs')]; [exact Hwf|].
    eapply wf_ids_insert; [exact Hwf | exact Hc | | exact Hs']. reflexivity.
Qed.

(** A location never lowers a workflow percentage. *)
Lemma handle_location_percentage (id phoneNumber : string) (w : WhatsappLocation)
    (ticketId : string) (now : Z) (s : Store) :
  wf_ids s -> (percentage id s <= 60)%Z ->
  (percentage id s
   <= percentage id (handle (LocationShared phoneNumber w ticketId now) s) <= 60)%Z.
Proof.
  intros Hwf Hle.
  destruct (handle_location_cases phoneNumber w ticketId now s Hwf)
    as [[Hc _] | (d & Hd & _ & _ & _ & Hs')];
    [unfold percentage in *; rewrite Hc; lia|].
  unfold percentage in *. rewrite Hs'.
  destruct (decide (Complaint.id d = id)) as [<-|Hne].
  - rewrite lookup_insert_eq. rewrite Hd in *. simpl. lia.
  - rewrite lookup_insert_ne by exact Hne. lia.
Qed.

(** A cancelled complaint is out of reach of the location handler. *)
Lemma handle_keeps_cancelled (id : string) (ev : Event) (s : Store) :
  wf_ids s -> cancelled_at_zero id s -> cancelled_at_zero id (handle ev s).
Proof.
  intros Hwf (c & Hc & Hst & Hpct). destruct ev as [p w t n | k n].
  - destruct (handle_location_cases p w t n s Hwf)
      as [[Hsame _] | (d & Hd & _ & Hdraft & _ & Hs')];
      [exists c; rewrite Hsame; auto|].
    exists c. rewrite Hs'. rewrite lookup_insert_ne; [auto|].
    intros <-. rewrite Hd in Hc. injection Hc as ->. congruence.
  - destruct (handle_cancel_cases k n s) as [[_ ->] | (c' & Hc' & Hs')]; [exists c; auto|].
    unfold cancelled_at_zero. rewrite Hs'.
    destruct (decide (k = id)) as [->|Hne].
    + rewrite lookup_insert_eq. eexists. split; [reflexivity|]. split; reflexivity.
    + rewrite lookup_insert_ne by exact Hne. exists c. auto.
Qed.

Lemma cancelled_percentage (id : string) (s : Store) :
  cancelled_at_zero id s -> percentage id s = 0%Z.
Proof. intros (c & Hc & _ & Hpct). unfold percentage. rewrite Hc. exact Hpct. Qed.

Lemma trace_unfold (id : string) (evs : list Event) (s : Store) :
  exists rest, trace id evs s = percentage id s :: rest.
Proof. destruct evs; eexists; reflexivity. Qed.

Lemma drops_cons (a : Z) (evs : list Event) (id : string) (s : Store) :
  drops (a :: trace id evs s)
  = ((if (percentage id s <? a)%Z then 1 else 0) + drops (trace id evs s))%nat.
Proof. destruct (trace_unfold id evs s) as (rest & ->). reflexivity. Qed.

(** Once cancelled, the percentage stays at 0. *)
Lemma trace_cancelled (id : string) (evs : list Event) (s : Store) :
  wf_ids s -> cancelled_at_zero id s -> drops (trace id evs s) = 0%nat.
Proof.
  revert s. induction evs as [|ev evs IH]; intros s Hwf Hc; [reflexivity|].
  simpl trace. rewrite drops_cons.
  pose proof (handle_keeps_cancelled id ev s Hwf Hc) as Hc'.
  rewrite (cancelled_percentage _ _ Hc), (cancelled_percentage _ _ Hc').
  rewrite (IH _ (handle_wf_ids ev s Hwf) Hc'). reflexivity.
Qed.

(** Along the reporter's events a workflow percentage drops at most once. *)
Lemma trace_drops_once (id : string) (evs : list Event) (s : Store) :
  wf_ids s -> (percentage id s <= 60)%Z -> (drops (trace id evs s) <= 1)%nat.
Proof.
  revert s. induction evs as [|ev evs IH]; intros s Hwf Hle; [simpl; lia|].
  simpl trace. rewrite drops_cons.
  pose proof (handle_wf_ids ev s Hwf) as Hwf'.
  destruct ev as [p w t n | k n].
  - pose proof (handle_location_percentage id p w t n s Hwf Hle) as [Hup Hle'].
    specialize (IH _ Hwf' Hle').
    destruct (Z.ltb_spec (percentage id (handle (LocationShared p w t n) s))
                (percentage id s)); lia.
  - destruct (handle_cancel_cases k n s) as [[_ Hs'] | (c & Hc & Hs')].
    + rewrite Hs' in *. specialize (IH _ Hwf Hle).
      rewrite Z.ltb_irrefl. lia.
    + destruct (decide (k = id)) as [->|Hne].
      * assert (Hz : cancelled_at_zero id (handle (CancelPressed id n) s)).
        { unfold cancelled_at_zero. rewrite Hs', lookup_insert_eq.
          eexists. split; [reflexivity|]. split; reflexivity. }
        rewrite (trace_cancelled id evs _ Hwf' Hz).
        destruct (_ <? _)%Z; lia.
      * assert (Heq : percentage id (handle (CancelPressed k n) s) = percentage id s).
        { unfold percentage. rewrite Hs', lookup_insert_ne by exact Hne. reflexivity. }
        rewrite Heq, Z.ltb_irrefl. apply IH; [exact Hwf'|]. rewrite Heq. exact Hle.
Qed.

End Reporter.

(** ** The rejection rule *)




(** ** The workflow percentage *)

Lemma createDraftComplaint_stored
    (formatPhoneNumber : string -> string)
    (categorizeDepartment assessComplaintPriority categorizeComplaintType
       : string -> Js.exn string)
    (description phoneNumber : string) (imageUrl : option string)
    (complaintId : string) (now : Z) (s : Store) :
  exists c,
    FirebaseService.createDraftComplaint formatPhoneNumber categorizeDepartment
      assessComplaintPriority categorizeComplaintType
      description phoneNumber imageUrl complaintId now s
    = (Js.Ok c,
       {| complaints := <[complaintId := c]> (complaints s);
          tickets := tickets s; citizens := citizens s; chats := chats s |}) /\
    Complaint.id c = complaintId /\
    Complaint.createdBy c = formatPhoneNumber phoneNumber /\
    Complaint.status c = "draft" /\
    Complaint.requiresLocationSharing c = true /\
    Complaint.ticketId c = None /\
    Complaint.followUpUsers c = None /\
    Complaint.completionPercentage (Complaint.workflow c) = 30%Z.
Proof.
  eexists. split; [reflexivity|]. repeat split.
Qed.

(** C5 fails on the code at the ticketed stage.  After the confirmation of
    the running example the ticket record exists, with its own workflow at
    70, and the workflow of the complaint is at 60. *)
Lemma confirmed_complaint_stays_at_60 :
  (exists t, tickets confirmed !! "LOY5K3QZ" = Some t /\
             Ticket.complaintId t = "PCMC-20231114-0A1B2C" /\
             Ticket.completionPercentage (Ticket.workflow t) = 70%Z) /\
  percentage "PCMC-20231114-0A1B2C" confirmed = 60%Z /\
  percentage "PCMC-20231114-0A1B2C" confirmed <> 70%Z.
Proof.
  split; [|split].
  - eexists. split; [vm_compute; reflexivity|]. split; reflexivity.
  - vm_compute. reflexivity.
  - vm_compute. discriminate.
Qed.

(** C5, as the code has it.  The workflow percentage of a complaint is 30
    at draft creation, 60 after a confirmation and 0 after a cancellation;
    70 is the workflow percentage of the ticket record the confirmation
    creates, the complaint staying at 60.  Along the reporter's events
    (locations shared, cancel presses, on any complaints) the percentage of
    a complaint decreases only at a cancel press for it, which sets it to
    0, and it decreases at most once. *)
Theorem completionPercentage_stages
    (formatPhoneNumber : string -> string) (geocodeAddress : Q -> Q -> string)
    (s : Store) (complaintId : string) :
  (forall categorizeDepartment assessComplaintPriority categorizeComplaintType
          description phoneNumber imageUrl now,
     percentage complaintId
       (exec (FirebaseService.createDraftComplaint formatPhoneNumber
                categorizeDepartment assessComplaintPriority categorizeComplaintType
                description phoneNumber imageUrl complaintId now) s) = 30%Z) /\
  (forall c w ticketId now,
     complaints s !! complaintId = Some c ->
     exists s' t,
       FirebaseService.confirmComplaint formatPhoneNumber geocodeAddress
         complaintId w ticketId now s = (Js.Ok ticketId, s') /\
       percentage complaintId s' = 60%Z /\
       tickets s' !! ticketId = Some t /\
       Ticket.complaintId t = complaintId /\
       Ticket.completionPercentage (Ticket.workflow t) = 70%Z) /\
  (forall c now,
     complaints s !! complaintId = Some c ->
     percentage complaintId (exec (FirebaseService.cancelComplaint complaintId now) s)
     = 0%Z) /\
  (wf_ids s -> (percentage complaintId s <= 60)%Z ->
   (forall ev,
      (percentage complaintId (handle formatPhoneNumber geocodeAddress ev s)
       < percentage complaintId s)%Z ->
      (exists now, ev = CancelPressed complaintId now) /\
      percentage complaintId (handle formatPhoneNumber geocodeAddress ev s) = 0%Z) /\
   (forall evs,
      (drops (trace formatPhoneNumber geocodeAddress complaintId evs s) <= 1)%nat)).
Proof.
  split; [|split; [|split]].
  - intros dept prio cat description phoneNumber imageUrl now.
    destruct (createDraftComplaint_stored formatPhoneNumber dept prio cat
                description phoneNumber imageUrl complaintId now s)
      as (c & Hrun & _ & _ & _ & _ & _ & _ & Hpct).
    unfold exec, percentage. rewrite Hrun. simpl.
    rewrite lookup_insert_eq. exact Hpct.
  - intros c w ticketId now H.
    destruct (confirmComplaint_known formatPhoneNumber geocodeAddress
                complaintId w ticketId now s c H)
      as (s' & t & Hrun & Hcs & Hts & Hid & _ & _ & _ & Hpct).
    exists s', t. split; [exact Hrun|].
    unfold percentage. rewrite Hcs, Hts, !lookup_insert_eq. auto.
  - intros c now H. unfold exec, percentage.
    rewrite (cancelComplaint_known _ _ _ _ H). simpl.
    rewrite lookup_insert_eq. reflexivity.
  - intros Hwf Hle. split.
    + intros ev Hlt. destruct ev as [p w t n | k n].
      * pose proof (handle_location_percentage formatPhoneNumber geocodeAddress
                      complaintId p w t n s Hwf Hle). lia.
      * destruct (handle_cancel_cases formatPhoneNumber geocodeAddress k n s)
          as [[_ Hs'] | (c & Hc & Hs')]; [rewrite Hs' in Hlt; lia|].
        unfold percentage in Hlt |- *. rewrite Hs' in Hlt |- *.
        destruct (decide (k = complaintId)) as [->|Hne].
        -- rewrite lookup_insert_eq. split; [eexists; reflexivity | reflexivity].
        -- rewrite lookup_insert_ne in Hlt by exact Hne. lia.
    + intros evs. apply trace_drops_once; assumption.
Qed.

Lemma wf_ids_drafted : wf_ids drafted.
Proof.
  intros k c H.
  destruct (decide (k = "PCMC-20231114-0A1B2C")) as [->|Hne].
  - vm_compute in H. injection H as <-. reflexivity.
  - unfold drafted, exec in H.
    destruct (createDraftComplaint_stored (fun phone => phone)
                (fun _ => Js.Ok "Water Supply") (fun _ => Js.Ok "high")
                (fun _ => Js.Ok "Water Leakage")
                "Pipe leaking at the signal" "919000000002" None
                "PCMC-20231114-0A1B2C" 1699990000000 empty_store)
      as (c0 & Hrun & _).
    rewrite Hrun in H. simpl in H.
    rewrite lookup_insert_ne in H by congruence.
    rewrite lookup_empty in H. discriminate.
Qed.

Example reporter_trace :
  trace (fun phone => phone) (fun _ _ => "Location: 18.62, 73.8")
    "PCMC-20231114-0A1B2C" reporter_events drafted
  = [30; 60; 0; 0; 0]%Z.
Proof. vm_compute. reflexivity. Qed.

Lemma completionPercentage_stages_witness :
  (drops (trace (fun phone => phone) (fun _ _ => "Location: 18.62, 73.8")
            "PCMC-20231114-0A1B2C" reporter_events drafted) <= 1)%nat.
Proof.
  apply (completionPercentage_stages (fun phone => phone)
           (fun _ _ => "Location: 18.62, 73.8") drafted "PCMC-20231114-0A1B2C").
  - exact wf_ids_drafted.
  - vm_compute. discriminate.
Defined.

(** ** What the scan of the candidate pool retains *)

Section DuplicateCheck.
Variable categorizeDepartment : string -> Js.exn string.
Variable compareText : string -> string -> Js.exn TextReply.
Variable compareImages : string -> string -> Js.exn ImageReply.
Variable compareTypes : string -> string -> Js.exn TypeReply.
Variable haversine : Q -> Q -> Q -> Q -> Q.
Variable calculateAddressSimilarity : string -> string -> Q.
Variable complaintText : string.
Variable formattedPhone : string.
Variable location : option Location.
Variable imageUrl : option string.
Variable now : Z.

Local Abbreviation similarity_of :=
  (similarity_of compareText compareImages compareTypes haversine
     calculateAddressSimilarity complaintText location imageUrl now) (only parsing).
Local Abbreviation scanned :=
  (scanned categorizeDepartment haversine complaintText formattedPhone location)
  (only parsing).
Local Abbreviation retained :=
  (retained compareText compareImages compareTypes haversine
     calculateAddressSimilarity complaintText location imageUrl now) (only parsing).
Local Abbreviation scan_inv :=
  (scan_inv categorizeDepartment compareText compareImages compareTypes haversine
     calculateAddressSimilarity complaintText formattedPhone location imageUrl now)
  (only parsing).

Lemma scanCandidate_step (state : option Match.t * Q) (d : string * Complaint.t) :
  FirebaseService.scanCandidate categorizeDepartment compareText compareImages
    compareTypes haversine calculateAddressSimilarity
    complaintText formattedPhone location imageUrl now state d
  = if scanned (snd d) && negb (Qle_bool (Similarity.score (similarity_of (snd d))) (snd state))
    then (Some (retained d), Similarity.score (similarity_of (snd d)))
    else state.
Proof.
  destruct state as [best h]. unfold FirebaseService.scanCandidate, scanned.
  destruct (String.eqb (Complaint.createdBy (snd d)) formattedPhone); [reflexivity|].
  simpl negb at 1. rewrite andb_true_l.
  destruct (categorizeDepartment complaintText) as [dept|e]; simpl.
  - match goal with |- context [if ?b then (best, h) else _] => destruct b end;
      simpl; [reflexivity|].
    fold (similarity_of (snd d)).
    destruct (Qle_bool (Similarity.score (similarity_of (snd d))) h); reflexivity.
  - fold (similarity_of (snd d)).
    destruct (Qle_bool (Similarity.score (similarity_of (snd d))) h); reflexivity.
Qed.

Lemma scan_inv_step (done : list (string * Complaint.t)) (state : option Match.t * Q)
    (d : string * Complaint.t) :
  scan_inv done state ->
  scan_inv (done ++ [d])
    (FirebaseService.scanCandidate categorizeDepartment compareText compareImages
       compareTypes haversine calculateAddressSimilarity
       complaintText formattedPhone location imageUrl now state d).
Proof.
  intros (Hpos & Hmax & Hbest). rewrite scanCandidate_step.
  unfold scan_inv.
  destruct (scanned (snd d)) eqn:Hsc; cbn [andb].
  - destruct (Qle_bool (Similarity.score (similarity_of (snd d))) (snd state)) eqn:Hle;
      cbn [negb fst snd]; reflect_Qle.
    + split; [exact Hpos|]. split.
      * intros d' Hin Hs. apply elem_of_app in Hin. destruct Hin as [Hin|Hin].
        -- apply Hmax; assumption.
        -- apply list_elem_of_singleton in Hin. subst d'. exact Hle.
      * destruct (fst state) as [m|]; [|exact Hbest].
        destruct Hbest as (d0 & Hin & Hs & Hm & Hh).
        exists d0. split; [apply elem_of_app; left; exact Hin|]. auto.
    + split; [lra|]. split.
      * intros d' Hin Hs. apply elem_of_app in Hin. destruct Hin as [Hin|Hin].
        -- specialize (Hmax d' Hin Hs). lra.
        -- apply list_elem_of_singleton in Hin. subst d'. apply Qle_refl.
      * exists d. split; [apply elem_of_app; right; apply list_elem_of_here|]. auto.
  - split; [exact Hpos|]. split.
    + intros d' Hin Hs. apply elem_of_app in Hin. destruct Hin as [Hin|Hin].
      * apply Hmax; assumption.
      * apply list_elem_of_singleton in Hin. subst d'. congruence.
    + destruct (fst state) as [m|]; [|exact Hbest].
      destruct Hbest as (d0 & Hin & Hs & Hm & Hh).
      exists d0. split; [apply elem_of_app; left; exact Hin|]. auto.
Qed.

Lemma scan_inv_fold (docs done : list (string * Complaint.t))
    (state : option Match.t * Q) :
  scan_inv done state ->
  scan_inv (done ++ docs)
    (fold_left
       (FirebaseService.scanCandidate categorizeDepartment compareText compareImages
          compareTypes haversine calculateAddressSimilarity
          complaintText formattedPhone location imageUrl now)
       docs state).
Proof.
  revert done state. induction docs as [|d docs IH]; intros done state Hinv; simpl.
  - rewrite app_nil_r. exact Hinv.
  - replace (done ++ d :: docs) with ((done ++ [d]) ++ docs)
      by (rewrite <- app_assoc; reflexivity).
    apply IH. apply scan_inv_step. exact Hinv.
Qed.

Lemma scanCandidates_inv (docs : list (string * Complaint.t)) :
  scan_inv docs
    (FirebaseService.scanCandidates categorizeDepartment compareText compareImages
       compareTypes haversine calculateAddressSimilarity
       complaintText formattedPhone location imageUrl now docs).
Proof.
  unfold FirebaseService.scanCandidates.
  apply (scan_inv_fold docs [] (None, 0)).
  split; [apply Qle_refl|]. split; [|reflexivity].
  intros d Hin. apply elem_of_nil in Hin. contradiction.
Qed.

End DuplicateCheck.

Lemma addUserToComplaintFollowUp_total (formatPhoneNumber : string -> string)
    (complaintId phoneNumber : string) (now : Z) (s : Store) :
  exists s',
    FirebaseService.addUserToComplaintFollowUp formatPhoneNumber
      complaintId phoneNumber now s = (Js.Ok tt, s').
Proof.
  unfold FirebaseService.addUserToComplaintFollowUp, Async.try_catch, Async.bind,
    Async.get_store, Async.ret, Firestore.update_complaint, Firestore.update_ticket.
  destruct (complaints s !! complaintId) as [c|]; simpl; [|eexists; reflexivity].
  destruct (Firestore.first_by_id _ _) as [[k t]|]; simpl; [|eexists; reflexivity].
  destruct (tickets s !! k); eexists; reflexivity.
Qed.

Section DuplicateResult.
Variable formatPhoneNumber : string -> string.
Variable categorizeDepartment : string -> Js.exn string.
Variable compareText : string -> string -> Js.exn TextReply.
Variable compareImages : string -> string -> Js.exn ImageReply.
Variable compareTypes : string -> string -> Js.exn TypeReply.
Variable haversine : Q -> Q -> Q -> Q -> Q.
Variable calculateAddressSimilarity : string -> string -> Q.
Variable complaintText phoneNumber : string.
Variable location : option Location.
Variable imageUrl : option string.
Variable now : Z.

Let similarity (c : Complaint.t) : Similarity.t :=
  similarity_of compareText compareImages compareTypes haversine
    calculateAddressSimilarity complaintText location imageUrl now c.

Let is_scanned (c : Complaint.t) : bool :=
  scanned categorizeDepartment haversine complaintText
    (formatPhoneNumber phoneNumber) location c.

(** The duplicate check answers from the scanned candidate of highest
    aggregate alone.  A duplicate result is for a scanned candidate with a
    duplicate verdict whose aggregate no scanned candidate exceeds; a
    "no duplicate" result carries the highest aggregate of the scanned
    candidates (0 when none is positive), and is given as soon as the
    candidate holding it has a non-duplicate verdict.  The check never
    throws and never takes its fallback. *)
Theorem checkDuplicateComplaint_result (s : Store) :
  match fst (FirebaseService.checkDuplicateComplaint formatPhoneNumber
               categorizeDepartment compareText compareImages compareTypes
               haversine calculateAddressSimilarity
               complaintText phoneNumber location imageUrl now s) with
  | Js.Ok NoCandidates => FirebaseService.queryCandidates now s = []
  | Js.Ok (Duplicate best) =>
      exists d,
        d ∈ FirebaseService.queryCandidates now s /\
        is_scanned (snd d) = true /\
        best = Match.mk (snd d) (similarity (snd d)) (fst d) /\
        Similarity.isDuplicate (similarity (snd d)) = true /\
        forall d', d' ∈ FirebaseService.queryCandidates now s ->
                   is_scanned (snd d') = true ->
                   Similarity.score (similarity (snd d'))
                   <= Similarity.score (similarity (snd d))
  | Js.Ok (NotDuplicate highestScore totalChecked) =>
      totalChecked = length (FirebaseService.queryCandidates now s) /\
      (forall d', d' ∈ FirebaseService.queryCandidates now s ->
                  is_scanned (snd d') = true ->
                  Similarity.score (similarity (snd d')) <= highestScore) /\
      (highestScore = 0 \/
       exists d,
         d ∈ FirebaseService.queryCandidates now s /\
         is_scanned (snd d) = true /\
         highestScore = Similarity.score (similarity (snd d)) /\
         Similarity.isDuplicate (similarity (snd d)) = false)
  | Js.Ok (Fallback _) => False
  | Js.Throw _ => False
  end.
Proof.
  unfold FirebaseService.checkDuplicateComplaint, Async.try_catch.
  unfold Async.bind at 1. unfold Async.get_store at 1.
  pose proof (scanCandidates_inv categorizeDepartment compareText compareImages
                compareTypes haversine calculateAddressSimilarity complaintText
                (formatPhoneNumber phoneNumber) location imageUrl now
                (FirebaseService.queryCandidates now s)) as Hinv.
  destruct (FirebaseService.queryCandidates now s) as [|d0 docs] eqn:Hdocs;
    [reflexivity|].
  destruct (FirebaseService.scanCandidates _ _ _ _ _ _ _ _ _ _ _ _) as [best h].
  destruct Hinv as (Hpos & Hmax & Hbest). cbn [fst snd] in *.
  destruct best as [m|].
  - destruct Hbest as (d & Hin & Hsc & -> & ->).
    unfold retained. cbn [Match.similarity Match.docId].
    destruct (Similarity.isDuplicate (similarity_of _ _ _ _ _ _ _ _ _ (snd d))) eqn:Hdup.
    + destruct (addUserToComplaintFollowUp_total formatPhoneNumber (fst d)
                  (formatPhoneNumber phoneNumber) now s) as (s' & Hjoin).
      unfold Async.bind. rewrite Hjoin. cbn.
      exists d. repeat split; assumption.
    + cbn. split; [reflexivity|]. split; [exact Hmax|].
      right. exists d. repeat split; assumption.
  - cbn. split; [reflexivity|]. split; [exact Hmax|]. left. exact Hbest.
Qed.

End DuplicateResult.

(** ** What the follow-up join keeps *)

Lemma arrayUnion_adds (field : option (list string)) (x : string) :
  x ∈ Firestore.arrayUnion field x.
Proof.
  unfold Firestore.arrayUnion. destruct field as [l|]; [|apply list_elem_of_here].
  destruct (bool_decide (x ∈ l)) eqn:E.
  - apply bool_decide_eq_true in E. exact E.
  - apply elem_of_app. right. apply list_elem_of_here.
Qed.

Lemma arrayUnion_keeps (field : option (list string)) (x y : string) :
  y ∈ default [] field -> y ∈ Firestore.arrayUnion field x.
Proof.
  unfold Firestore.arrayUnion. destruct field as [l|]; simpl.
  - intros H. destruct (bool_decide (x ∈ l)); [exact H|].
    apply elem_of_app. left. exact H.
  - intros H. apply elem_of_nil in H. contradiction.
Qed.

Lemma arrayUnion_idempotent (field : option (list string)) (x : string) :
  Firestore.arrayUnion (Some (Firestore.arrayUnion field x)) x
  = Firestore.arrayUnion field x.
Proof.
  pose proof (arrayUnion_adds field x) as H.
  unfold Firestore.arrayUnion at 1.
  rewrite (bool_decide_eq_true_2 _ H). reflexivity.
Qed.

Lemma first_by_id_elem {A : Type} (p : A -> bool) (m : gmap string A)
    (k : string) (a : A) :
  Firestore.first_by_id p m = Some (k, a) -> m !! k = Some a /\ p a = true.
Proof.
  unfold Firestore.first_by_id.
  assert (Hgen : forall l : list (string * A),
             foldr (fun d acc =>
                      match acc with
                      | Some d' => if String.ltb (fst d) (fst d') then Some d else Some d'
                      | None => Some d
                      end) None l = Some (k, a) -> In (k, a) l).
  { induction l as [|d l IH]; simpl; [discriminate|].
    destruct (foldr _ None l) as [d'|] eqn:E.
    - destruct (String.ltb (fst d) (fst d')).
      + intros [= ->]. left. reflexivity.
      + intros [= ->]. right. apply IH. reflexivity.
    - intros [= ->]. left. reflexivity. }
  intros H. apply Hgen in H. apply filter_In in H. destruct H as [H Hp].
  apply list_elem_of_In in H. apply elem_of_map_to_list in H. auto.
Qed.

Section Followers.
Variable formatPhoneNumber : string -> string.
Variable categorizeDepartment : string -> Js.exn string.
Variable assessComplaintPriority : string -> Js.exn string.
Variable categorizeComplaintType : string -> Js.exn string.
Variable geocodeAddress : Q -> Q -> string.

Local Abbreviation call :=
  (call formatPhoneNumber categorizeDepartment assessComplaintPriority
     categorizeComplaintType geocodeAddress) (only parsing).

(** The effect of a join on the two collections. *)
Lemma join_effect (complaintId phoneNumber : string) (now : Z) (s : Store) :
  let s' := call (Join complaintId phoneNumber now) s in
  (forall k c, complaints s !! k = Some c ->
     exists c', complaints s' !! k = Some c' /\
                Complaint.createdBy c' = Complaint.createdBy c /\
                Complaint.department c' = Complaint.department c /\
                Complaint.priority c' = Complaint.priority c /\
                Complaint.category c' = Complaint.category c /\
                (forall x, x ∈ complaint_followers c -> x ∈ complaint_followers c') /\
                (k = complaintId -> formatPhoneNumber phoneNumber ∈ complaint_followers c')) /\
  (forall k t, tickets s !! k = Some t ->
     exists t', tickets s' !! k = Some t' /\
                Ticket.createdBy t' = Ticket.createdBy t /\
                Ticket.complaintId t' = Ticket.complaintId t /\
                (forall x, x ∈ Ticket.followUpUsers t -> x ∈ Ticket.followUpUsers t')) /\
  (forall k, complaints s !! k = None -> complaints s' !! k = None) /\
  (forall k, tickets s !! k = None -> tickets s' !! k = None).
Proof.
  cbv zeta.
  unfold call, exec, FirebaseService.addUserToComplaintFollowUp, Async.try_catch,
    Async.bind, Async.get_store, Async.ret, Firestore.update_complaint,
    Firestore.update_ticket.
  destruct (complaints s !! complaintId) as [c0|] eqn:Hc0; cbn [fst snd].
  2:{ repeat split; try (intros; assumption).
      - intros k c Hk. exists c. repeat split; auto. intros ->. congruence.
      - intros k t Hk. exists t. repeat split; auto. }
  cbn [tickets complaints].
  destruct (Firestore.first_by_id _ (tickets s)) as [[kt t0]|] eqn:Hfirst.
  - apply first_by_id_elem in Hfirst. destruct Hfirst as [Hkt _].
    cbn [fst snd tickets complaints]. rewrite Hkt. cbn [fst snd tickets complaints].
    repeat split.
    + intros k c Hk. destruct (decide (complaintId = k)) as [->|Hne].
      * rewrite lookup_insert_eq. rewrite Hk in Hc0. injection Hc0 as ->.
        eexists. split; [reflexivity|]. unfold complaint_followers. cbn.
        repeat split; [apply arrayUnion_keeps | intros _; apply arrayUnion_adds].
      * rewrite lookup_insert_ne by exact Hne. exists c. repeat split; auto.
        intros Heq. congruence.
    + intros k t Hk. destruct (decide (kt = k)) as [->|Hne].
      * rewrite lookup_insert_eq. rewrite Hk in Hkt. injection Hkt as ->.
        eexists. split; [reflexivity|]. cbn.
        repeat split. intros x Hx. apply (arrayUnion_keeps (Some _)). exact Hx.
      * rewrite lookup_insert_ne by exact Hne. exists t. repeat split; auto.
    + intros k Hk. rewrite lookup_insert_ne; [exact Hk|]. congruence.
    + intros k Hk. rewrite lookup_insert_ne; [exact Hk|]. congruence.
  - cbn [fst snd tickets complaints]. repeat split.
    + intros k c Hk. destruct (decide (complaintId = k)) as [->|Hne].
      * rewrite lookup_insert_eq. rewrite Hk in Hc0. injection Hc0 as ->.
        eexists. split; [reflexivity|]. unfold complaint_followers. cbn.
        repeat split; [apply arrayUnion_keeps | intros _; apply arrayUnion_adds].
      * rewrite lookup_insert_ne by exact Hne. exists c. repeat split; auto.
        intros Heq. congruence.
    + intros k t Hk. exists t. repeat split; auto.
    + intros k Hk. rewrite lookup_insert_ne; [exact Hk|]. congruence.
    + intros k Hk. exact Hk.
Qed.

End Followers.

Section TicketFollowers.
Variable formatPhoneNumber : string -> string.
Variable categorizeDepartment : string -> Js.exn string.
Variable assessComplaintPriority : string -> Js.exn string.
Variable categorizeComplaintType : string -> Js.exn string.
Variable geocodeAddress : Q -> Q -> string.

Lemma call_keeps_tickets_follow_creator (c : ServiceCall) (s : Store) :
  tickets_follow_creator s ->
  tickets_follow_creator
    (call formatPhoneNumber categorizeDepartment assessComplaintPriority
       categorizeComplaintType geocodeAddress c s).
Proof.
  intros Hinv. destruct c as [description phone img id now | id w tid now | id now | id phone now].
  - unfold call, exec.
    destruct (createDraftComplaint_stored formatPhoneNumber categorizeDepartment
                assessComplaintPriority categorizeComplaintType
                description phone img id now s) as (c & Hrun & _).
    rewrite Hrun. exact Hinv.
  - unfold call, exec. destruct (complaints s !! id) as [c|] eqn:Hc.
    + destruct (confirmComplaint_known formatPhoneNumber geocodeAddress id w tid now s c Hc)
        as (s' & t & Hrun & _ & Hts & _ & Hby & _ & Hfollow & _).
      rewrite Hrun. cbn [snd]. intros k t' Hk. rewrite Hts in Hk.
      destruct (decide (tid = k)) as [->|Hne].
      * rewrite lookup_insert_eq in Hk. injection Hk as <-.
        rewrite Hfollow, Hby. apply list_elem_of_here.
      * rewrite lookup_insert_ne in Hk by exact Hne. exact (Hinv k t' Hk).
    + rewrite (confirmComplaint_unknown _ _ _ _ _ _ _ Hc). exact Hinv.
  - unfold call, exec. destruct (complaints s !! id) as [c|] eqn:Hc.
    + rewrite (cancelComplaint_known _ _ _ _ Hc). exact Hinv.
    + rewrite (cancelComplaint_unknown _ _ _ Hc). exact Hinv.
  - destruct (join_effect formatPhoneNumber categorizeDepartment
                assessComplaintPriority categorizeComplaintType geocodeAddress
                id phone now s) as (_ & Htickets & _ & Hnone).
    intros k t' Hk.
    destruct (tickets s !! k) as [t|] eqn:Ht.
    + destruct (Htickets k t Ht) as (t'' & Hk' & Hby & _ & Hsub).
      rewrite Hk in Hk'. injection Hk' as <-.
      rewrite Hby. apply Hsub. exact (Hinv k t Ht).
    + rewrite (Hnone k Ht) in Hk. discriminate.
Qed.

Lemma calls_keep_tickets_follow_creator (calls : list ServiceCall) (s : Store) :
  tickets_follow_creator s ->
  tickets_follow_creator
    (fold_left (fun s c =>
                  call formatPhoneNumber categorizeDepartment assessComplaintPriority
                    categorizeComplaintType geocodeAddress c s)
               calls s).
Proof.
  revert s. induction calls as [|c calls IH]; intros s Hinv; simpl; [exact Hinv|].
  apply IH. apply call_keeps_tickets_follow_creator. exact Hinv.
Qed.

(** From an empty repository on, whatever drafts, confirmations,
    cancellations and joins are made, every ticket has its creator among
    its followers. *)
Theorem tickets_always_follow_creator (calls : list ServiceCall) :
  tickets_follow_creator
    (fold_left (fun s c =>
                  call formatPhoneNumber categorizeDepartment assessComplaintPriority
                    categorizeComplaintType geocodeAddress c s)
               calls empty_store).
Proof.
  apply calls_keep_tickets_follow_creator.
  intros k t H. unfold empty_store in H. cbn [tickets] in H.
  rewrite lookup_empty in H. discriminate.
Qed.

End TicketFollowers.

(** ** Scores the engine computes itself *)

(** The location score is one of the piecewise values, raised by 0.2 and
    capped at 1 for similar addresses: it lies in [0, 1]; a pair of
    locations is within proximity exactly when at most 0.2 km apart. *)
Theorem analyzeLocationProximity_unit
    (calculateDistance : Q -> Q -> Q -> Q -> Q)
    (calculateAddressSimilarity : string -> string -> Q)
    (newLocation existingLocation : option Location) :
  let result :=
    AiService.analyzeLocationProximity calculateDistance calculateAddressSimilarity
      newLocation existingLocation in
  0 <= Proximity.score result <= 1 /\
  (Proximity.withinProximity result = true <->
   exists a b,
     newLocation = Some a /\ existingLocation = Some b /\
     calculateDistance (latitude a) (longitude a) (latitude b) (longitude b) <= 0.2).
Proof.
  cbv zeta. unfold AiService.analyzeLocationProximity.
  destruct newLocation as [a|], existingLocation as [b|]; simpl;
    try (split; [lra|]; split; [discriminate|]; intros (a' & b' & H1 & H2 & _);
         discriminate).
  set (dist := calculateDistance (latitude a) (longitude a) (latitude b) (longitude b)).
  set (sim := calculateAddressSimilarity _ _).
  assert (Hiff : (exists a0 b0, Some a = Some a0 /\ Some b = Some b0 /\
              calculateDistance (latitude a0) (longitude a0) (latitude b0) (longitude b0)
              <= 0.2) <-> dist <= 0.2).
  { split.
    - intros (a0 & b0 & [= <-] & [= <-] & H). exact H.
    - intros H. exists a, b. auto. }
  rewrite Hiff. clear Hiff.
  unfold Js.Math_min.
  destruct (Qle_bool dist 0.05) eqn:E1; [|destruct (Qle_bool dist 0.1) eqn:E2;
    [|destruct (Qle_bool dist 0.2) eqn:E3; [|destruct (Qle_bool dist 0.5) eqn:E4;
      [|destruct (Qle_bool dist 1.0) eqn:E5]]]];
    destruct (Qle_bool sim 0.8); simpl;
    repeat match goal with
      | |- context [Qle_bool ?x ?y] => destruct (Qle_bool x y) eqn:?
      end; simpl; reflect_Qle;
    (split; [lra|]); split; intros H; try reflexivity; try discriminate; try lra.
Qed.

(** The recency score is one of 1.0, 0.8, 0.6, 0.3, 0.1 and 0.5. *)
Theorem analyzeTemporalRelevance_unit (now : Z) (existingComplaintDate : DateArg) :
  0 < Temporal.score (AiService.analyzeTemporalRelevance now existingComplaintDate) <= 1.
Proof.
  unfold AiService.analyzeTemporalRelevance.
  destruct existingComplaintDate as [[[ms|]|e]|[ms|]]; simpl;
    repeat match goal with
      | |- context [Qle_bool ?x ?y] => destruct (Qle_bool x y)
      end; simpl; lra.
Qed.

(** [checkComplaintSimilarity] receives the text of the stored complaint and
    reads the creation date off it: the recency analyzer is always given
    [undefined], and the recency sub-score is 0.1 whenever the complaint
    was created. *)
Theorem checkComplaintSimilarity_recency_constant
    (compareText : string -> string -> Js.exn TextReply)
    (compareImages : string -> string -> Js.exn ImageReply)
    (compareTypes : string -> string -> Js.exn TypeReply)
    (calculateDistance : Q -> Q -> Q -> Q -> Q)
    (calculateAddressSimilarity : string -> string -> Q) (now : Z)
    (newComplaint existingComplaint : string)
    (newLocation existingLocation : option Location)
    (newImageUrl existingImageUrl : option string) :
  option_map Breakdown.temporal
    (Similarity.breakdown
       (AiService.checkComplaintSimilarity compareText compareImages compareTypes
          calculateDistance calculateAddressSimilarity now newComplaint existingComplaint
          newLocation existingLocation newImageUrl existingImageUrl))
  = Some (Temporal.mk 0.1 "Old complaint" None).
Proof. reflexivity. Qed.

(** The resolution estimate: base hours of the department (48 when
    unknown) times the priority factor (1 when unknown), rounded up. *)
Theorem calculateEstimatedResolutionTime_table :
  FirebaseService.calculateEstimatedResolutionTime "Water Supply" "medium" = 24%Z /\
  FirebaseService.calculateEstimatedResolutionTime "Waste Management" "medium" = 48%Z /\
  FirebaseService.calculateEstimatedResolutionTime "Building & Planning" "medium" = 168%Z /\
  FirebaseService.calculateEstimatedResolutionTime "Water Supply" "emergency" = 6%Z /\
  FirebaseService.calculateEstimatedResolutionTime "Water Supply" "high" = 12%Z /\
  FirebaseService.calculateEstimatedResolutionTime "Water Supply" "low" = 36%Z /\
  FirebaseService.calculateEstimatedResolutionTime "Electricity" "low" = 18%Z /\
  FirebaseService.calculateEstimatedResolutionTime "Electricity" "emergency" = 3%Z /\
  FirebaseService.calculateEstimatedResolutionTime "Street Dogs" "medium" = 48%Z /\
  FirebaseService.calculateEstimatedResolutionTime "Street Dogs" "urgent" = 48%Z.
Proof. repeat split. Qed.


(** ** Repositories built by the service *)

Section Reachable.
Variable formatPhoneNumber : string -> string.
Variable categorizeDepartment : string -> Js.exn string.
Variable assessComplaintPriority : string -> Js.exn string.
Variable categorizeComplaintType : string -> Js.exn string.
Variable geocodeAddress : Q -> Q -> string.

Local Abbreviation call :=
  (call formatPhoneNumber categorizeDepartment assessComplaintPriority
     categorizeComplaintType geocodeAddress) (only parsing).

Lemma percentage_insert (s s' : Store) (k : string) (c : Complaint.t) :
  complaints s' = <[k := c]> (complaints s) ->
  (Complaint.completionPercentage (Complaint.workflow c) <= 60)%Z ->
  (forall id, (percentage id s <= 60)%Z) ->
  forall id, (percentage id s' <= 60)%Z.
Proof.
  intros Hs' Hc Hall id. unfold percentage. rewrite Hs'.
  destruct (decide (k = id)) as [->|Hne].
  - rewrite lookup_insert_eq. exact Hc.
  - rewrite lookup_insert_ne by exact Hne. apply Hall.
Qed.

Lemma call_keeps_well_formed (c : ServiceCall) (s : Store) :
  well_formed s -> well_formed (call c s).
Proof.
  intros [Hwf Hpct].
  destruct c as [description phone img id now | id w tid now | id now | id phone now].
  - unfold call, exec.
    destruct (createDraftComplaint_stored formatPhoneNumber categorizeDepartment
                assessComplaintPriority categorizeComplaintType
                description phone img id now s)
      as (c & Hrun & Hid & _ & _ & _ & _ & _ & Hp).
    rewrite Hrun. cbn [snd]. split.
    + intros k x. cbn [complaints].
      destruct (decide (id = k)) as [->|Hne].
      * rewrite lookup_insert_eq. intros [= <-]. exact Hid.
      * rewrite lookup_insert_ne by exact Hne. apply Hwf.
    + apply (percentage_insert s _ id c); [reflexivity | rewrite Hp; lia | exact Hpct].
  - unfold call, exec. destruct (complaints s !! id) as [c|] eqn:Hc.
    + destruct (confirmComplaint_known formatPhoneNumber geocodeAddress id w tid now s c Hc)
        as (s' & t & Hrun & Hcs & _).
      rewrite Hrun. cbn [snd]. split.
      * eapply wf_ids_insert; [exact Hwf | exact Hc | | exact Hcs]. reflexivity.
      * apply (percentage_insert s _ _ _ Hcs); [simpl; lia | exact Hpct].
    + rewrite (confirmComplaint_unknown _ _ _ _ _ _ _ Hc). split; assumption.
  - unfold call, exec. destruct (complaints s !! id) as [c|] eqn:Hc.
    + rewrite (cancelComplaint_known _ _ _ _ Hc). cbn [snd]. split.
      * eapply wf_ids_insert; [exact Hwf | exact Hc | | reflexivity]. reflexivity.
      * apply (percentage_insert s _ id (FirebaseService.cancelUpdate now c));
          [reflexivity | simpl; lia | exact Hpct].
    + rewrite (cancelComplaint_unknown _ _ _ Hc). split; assumption.
  - unfold call, exec, FirebaseService.addUserToComplaintFollowUp,
      Async.try_catch, Async.bind, Async.get_store, Async.ret,
      Firestore.update_complaint, Firestore.update_ticket.
    destruct (complaints s !! id) as [c|] eqn:Hc; cbn [fst snd]; [|split; assumption].
    cbn [tickets complaints].
    assert (Hgoal : forall s' : Store,
              complaints s' =
                <[id := {| Complaint.id := Complaint.id c;
                           Complaint.description := Complaint.description c;
                           Complaint.department := Complaint.department c;
                           Complaint.priority := Complaint.priority c;
                           Complaint.category := Complaint.category c;
                           Complaint.createdBy := Complaint.createdBy c;
                           Complaint.status := Complaint.status c;
                           Complaint.createdAt := Complaint.createdAt c;
                           Complaint.updatedAt := now;
                           Complaint.estimatedResolutionTime :=
                             Complaint.estimatedResolutionTime c;
                           Complaint.location := Complaint.location c;
                           Complaint.imageUrl := Complaint.imageUrl c;
                           Complaint.requiresLocationSharing :=
                             Complaint.requiresLocationSharing c;
                           Complaint.ticketId := Complaint.ticketId c;
                           Complaint.workflow := Complaint.workflow c;
                           Complaint.followUpUsers :=
                             Some (Firestore.arrayUnion (Complaint.followUpUsers c)
                                     (formatPhoneNumber phone));
                           Complaint.confirmedAt := Complaint.confirmedAt c;
                           Complaint.cancelledAt := Complaint.cancelledAt c |}]>
                  (complaints s) ->
              well_formed s').
    { intros s' Hs'. split.
      - eapply wf_ids_insert; [exact Hwf | exact Hc | | exact Hs']. reflexivity.
      - apply (percentage_insert s _ _ _ Hs'); [|exact Hpct].
        cbn [Complaint.workflow]. specialize (Hpct id). unfold percentage in Hpct.
        rewrite Hc in Hpct. exact Hpct. }
    destruct (Firestore.first_by_id _ (tickets s)) as [[kt t0]|];
      cbn [fst snd tickets complaints].
    + destruct (tickets s !! kt); cbn [fst snd]; apply Hgoal; reflexivity.
    + apply Hgoal. reflexivity.
Qed.

(** Every repository the service builds from an empty one is well formed. *)
Lemma reachable_well_formed (calls : list ServiceCall) :
  well_formed (fold_left (fun s c => call c s) calls empty_store).
Proof.
  assert (Hgen : forall s, well_formed s ->
                           well_formed (fold_left (fun s c => call c s) calls s)).
  { induction calls as [|c calls IH]; intros s Hs; simpl; [exact Hs|].
    apply IH. apply call_keeps_well_formed. exact Hs. }
  apply Hgen. split.
  - intros k c H. unfold empty_store in H. cbn [complaints] in H.
    rewrite lookup_empty in H. discriminate.
  - intros id. unfold percentage, empty_store. cbn [complaints].
    rewrite lookup_empty. lia.
Qed.

End Reachable.

(** ** Phone numbers and identifiers *)

Lemma string_length_list (s : string) :
  String.length s = length (list_ascii_of_string s).
Proof. induction s as [|c s IH]; simpl; congruence. Qed.

Lemma keep_digits_list (s : string) :
  list_ascii_of_string (Js.keep_digits s)
  = List.filter Js.is_digit (list_ascii_of_string s).
Proof. unfold Js.keep_digits. apply list_ascii_of_string_of_list_ascii. Qed.

Lemma filter_filter_same {A : Type} (p : A -> bool) (l : list A) :
  List.filter p (List.filter p l) = List.filter p l.
Proof.
  induction l as [|a l IH]; simpl; [reflexivity|].
  destruct (p a) eqn:E; simpl; [rewrite E, IH; reflexivity | exact IH].
Qed.

Lemma keep_digits_idempotent (s : string) :
  Js.keep_digits (Js.keep_digits s) = Js.keep_digits s.
Proof.
  unfold Js.keep_digits at 1. rewrite keep_digits_list, filter_filter_same.
  reflexivity.
Qed.

Lemma keep_digits_String (c : ascii) (s : string) :
  Js.keep_digits (String c s)
  = if Js.is_digit c then String c (Js.keep_digits s) else Js.keep_digits s.
Proof. unfold Js.keep_digits. simpl. destruct (Js.is_digit c); reflexivity. Qed.

Lemma digits_only_tail (c : ascii) (s : string) :
  digits_only (String c s) -> digits_only s.
Proof.
  unfold digits_only. rewrite keep_digits_String.
  destruct (Js.is_digit c) eqn:E.
  - intros [= H]. exact H.
  - intros H. exfalso.
    assert (Hlen : (String.length (Js.keep_digits s) <= String.length s)%nat).
    { rewrite !string_length_list, keep_digits_list. apply filter_length_le. }
    rewrite H in Hlen. simpl in Hlen. lia.
Qed.

Lemma digits_only_91 (cleaned : string) :
  digits_only cleaned -> digits_only (String "9" (String "1" cleaned)).
Proof.
  unfold digits_only. intros H. rewrite !keep_digits_String. simpl.
  rewrite H. reflexivity.
Qed.

Lemma formatPhoneNumber_fixed (phoneNumber : string) :
  Helpers.formatPhoneNumber (Helpers.formatPhoneNumber phoneNumber)
  = Helpers.formatPhoneNumber phoneNumber.
Proof.
  remember (Helpers.formatPhoneNumber phoneNumber) as out eqn:Hout.
  unfold Helpers.formatPhoneNumber in Hout.
  destruct (String.eqb phoneNumber "") eqn:Hempty; [subst out; reflexivity|].
  pose proof (keep_digits_idempotent phoneNumber) as Hidem.
  set (cleaned := Js.keep_digits phoneNumber) in *.
  destruct (String.length cleaned =? 10)%nat eqn:H10.
  { subst out. apply Nat.eqb_eq in H10.
    assert (Hk : Js.keep_digits ("91" ++ cleaned) = ("91" ++ cleaned)%string)
      by (apply digits_only_91; exact Hidem).
    assert (Hl : String.length ("91" ++ cleaned) = 12%nat). { change ("91" ++ cleaned)%string with (String "9" (String "1" cleaned)). simpl. lia. }
    assert (Hp : Js.startsWith ("91" ++ cleaned) "91" = true).
    { change ("91" ++ cleaned)%string with (String "9" (String "1" cleaned)). reflexivity. }
    assert (He : String.eqb ("91" ++ cleaned) "" = false).
    { change ("91" ++ cleaned)%string with (String "9" (String "1" cleaned)). reflexivity. }
    unfold Helpers.formatPhoneNumber. rewrite He, Hk, Hl, Hp. reflexivity. }
  destruct ((String.length cleaned =? 12)%nat && Js.startsWith cleaned "91") eqn:H12.
  { subst out. unfold Helpers.formatPhoneNumber. rewrite Hidem, H10, H12.
    destruct (String.eqb cleaned "") eqn:E; [|reflexivity].
    apply String.eqb_eq in E. rewrite E in H12. discriminate. }
  destruct ((String.length cleaned =? 13)%nat && Js.startsWith cleaned "911") eqn:H13.
  { subst out. apply andb_prop in H13. destruct H13 as [Hlen Hpre].
    apply Nat.eqb_eq in Hlen.
    destruct cleaned as [|a rest] eqn:Hc; [discriminate|].
    cbn [Js.substring_from].
    assert (Hrest : digits_only rest) by (apply (digits_only_tail a); exact Hidem).
    simpl in Hlen. injection Hlen as Hlen.
    destruct rest as [|b rest']; [discriminate|].
    cbn [Js.startsWith] in Hpre.
    apply andb_prop in Hpre. destruct Hpre as [_ Hpre].
    apply andb_prop in Hpre. destruct Hpre as [Hb _].
    apply Ascii.eqb_eq in Hb. subst b.
    unfold Helpers.formatPhoneNumber.
    unfold digits_only in Hrest. rewrite Hrest, Hlen. reflexivity. }
  destruct ((10 <=? String.length cleaned)%nat && (String.length cleaned <=? 15)%nat) eqn:Hr.
  { subst out. unfold Helpers.formatPhoneNumber. rewrite Hidem, H10, H12, H13, Hr.
    destruct (String.eqb cleaned "") eqn:E; [|reflexivity].
    apply String.eqb_eq in E. rewrite E in Hr. discriminate. }
  subst out. unfold Helpers.formatPhoneNumber. fold cleaned.
  rewrite Hempty, H10, H12, H13, Hr. reflexivity.
Qed.

(** Only the empty string formats to the empty string. *)
Lemma formatPhoneNumber_empty (phoneNumber : string) :
  Helpers.formatPhoneNumber phoneNumber = "" -> phoneNumber = "".
Proof.
  unfold Helpers.formatPhoneNumber.
  destruct (String.eqb phoneNumber "") eqn:Hempty; [intros _; apply String.eqb_eq; exact Hempty|].
  set (cleaned := Js.keep_digits phoneNumber).
  assert (Hlen : forall x : string, (0 < String.length x)%nat -> x <> "").
  { intros x Hx ->. simpl in Hx. lia. }
  destruct (String.length cleaned =? 10)%nat eqn:E10.
  { change ("91" ++ cleaned)%string with (String "9" (String "1" cleaned)).
    intros H. discriminate H. }
  destruct ((String.length cleaned =? 12)%nat && Js.startsWith cleaned "91") eqn:E12.
  { apply andb_prop in E12. destruct E12 as [E12 _]. apply Nat.eqb_eq in E12.
    intros H. exfalso. apply (Hlen cleaned); [lia | exact H]. }
  destruct ((String.length cleaned =? 13)%nat && Js.startsWith cleaned "911") eqn:E13.
  { apply andb_prop in E13. destruct E13 as [E13 _]. apply Nat.eqb_eq in E13.
    destruct cleaned as [|a [|b rest]]; simpl in E13; discriminate. }
  destruct ((10 <=? String.length cleaned)%nat && (String.length cleaned <=? 15)%nat) eqn:E15.
  { apply andb_prop in E15. destruct E15 as [E15 _]. apply Nat.leb_le in E15.
    intros H. exfalso. apply (Hlen cleaned); [lia | exact H]. }
  intros ->. reflexivity.
Qed.

Lemma formatPhoneNumber_of_digits (phoneNumber : string) :
  (10 <= String.length (Js.keep_digits phoneNumber) <= 15)%nat ->
  Helpers.formatPhoneNumber phoneNumber
  = Helpers.formatPhoneNumber (Js.keep_digits phoneNumber).
Proof.
  intros Hlen. unfold Helpers.formatPhoneNumber.
  rewrite keep_digits_idempotent.
  destruct (String.eqb phoneNumber "") eqn:E1.
  { apply String.eqb_eq in E1. subst. simpl in Hlen. lia. }
  destruct (String.eqb (Js.keep_digits phoneNumber) "") eqn:E2.
  { apply String.eqb_eq in E2. rewrite E2 in Hlen. simpl in Hlen. lia. }
  repeat match goal with
    | |- context [if ?b then _ else _] => destruct b eqn:?; try reflexivity
    end.
  apply andb_false_iff in Heqb2. destruct Heqb2 as [H|H].
  - apply Nat.leb_gt in H. lia.
  - apply Nat.leb_gt in H. lia.
Qed.

Lemma string_length_substring_from_1 (s : string) :
  String.length (Js.substring_from s 1) = (String.length s - 1)%nat.
Proof. destruct s; simpl; lia. Qed.

Lemma digits_only_substring_from_1 (s : string) :
  digits_only s -> digits_only (Js.substring_from s 1).
Proof.
  destruct s as [|c s]; simpl; [auto|]. apply digits_only_tail.
Qed.

Lemma formatPhoneNumber_digits (phoneNumber : string) :
  (10 <= String.length (Js.keep_digits phoneNumber) <= 15)%nat ->
  digits_only (Helpers.formatPhoneNumber phoneNumber) /\
  (11 <= String.length (Helpers.formatPhoneNumber phoneNumber) <= 15)%nat.
Proof.
  intros Hlen. unfold Helpers.formatPhoneNumber.
  pose proof (keep_digits_idempotent phoneNumber) as Hidem.
  set (cleaned := Js.keep_digits phoneNumber) in *.
  destruct (String.eqb phoneNumber "") eqn:E1.
  { apply String.eqb_eq in E1. subst phoneNumber. subst cleaned. simpl in Hlen. lia. }
  destruct (String.length cleaned =? 10)%nat eqn:H10.
  { apply Nat.eqb_eq in H10.
    change ("91" ++ cleaned)%string with (String "9" (String "1" cleaned)).
    split; [apply digits_only_91; exact Hidem | simpl; lia]. }
  apply Nat.eqb_neq in H10.
  destruct ((String.length cleaned =? 12)%nat && Js.startsWith cleaned "91") eqn:H12.
  { split; [exact Hidem | lia]. }
  destruct ((String.length cleaned =? 13)%nat && Js.startsWith cleaned "911") eqn:H13.
  { apply andb_prop in H13. destruct H13 as [H13 _]. apply Nat.eqb_eq in H13.
    split; [apply digits_only_substring_from_1; exact Hidem|].
    rewrite string_length_substring_from_1. lia. }
  destruct ((10 <=? String.length cleaned)%nat && (String.length cleaned <=? 15)%nat) eqn:Hr.
  { split; [exact Hidem | lia]. }
  apply andb_false_iff in Hr. destruct Hr as [H|H]; apply Nat.leb_gt in H; lia.
Qed.

Lemma isValidPhoneNumber_formatted (phoneNumber : string) :
  Helpers.isValidPhoneNumber (Helpers.formatPhoneNumber phoneNumber)
  = Helpers.isValidPhoneNumber phoneNumber.
Proof.
  remember (Helpers.formatPhoneNumber phoneNumber) as out eqn:Hout.
  unfold Helpers.formatPhoneNumber in Hout.
  destruct (String.eqb phoneNumber "") eqn:Hempty.
  { subst out. apply String.eqb_eq in Hempty. subst. reflexivity. }
  pose proof (keep_digits_idempotent phoneNumber) as Hidem.
  unfold Helpers.isValidPhoneNumber at 2. rewrite Hempty.
  set (cleaned := Js.keep_digits phoneNumber) in *.
  destruct (String.length cleaned =? 10)%nat eqn:H10.
  { subst out. apply Nat.eqb_eq in H10.
    assert (H12 : (String.length cleaned =? 12)%nat = false)
      by (apply Nat.eqb_neq; lia).
    rewrite H12. cbn [andb].
    change ("91" ++ cleaned)%string with (String "9" (String "1" cleaned)).
    assert (Hk : Js.keep_digits (String "9" (String "1" cleaned))
                 = String "9" (String "1" cleaned))
      by (apply digits_only_91; exact Hidem).
    unfold Helpers.isValidPhoneNumber. rewrite Hk.
    cbn [String.length Js.startsWith Js.substring_from String.eqb].
    rewrite H10. reflexivity. }
  destruct ((String.length cleaned =? 12)%nat && Js.startsWith cleaned "91") eqn:H12.
  { subst out. unfold Helpers.isValidPhoneNumber. rewrite Hidem, H12.
    destruct (String.eqb cleaned "") eqn:E; [|reflexivity].
    apply String.eqb_eq in E. rewrite E in H12. discriminate. }
  destruct ((String.length cleaned =? 13)%nat && Js.startsWith cleaned "911") eqn:H13.
  { subst out. apply andb_prop in H13. destruct H13 as [Hlen Hpre].
    apply Nat.eqb_eq in Hlen.
    destruct cleaned as [|a rest] eqn:Hc; [discriminate|].
    cbn [Js.substring_from].
    assert (Hrest : digits_only rest) by (apply (digits_only_tail a); exact Hidem).
    simpl in Hlen. injection Hlen as Hlen.
    destruct rest as [|b rest']; [discriminate|].
    cbn [Js.startsWith] in Hpre.
    apply andb_prop in Hpre. destruct Hpre as [_ Hpre].
    apply andb_prop in Hpre. destruct Hpre as [Hb _].
    apply Ascii.eqb_eq in Hb. subst b.
    unfold Helpers.isValidPhoneNumber.
    unfold digits_only in Hrest. rewrite Hrest, Hlen.
    cbn [String.length] in *. injection Hlen as Hlen. rewrite Hlen.
    reflexivity. }
  destruct ((10 <=? String.length cleaned)%nat && (String.length cleaned <=? 15)%nat) eqn:Hr.
  { subst out. unfold Helpers.isValidPhoneNumber. rewrite Hidem, H10.
    destruct (String.eqb cleaned "") eqn:E.
    { apply String.eqb_eq in E. rewrite E in Hr. discriminate. }
    apply andb_false_iff in H12.
    destruct ((String.length cleaned =? 12)%nat && Js.startsWith cleaned "91") eqn:H12';
      [|exact Hr].
    destruct H12 as [H|H]; apply andb_prop in H12'; destruct H12' as [? ?]; congruence. }
  subst out. unfold Helpers.isValidPhoneNumber. fold cleaned.
  rewrite Hempty, H10, H12, Hr. reflexivity.
Qed.

Lemma formatPhoneNumber_ten_digits (phoneNumber : string) :
  String.length (Js.keep_digits phoneNumber) = 10%nat ->
  Helpers.formatPhoneNumber phoneNumber = ("91" ++ Js.keep_digits phoneNumber)%string.
Proof.
  intros Hlen. unfold Helpers.formatPhoneNumber.
  destruct (String.eqb phoneNumber "") eqn:E.
  { apply String.eqb_eq in E. subst. discriminate. }
  rewrite Hlen. reflexivity.
Qed.

(** Formatting a phone number twice is formatting it once, and it
    does not change whether the number is valid: the number the
    controller formats and the number the repository formats again are
    one identity. *)
Theorem formatPhoneNumber_idempotent (phoneNumber : string) :
  Helpers.formatPhoneNumber (Helpers.formatPhoneNumber phoneNumber)
  = Helpers.formatPhoneNumber phoneNumber /\
  Helpers.isValidPhoneNumber (Helpers.formatPhoneNumber phoneNumber)
  = Helpers.isValidPhoneNumber phoneNumber.
Proof.
  split; [apply formatPhoneNumber_fixed | apply isValidPhoneNumber_formatted].
Qed.

(** A number with 10 to 15 digits is formatted from its digits
    alone, whatever the spaces, dashes and signs around them: the result
    holds digits only, 11 to 15 of them, and a 10-digit number gets the
    country code 91 in front. *)
Theorem formatPhoneNumber_normal_form (phoneNumber : string) :
  (10 <= String.length (Js.keep_digits phoneNumber) <= 15)%nat ->
  digits_only (Helpers.formatPhoneNumber phoneNumber) /\
  (11 <= String.length (Helpers.formatPhoneNumber phoneNumber) <= 15)%nat /\
  Helpers.formatPhoneNumber phoneNumber
  = Helpers.formatPhoneNumber (Js.keep_digits phoneNumber) /\
  (String.length (Js.keep_digits phoneNumber) = 10%nat ->
   Helpers.formatPhoneNumber phoneNumber
   = ("91" ++ Js.keep_digits phoneNumber)%string).
Proof.
  intros Hlen.
  destruct (formatPhoneNumber_digits phoneNumber Hlen) as [Hd Hl].
  split; [exact Hd|]. split; [exact Hl|].
  split; [apply formatPhoneNumber_of_digits; exact Hlen|].
  apply formatPhoneNumber_ten_digits.
Qed.

Lemma formatPhoneNumber_normal_form_witness :
  digits_only (Helpers.formatPhoneNumber "+91 98765-43210") /\
  Helpers.formatPhoneNumber "(98765) 43210" = "919876543210".
Proof.
  split.
  - apply (formatPhoneNumber_normal_form "+91 98765-43210"). vm_compute. lia.
  - rewrite (proj2 (proj2 (proj2 (formatPhoneNumber_normal_form "(98765) 43210"
                                     ltac:(vm_compute; lia)))) eq_refl).
    reflexivity.
Defined.

Lemma value36_digit36 (d : Z) :
  (0 <= d < 36)%Z -> value36 (Js.upper (Js.digit36 d)) = d.
Proof.
  intros Hd.
  assert (Hall : forallb (fun k => (value36 (Js.upper (Js.digit36 (Z.of_nat k)))
                                    =? Z.of_nat k)%Z) (seq 0 36) = true)
    by (vm_compute; reflexivity).
  rewrite forallb_forall in Hall.
  specialize (Hall (Z.to_nat d)).
  rewrite Z2Nat.id in Hall by lia.
  apply Z.eqb_eq. apply Hall. apply in_seq. lia.
Qed.

Lemma decode36_snoc (l : list ascii) (c : ascii) :
  decode36 (string_of_list_ascii (l ++ [c]))
  = (36 * decode36 (string_of_list_ascii l) + value36 c)%Z.
Proof.
  unfold decode36. rewrite !list_ascii_of_string_of_list_ascii, fold_left_app.
  reflexivity.
Qed.

Lemma digits36_decode (fuel : nat) (n : Z) :
  (0 <= n < 36 ^ Z.of_nat fuel)%Z ->
  decode36 (string_of_list_ascii (List.map Js.upper (Js.digits36 fuel n))) = n.
Proof.
  revert n. induction fuel as [|fuel IH]; intros n Hn.
  - change (36 ^ Z.of_nat 0)%Z with 1%Z in Hn. cbn. lia.
  - cbn [Js.digits36]. destruct (Z.ltb_spec n 36) as [Hlt|Hge].
    + cbn [List.map]. unfold decode36. cbn [string_of_list_ascii list_ascii_of_string fold_left].
      rewrite value36_digit36 by lia. lia.
    + rewrite List.map_app. cbn [List.map]. rewrite decode36_snoc.
      rewrite IH.
      * rewrite value36_digit36 by (apply Z.mod_pos_bound; lia).
        pose proof (Z.div_mod n 36). lia.
      * split; [apply Z.div_pos; lia|].
        apply Z.div_lt_upper_bound; [lia|].
        rewrite Nat2Z.inj_succ, Z.pow_succ_r in Hn by lia. lia.
Qed.

Lemma digits36_length (k fuel : nat) (n : Z) :
  (36 ^ Z.of_nat k <= n)%Z -> (n < 36 ^ Z.of_nat fuel)%Z ->
  (k < length (Js.digits36 fuel n))%nat.
Proof.
  revert fuel n. induction k as [|k IH]; intros fuel n Hlo Hhi.
  - change (36 ^ Z.of_nat 0)%Z with 1%Z in Hlo.
    destruct fuel as [|fuel]; [change (36 ^ Z.of_nat 0)%Z with 1%Z in Hhi; lia|].
    cbn [Js.digits36]. destruct (n <? 36)%Z; [simpl; lia|].
    rewrite length_app. simpl. lia.
  - rewrite Nat2Z.inj_succ, Z.pow_succ_r in Hlo by lia.
    assert (H36 : (0 < 36 ^ Z.of_nat k)%Z) by (apply Z.pow_pos_nonneg; lia).
    destruct fuel as [|fuel]; [change (36 ^ Z.of_nat 0)%Z with 1%Z in Hhi; lia|].
    cbn [Js.digits36]. destruct (Z.ltb_spec n 36) as [Hlt|Hge]; [lia|].
    rewrite length_app. simpl.
    assert (Hk : (k < length (Js.digits36 fuel (n / 36)))%nat).
    { apply IH.
      - apply Z.div_le_lower_bound; lia.
      - apply Z.div_lt_upper_bound; [lia|].
        rewrite Nat2Z.inj_succ, Z.pow_succ_r in Hhi by lia. lia. }
    lia.
Qed.

Lemma toString36_fuel (n : Z) :
  (0 <= n)%Z -> (n < 36 ^ Z.of_nat (S (Z.to_nat (Z.log2 n))))%Z.
Proof.
  intros Hn. rewrite Nat2Z.inj_succ, Z2Nat.id by apply Z.log2_nonneg.
  destruct (Z.eq_dec n 0%Z) as [->|Hne]; [vm_compute; reflexivity|].
  pose proof (Z.log2_spec n ltac:(lia)) as [_ Hhi].
  apply Z.lt_le_trans with (1 := Hhi).
  apply Z.pow_le_mono_l. pose proof (Z.log2_nonneg n). lia.
Qed.

Lemma string_of_list_length (l : list ascii) :
  String.length (string_of_list_ascii l) = length l.
Proof. induction l as [|c l IH]; simpl; congruence. Qed.

Lemma string_append_empty (s : string) : (s ++ "")%string = s.
Proof.
  induction s as [|c s IH]; [reflexivity|].
  change (String c (s ++ "")%string = String c s). rewrite IH. reflexivity.
Qed.

Lemma generateTicketId_timestamp (now : Z) (random : nat -> Q) :
  (36 ^ 7 <= now)%Z ->
  Helpers.generateTicketId 8 "" now random = Js.toUpperCase (Js.toString36 now).
Proof.
  intros Hnow. unfold Helpers.generateTicketId. cbn [String.eqb].
  assert (Hlen : (7 < String.length (Js.toUpperCase (Js.toString36 now)))%nat).
  { unfold Js.toUpperCase, Js.toString36.
    rewrite string_of_list_length, length_map, list_ascii_of_string_of_list_ascii.
    apply digits36_length; [exact Hnow|]. apply toString36_fuel. lia. }
  unfold Helpers.generateRandomString.
  replace (Z.to_nat (8 - Z.of_nat (String.length (Js.toUpperCase (Js.toString36 now)))))
    with 0%nat by lia.
  cbn [Helpers.randomChars]. apply string_append_empty.
Qed.

Lemma toString36_decode (n : Z) :
  (0 <= n)%Z ->
  decode36 (Js.toUpperCase (Js.toString36 n)) = n.
Proof.
  intros Hn. unfold Js.toUpperCase, Js.toString36.
  rewrite list_ascii_of_string_of_list_ascii.
  apply digits36_decode. split; [exact Hn|]. apply toString36_fuel. exact Hn.
Qed.

(** With [Date.now()] at or after 36^7 ms (late June 1972) the ticket id of
    [generateTicketId(8)] is the time in base 36 and nothing else: the
    random part is empty.  The id determines the millisecond and the
    millisecond the id, whatever the random draws. *)
Theorem generateTicketId_is_timestamp (now : Z) (random : nat -> Q) :
  (36 ^ 7 <= now)%Z ->
  Helpers.generateTicketId 8 "" now random = Js.toUpperCase (Js.toString36 now) /\
  decode36 (Helpers.generateTicketId 8 "" now random) = now /\
  forall (now' : Z) (random' : nat -> Q),
    (36 ^ 7 <= now')%Z ->
    (Helpers.generateTicketId 8 "" now random
     = Helpers.generateTicketId 8 "" now' random' <-> now = now').
Proof.
  intros Hnow.
  pose proof (generateTicketId_timestamp now random Hnow) as Hid.
  split; [exact Hid|]. split.
  - rewrite Hid. apply toString36_decode. lia.
  - intros now' random' Hnow'.
    rewrite Hid, (generateTicketId_timestamp now' random' Hnow').
    split; [|intros ->; reflexivity].
    intros Heq. rewrite <- (toString36_decode now), <- (toString36_decode now') by lia.
    rewrite Heq. reflexivity.
Qed.

Lemma generateTicketId_is_timestamp_witness :
  Helpers.generateTicketId 8 "" 1699990060000 (fun _ => 0.5) = "LOYQ6TB4".
Proof.
  rewrite (proj1 (generateTicketId_is_timestamp 1699990060000 (fun _ => 0.5)
                    ltac:(vm_compute; discriminate))).
  vm_compute. reflexivity.
Defined.

(** ** Sanitized Firestore data *)

Lemma sanitizeFirestoreData_object (c : option string) (entries : list (string * JsValue)) :
  FirebaseService.sanitizeFirestoreData (JsObject c entries)
  = if FirebaseService.preserved c entries then JsObject c entries
    else JsObject (Some "Object") (sanitized_entries entries).
Proof.
  cbn [FirebaseService.sanitizeFirestoreData]. destruct (FirebaseService.preserved c entries); reflexivity.
Qed.

Lemma sanitizeFirestoreData_defined (v : JsValue) :
  Value.is_undefined (FirebaseService.sanitizeFirestoreData v) = false.
Proof.
  destruct v; try reflexivity.
  rewrite sanitizeFirestoreData_object. destruct (FirebaseService.preserved _ _); reflexivity.
Qed.

Lemma sanitizeFirestoreData_fixed (v : JsValue) :
  FirebaseService.sanitizeFirestoreData (FirebaseService.sanitizeFirestoreData v) = FirebaseService.sanitizeFirestoreData v.
Proof.
  induction v as [| | b | q | s | t | items IH | c entries IH] using JsValue_induction;
    try reflexivity.
  - cbn [FirebaseService.sanitizeFirestoreData]. f_equal.
    induction IH as [|x l Hx Hl IHl]; [reflexivity|].
    cbn [List.map List.filter].
    destruct (Value.is_null (FirebaseService.sanitizeFirestoreData x)) eqn:E; cbn [negb].
    + exact IHl.
    + cbn [List.map List.filter]. rewrite Hx, E. cbn [negb]. f_equal. exact IHl.
  - rewrite sanitizeFirestoreData_object.
    destruct (FirebaseService.preserved c entries) eqn:Hp.
    + rewrite sanitizeFirestoreData_object, Hp. reflexivity.
    + rewrite sanitizeFirestoreData_object.
      destruct (FirebaseService.preserved (Some "Object") (sanitized_entries entries)); [reflexivity|].
      f_equal. clear Hp.
      induction IH as [|[k x] l Hx Hl IHl]; [reflexivity|].
      cbn [sanitized_entries]. cbv zeta. cbn [snd] in Hx.
      destruct (Value.is_null (FirebaseService.sanitizeFirestoreData x)) eqn:E.
      * exact IHl.
      * cbn [sanitized_entries]. cbv zeta. rewrite Hx, E. f_equal. exact IHl.
Qed.

Lemma sanitizeFirestoreData_defined_inside (v : JsValue) :
  defined_inside (FirebaseService.sanitizeFirestoreData v) = true.
Proof.
  induction v as [| | b | q | s | t | items IH | c entries IH] using JsValue_induction;
    try reflexivity.
  - cbn [FirebaseService.sanitizeFirestoreData defined_inside].
    induction IH as [|x l Hx Hl IHl]; [reflexivity|].
    cbn [List.map List.filter].
    destruct (Value.is_null (FirebaseService.sanitizeFirestoreData x)) eqn:E; cbn [negb]; [exact IHl|].
    cbn [forallb]. rewrite E, sanitizeFirestoreData_defined, Hx, IHl. reflexivity.
  - rewrite sanitizeFirestoreData_object.
    destruct (FirebaseService.preserved c entries) eqn:Hp.
    + cbn [defined_inside]. rewrite Hp. reflexivity.
    + cbn [defined_inside]. apply orb_true_iff. right. clear Hp.
      induction IH as [|[k x] l Hx Hl IHl]; [reflexivity|].
      cbn [sanitized_entries]. cbv zeta. cbn [snd] in Hx.
      destruct (Value.is_null (FirebaseService.sanitizeFirestoreData x)) eqn:E; [exact IHl|].
      cbn [forallb snd]. rewrite E, sanitizeFirestoreData_defined, Hx, IHl. reflexivity.
Qed.

Lemma sanitizeFirestoreData_null (v : JsValue) :
  FirebaseService.sanitizeFirestoreData v = JsNull <-> v = JsNull \/ v = JsUndefined.
Proof.
  split.
  - destruct v as [| | b | q | s | t | items | c entries];
      try (cbn [FirebaseService.sanitizeFirestoreData]; discriminate); auto.
    rewrite sanitizeFirestoreData_object.
    destruct (FirebaseService.preserved _ _); discriminate.
  - intros [-> | ->]; reflexivity.
Qed.

(** Sanitizing twice is sanitizing once, and the result is [null] exactly
    for [null] and [undefined]. *)
Theorem sanitizeFirestoreData_idempotent (data : JsValue) :
  FirebaseService.sanitizeFirestoreData (FirebaseService.sanitizeFirestoreData data)
  = FirebaseService.sanitizeFirestoreData data /\
  (FirebaseService.sanitizeFirestoreData data = JsNull
   <-> data = JsNull \/ data = JsUndefined).
Proof.
  split; [apply sanitizeFirestoreData_fixed | apply sanitizeFirestoreData_null].
Qed.

(** A sanitized value is never [undefined] and holds neither [null] nor
    [undefined] at any depth outside the Firestore objects it preserves;
    a sanitized array has lost its [null] and [undefined] items, so it is
    no longer than the array given. *)
Theorem sanitizeFirestoreData_defined_values (data : JsValue) :
  Value.is_undefined (FirebaseService.sanitizeFirestoreData data) = false /\
  defined_inside (FirebaseService.sanitizeFirestoreData data) = true /\
  forall items,
    data = JsArray items ->
    exists items',
      FirebaseService.sanitizeFirestoreData data = JsArray items' /\
      (length items' <= length items)%nat /\
      (length items' = length items ->
       Forall (fun item => item <> JsNull /\ item <> JsUndefined) items).
Proof.
  split; [apply sanitizeFirestoreData_defined|].
  split; [apply sanitizeFirestoreData_defined_inside|].
  intros items ->. cbn [FirebaseService.sanitizeFirestoreData].
  eexists. split; [reflexivity|]. split.
  - pose proof (filter_length_le (fun item => negb (Value.is_null item))
                  (List.map FirebaseService.sanitizeFirestoreData items)) as Hle.
    rewrite length_map in Hle. exact Hle.
  - induction items as [|x items IH]; [constructor|].
    cbn [List.map List.filter length].
    destruct (Value.is_null (FirebaseService.sanitizeFirestoreData x)) eqn:E; cbn [negb length].
    + intros Hlen. exfalso.
      pose proof (filter_length_le (fun item => negb (Value.is_null item))
                    (List.map FirebaseService.sanitizeFirestoreData items)) as Hle.
      rewrite length_map in Hle. lia.
    + intros [= Hlen]. constructor; [|apply IH; exact Hlen].
      split; intros ->; discriminate.
Qed.

(** ** Classification of a new complaint *)

Lemma includes_In (items : list string) (x : string) :
  AiService.includes items x = true -> In x items.
Proof.
  unfold AiService.includes. intros H. apply existsb_exists in H.
  destruct H as (y & Hin & Heq). apply String.eqb_eq in Heq. subst. exact Hin.
Qed.

Lemma categorizeDepartment_valid (askDepartment : string -> Js.exn string)
    (description : string) :
  In (AiService.categorizeDepartment askDepartment description)
     AiService.validDepartments.
Proof.
  unfold AiService.categorizeDepartment.
  destruct (askDepartment description) as [content|e]; cbn [Js.try_catch Js.bind]; cbv zeta.
  - destruct (AiService.includes _ _) eqn:E; [apply includes_In; exact E|].
    do 9 right. left. reflexivity.
  - do 9 right. left. reflexivity.
Qed.

Lemma assessComplaintPriority_valid (askPriority : string -> Js.exn string)
    (description : string) :
  In (AiService.assessComplaintPriority askPriority description)
     AiService.validPriorities.
Proof.
  unfold AiService.assessComplaintPriority.
  destruct (askPriority description) as [content|e]; cbn [Js.try_catch Js.bind]; cbv zeta.
  - destruct (AiService.includes _ _) eqn:E; [apply includes_In; exact E|].
    do 2 right. left. reflexivity.
  - do 2 right. left. reflexivity.
Qed.

Lemma categorizeComplaintType_valid (askComplaintType : string -> Js.exn string)
    (description : string) :
  In (AiService.categorizeComplaintType askComplaintType description)
     AiService.validTypes.
Proof.
  unfold AiService.categorizeComplaintType.
  destruct (askComplaintType description) as [content|e]; cbn [Js.try_catch Js.bind]; cbv zeta.
  - destruct (AiService.includes _ _) eqn:E; [apply includes_In; exact E|].
    do 11 right. left. reflexivity.
  - do 11 right. left. reflexivity.
Qed.

Lemma estimate_range (department priority : string) :
  In department AiService.validDepartments ->
  In priority AiService.validPriorities ->
  (3 <= FirebaseService.calculateEstimatedResolutionTime department priority <= 252)%Z.
Proof.
  intros Hd Hp. simpl in Hd, Hp.
  repeat (destruct Hd as [<-|Hd]); try contradiction;
    repeat (destruct Hp as [<-|Hp]); try contradiction; vm_compute; split; discriminate.
Qed.

Lemma estimate_urgency (department : string) :
  In department AiService.validDepartments ->
  (FirebaseService.calculateEstimatedResolutionTime department "emergency"
   <= FirebaseService.calculateEstimatedResolutionTime department "high"
   <= FirebaseService.calculateEstimatedResolutionTime department "medium")%Z /\
  (FirebaseService.calculateEstimatedResolutionTime department "medium"
   <= FirebaseService.calculateEstimatedResolutionTime department "low")%Z.
Proof.
  intros Hd. simpl in Hd.
  repeat (destruct Hd as [<-|Hd]); try contradiction; vm_compute; repeat split; discriminate.
Qed.

(** The resolution estimate of a department and a priority of the lists
    lies between 3 and 252 hours, and is the shorter the more urgent the
    priority. *)
Theorem calculateEstimatedResolutionTime_range (department priority : string) :
  In department AiService.validDepartments ->
  In priority AiService.validPriorities ->
  (3 <= FirebaseService.calculateEstimatedResolutionTime department priority <= 252)%Z /\
  (FirebaseService.calculateEstimatedResolutionTime department "emergency"
   <= FirebaseService.calculateEstimatedResolutionTime department "high"
   <= FirebaseService.calculateEstimatedResolutionTime department "medium")%Z /\
  (FirebaseService.calculateEstimatedResolutionTime department "medium"
   <= FirebaseService.calculateEstimatedResolutionTime department "low")%Z.
Proof.
  intros Hd Hp. split; [apply estimate_range; assumption|].
  apply estimate_urgency. exact Hd.
Qed.

Lemma calculateEstimatedResolutionTime_range_witness :
  (3 <= FirebaseService.calculateEstimatedResolutionTime "Electricity" "emergency" <= 252)%Z.
Proof.
  apply (calculateEstimatedResolutionTime_range "Electricity" "emergency").
  - vm_compute. tauto.
  - vm_compute. tauto.
Defined.

(** Whatever the language model answers or fails to answer, a draft is
    stored with a department, a priority and a category of the three
    lists, and with the resolution estimate of that department and
    priority, between 3 and 252 hours; when the three calls fail the draft
    is a medium General Administration complaint estimated at 48 hours. *)
Theorem createDraftComplaint_classified
    (formatPhoneNumber : string -> string)
    (askDepartment askPriority askComplaintType : string -> Js.exn string)
    (description phoneNumber : string) (imageUrl : option string)
    (complaintId : string) (now : Z) (s : Store) :
  exists draft,
    FirebaseService.createDraftComplaint formatPhoneNumber
      (fun d => Js.Ok (AiService.categorizeDepartment askDepartment d))
      (fun d => Js.Ok (AiService.assessComplaintPriority askPriority d))
      (fun d => Js.Ok (AiService.categorizeComplaintType askComplaintType d))
      description phoneNumber imageUrl complaintId now s
    = (Js.Ok draft,
       {| complaints := <[complaintId := draft]> (complaints s);
          tickets := tickets s; citizens := citizens s; chats := chats s |}) /\
    In (Complaint.department draft) AiService.validDepartments /\
    In (Complaint.priority draft) AiService.validPriorities /\
    In (Complaint.category draft) AiService.validTypes /\
    Complaint.estimatedResolutionTime draft
    = FirebaseService.calculateEstimatedResolutionTime
        (Complaint.department draft) (Complaint.priority draft) /\
    (3 <= Complaint.estimatedResolutionTime draft <= 252)%Z /\
    ((exists e, askDepartment description = Js.Throw e) ->
     (exists e, askPriority description = Js.Throw e) ->
     (exists e, askComplaintType description = Js.Throw e) ->
     Complaint.department draft = "General Administration" /\
     Complaint.priority draft = "medium" /\
     Complaint.category draft = "General Services" /\
     Complaint.estimatedResolutionTime draft = 48%Z).
Proof.
  eexists. split; [reflexivity|].
  cbn [Complaint.department Complaint.priority Complaint.category
       Complaint.estimatedResolutionTime FirebaseService.settled].
  pose proof (categorizeDepartment_valid askDepartment description) as Hd.
  pose proof (assessComplaintPriority_valid askPriority description) as Hp.
  pose proof (categorizeComplaintType_valid askComplaintType description) as Ht.
  split; [exact Hd|]. split; [exact Hp|]. split; [exact Ht|].
  split; [reflexivity|]. split; [apply estimate_range; assumption|].
  intros (e1 & H1) (e2 & H2) (e3 & H3).
  unfold AiService.categorizeDepartment, AiService.assessComplaintPriority,
    AiService.categorizeComplaintType.
  rewrite H1, H2, H3. repeat split.
Qed.

(** ** Bounds of the similarity evaluation *)

Section SimilarityBounds.
Variable compareText : string -> string -> Js.exn TextReply.
Variable compareImages : string -> string -> Js.exn ImageReply.
Variable compareTypes : string -> string -> Js.exn TypeReply.
Variable calculateDistance : Q -> Q -> Q -> Q -> Q.
Variable calculateAddressSimilarity : string -> string -> Q.
Variable now : Z.

Lemma analyzeSemanticSimilarity_score (lo hi : Q) (a b : string) :
  lo <= 0 <= hi ->
  (forall r, compareText a b = Js.Ok r -> lo <= Js.or_num (text_score r) 0 <= hi) ->
  lo <= Semantic.score (AiService.analyzeSemanticSimilarity compareText a b) <= hi.
Proof.
  intros H0 H. unfold AiService.analyzeSemanticSimilarity.
  destruct (compareText a b) as [r|e]; simpl; [apply H; reflexivity | exact H0].
Qed.

Lemma analyzeComplaintType_score (lo hi : Q) (a b : string) :
  lo <= 0 <= hi ->
  (forall r, compareTypes a b = Js.Ok r -> lo <= Js.or_num (type_score r) 0 <= hi) ->
  lo <= ComplaintType.score (AiService.analyzeComplaintType compareTypes a b) <= hi.
Proof.
  intros H0 H. unfold AiService.analyzeComplaintType.
  destruct (compareTypes a b) as [r|e]; simpl; [apply H; reflexivity | exact H0].
Qed.

Lemma analyzeImageSimilarity_score (lo hi : Q) (a b : option string) :
  lo <= 0 <= hi ->
  (forall x y r, compareImages x y = Js.Ok r -> lo <= Js.or_num (image_score r) 0 <= hi) ->
  lo <= Image.score (AiService.analyzeImageSimilarity compareImages a b) <= hi.
Proof.
  intros H0 H. unfold AiService.analyzeImageSimilarity.
  destruct (Js.falsy_str a || Js.falsy_str b); [exact H0|].
  destruct (compareImages _ _) as [r|e] eqn:E; simpl; [eapply H; exact E | exact H0].
Qed.

Lemma analyzeLocationProximity_score (newLocation existingLocation : option Location) :
  0 <= Proximity.score
         (AiService.analyzeLocationProximity calculateDistance calculateAddressSimilarity
            newLocation existingLocation) <= 1.
Proof.
  unfold AiService.analyzeLocationProximity.
  destruct newLocation as [a|], existingLocation as [b|]; simpl; try lra.
  unfold Js.Math_min.
  repeat match goal with
    | |- context [Qle_bool ?x ?y] => destruct (Qle_bool x y) eqn:?
    end; simpl; reflect_Qle; lra.
Qed.

Lemma analyzeLocationProximity_missing (existingLocation : option Location) :
  AiService.analyzeLocationProximity calculateDistance calculateAddressSimilarity
    None existingLocation
  = Proximity.mk 0 None "One or both locations missing" false None.
Proof. reflexivity. Qed.

Lemma calculateConfidence_bounds (finalScore : Q) (semantic : Semantic.t)
    (location : Proximity.t) (image : Image.t) :
  finalScore <= 1 ->
  finalScore <= AiService.calculateConfidence finalScore semantic location image <= 1 /\
  AiService.calculateConfidence finalScore semantic location image <= finalScore + 0.1.
Proof.
  intros H. unfold AiService.calculateConfidence, Js.Math_min.
  destruct (2 <=? _)%nat; [|lra].
  destruct (Qle_bool 1.0 (finalScore + 0.1)) eqn:E; reflect_Qle; lra.
Qed.


Local Abbreviation replies_within :=
  (replies_within compareText compareImages compareTypes) (only parsing).

Lemma checkComplaintSimilarity_unfold (newComplaint existingComplaint : string)
    (newLocation existingLocation : option Location)
    (newImageUrl existingImageUrl : option string) :
  let semantic := AiService.analyzeSemanticSimilarity compareText newComplaint existingComplaint in
  let location :=
    AiService.analyzeLocationProximity calculateDistance calculateAddressSimilarity
      newLocation existingLocation in
  let image := AiService.analyzeImageSimilarity compareImages newImageUrl existingImageUrl in
  let type := AiService.analyzeComplaintType compareTypes newComplaint existingComplaint in
  let final :=
    0.35 * Semantic.score semantic + 0.30 * Proximity.score location
    + 0.20 * Image.score image + 0.01 + 0.05 * ComplaintType.score type in
  let r :=
    AiService.checkComplaintSimilarity compareText compareImages compareTypes
      calculateDistance calculateAddressSimilarity now newComplaint existingComplaint
      newLocation existingLocation newImageUrl existingImageUrl in
  Similarity.score r == final /\
  Similarity.isDuplicate r
  = AiService.decideDuplicateStatus (Similarity.score r) semantic location image /\
  Similarity.confidence r
  = AiService.calculateConfidence (Similarity.score r) semantic location image.
Proof.
  cbv zeta. unfold AiService.checkComplaintSimilarity. cbn [Js.try_catch].
  cbn [Similarity.score Similarity.isDuplicate Similarity.confidence].
  split; [|split; reflexivity].
  unfold AiService.finalScore, AiService.weights. cbn [Weights.semantic Weights.location
    Weights.image Weights.temporal Weights.type].
  unfold AiService.analyzeTemporalRelevance, AiService.createdAt_of_text.
  cbn [Js.try_catch Js.bind Temporal.score]. ring.
Qed.


Lemma checkComplaintSimilarity_range (newComplaint existingComplaint : string)
    (newLocation existingLocation : option Location)
    (newImageUrl existingImageUrl : option string) :
  replies_within 0 1 ->
  let r :=
    AiService.checkComplaintSimilarity compareText compareImages compareTypes
      calculateDistance calculateAddressSimilarity now newComplaint existingComplaint
      newLocation existingLocation newImageUrl existingImageUrl in
  0.01 <= Similarity.score r <= 0.91 /\
  Similarity.score r <= Similarity.confidence r <= 1 /\
  Similarity.confidence r <= Similarity.score r + 0.1.
Proof.
  intros (Htext & Himage & Htype). cbv zeta.
  destruct (checkComplaintSimilarity_unfold newComplaint existingComplaint
              newLocation existingLocation newImageUrl existingImageUrl)
    as (Hscore & _ & Hconf).
  cbv zeta in Hscore, Hconf.
  pose proof (analyzeSemanticSimilarity_score 0 1 newComplaint existingComplaint
                ltac:(lra) (Htext _ _)) as Hs.
  pose proof (analyzeComplaintType_score 0 1 newComplaint existingComplaint
                ltac:(lra) (Htype _ _)) as Ht.
  pose proof (analyzeImageSimilarity_score 0 1 newImageUrl existingImageUrl
                ltac:(lra) Himage) as Hi.
  pose proof (analyzeLocationProximity_score newLocation existingLocation) as Hl.
  assert (Hrange : 0.01 <= Similarity.score
                      (AiService.checkComplaintSimilarity compareText compareImages
                         compareTypes calculateDistance calculateAddressSimilarity now
                         newComplaint existingComplaint newLocation existingLocation
                         newImageUrl existingImageUrl) <= 0.91).
  { rewrite Hscore. lra. }
  split; [exact Hrange|]. rewrite Hconf.
  apply calculateConfidence_bounds. lra.
Qed.

Lemma checkComplaintSimilarity_without_location (newComplaint existingComplaint : string)
    (existingLocation : option Location) (newImageUrl existingImageUrl : option string) :
  replies_within 0 1 ->
  Similarity.isDuplicate
    (AiService.checkComplaintSimilarity compareText compareImages compareTypes
       calculateDistance calculateAddressSimilarity now newComplaint existingComplaint
       None existingLocation newImageUrl existingImageUrl) = false.
Proof.
  intros (Htext & Himage & Htype).
  destruct (checkComplaintSimilarity_unfold newComplaint existingComplaint
              None existingLocation newImageUrl existingImageUrl)
    as (Hscore & Hdup & _).
  cbv zeta in Hscore, Hdup. rewrite Hdup. clear Hdup.
  pose proof (analyzeSemanticSimilarity_score 0 1 newComplaint existingComplaint
                ltac:(lra) (Htext _ _)) as Hs.
  pose proof (analyzeComplaintType_score 0 1 newComplaint existingComplaint
                ltac:(lra) (Htype _ _)) as Ht.
  pose proof (analyzeImageSimilarity_score 0 1 newImageUrl existingImageUrl
                ltac:(lra) Himage) as Hi.
  rewrite analyzeLocationProximity_missing in *.
  cbn [Proximity.score] in Hscore.
  set (score := Similarity.score _) in *.
  unfold AiService.decideDuplicateStatus.
  cbn [Proximity.score Proximity.withinProximity].
  assert (Hlow : score < 0.75) by (rewrite Hscore; lra).
  assert (E1 : Qle_bool 0.85 score = false) by (apply Qle_bool_false; lra).
  assert (E2 : Qle_bool 0.75 score = false) by (apply Qle_bool_false; lra).
  assert (E3 : Qle_bool 0.8 score = false) by (apply Qle_bool_false; lra).
  rewrite E1, E2, E3. cbn [andb].
  assert (E4 : Qle_bool 0.7 0 = false) by reflexivity.
  assert (E5 : Qle_bool 0.9 0 = false) by reflexivity.
  assert (E6 : Qle_bool 0.6 0 = false) by reflexivity.
  rewrite E4, E5, E6. rewrite !andb_false_r. reflexivity.
Qed.

End SimilarityBounds.

Section WithoutLocation.
Variable formatPhoneNumber : string -> string.
Variable categorizeDepartment : string -> Js.exn string.
Variable assessComplaintPriority : string -> Js.exn string.
Variable categorizeComplaintType : string -> Js.exn string.
Variable compareText : string -> string -> Js.exn TextReply.
Variable compareImages : string -> string -> Js.exn ImageReply.
Variable compareTypes : string -> string -> Js.exn TypeReply.
Variable haversine : Q -> Q -> Q -> Q -> Q.
Variable calculateAddressSimilarity : string -> string -> Q.
Variable geocodeAddress : Q -> Q -> string.

Lemma checkDuplicateComplaint_without_location (complaintText phoneNumber : string)
    (imageUrl : option string) (now : Z) (s : Store) :
  replies_within compareText compareImages compareTypes 0 1 ->
  exists r,
    FirebaseService.checkDuplicateComplaint formatPhoneNumber categorizeDepartment
      compareText compareImages compareTypes haversine calculateAddressSimilarity
      complaintText phoneNumber None imageUrl now s = (Js.Ok r, s) /\
    isDuplicate r = false.
Proof.
  intros Hreplies.
  unfold FirebaseService.checkDuplicateComplaint, Async.try_catch.
  unfold Async.bind at 1. unfold Async.get_store at 1.
  pose proof (scanCandidates_inv categorizeDepartment compareText compareImages
                compareTypes haversine calculateAddressSimilarity complaintText
                (formatPhoneNumber phoneNumber) None imageUrl now
                (FirebaseService.queryCandidates now s)) as Hinv.
  destruct (FirebaseService.queryCandidates now s) as [|d0 docs] eqn:Hdocs.
  { eexists. split; reflexivity. }
  destruct (FirebaseService.scanCandidates _ _ _ _ _ _ _ _ _ _ _ _) as [best h].
  destruct Hinv as (_ & _ & Hbest). cbn [fst snd] in *.
  destruct best as [m|]; [|eexists; split; reflexivity].
  destruct Hbest as (d & _ & _ & -> & _).
  unfold retained, similarity_of. cbn [Match.similarity Match.docId].
  rewrite (checkComplaintSimilarity_without_location compareText compareImages
             compareTypes haversine calculateAddressSimilarity now _ _ _ _ _ Hreplies).
  eexists. split; reflexivity.
Qed.

End WithoutLocation.

Lemma agreeing_replies_within :
  replies_within agreeing_text agreeing_images agreeing_types 0 1.
Proof.
  unfold replies_within, agreeing_text, agreeing_images, agreeing_types.
  split; [|split]; intros x y reply [= <-]; split; vm_compute; discriminate.
Qed.

(** With model scores in [0, 1] the aggregate of [checkComplaintSimilarity]
    lies in [0.01, 0.91]: the recency analyzer is given the creation date
    read off the text of the stored complaint, that is [undefined], so its
    sub-score is always 0.1 ("Old complaint") and a full aggregate of 1 is
    out of reach.  The confidence is the aggregate, raised by at most 0.1
    and capped at 1. *)
Theorem checkComplaintSimilarity_bounds
    (compareText : string -> string -> Js.exn TextReply)
    (compareImages : string -> string -> Js.exn ImageReply)
    (compareTypes : string -> string -> Js.exn TypeReply)
    (calculateDistance : Q -> Q -> Q -> Q -> Q)
    (calculateAddressSimilarity : string -> string -> Q) (now : Z)
    (newComplaint existingComplaint : string)
    (newLocation existingLocation : option Location)
    (newImageUrl existingImageUrl : option string) :
  replies_within compareText compareImages compareTypes 0 1 ->
  let r :=
    AiService.checkComplaintSimilarity compareText compareImages compareTypes
      calculateDistance calculateAddressSimilarity now newComplaint existingComplaint
      newLocation existingLocation newImageUrl existingImageUrl in
  option_map Breakdown.temporal (Similarity.breakdown r)
  = Some (Temporal.mk 0.1 "Old complaint" None) /\
  0.01 <= Similarity.score r <= 0.91 /\
  Similarity.score r <= Similarity.confidence r <= 1 /\
  Similarity.confidence r <= Similarity.score r + 0.1.
Proof.
  intros Hreplies. cbv zeta. split; [reflexivity|].
  apply checkComplaintSimilarity_range. exact Hreplies.
Qed.

Lemma checkComplaintSimilarity_bounds_witness :
  Similarity.score
    (AiService.checkComplaintSimilarity agreeing_text agreeing_images agreeing_types
       meridian_km (fun _ _ => 0) 1700000000000
       "Water leaking near the main signal" "Pipe leaking at the signal"
       (Some signal_junction) (Some signal_junction) (Some "new.jpg") (Some "old.jpg"))
  <= 0.91.
Proof.
  apply (checkComplaintSimilarity_bounds agreeing_text agreeing_images agreeing_types
           meridian_km (fun _ _ => 0) 1700000000000
           "Water leaking near the main signal" "Pipe leaking at the signal"
           (Some signal_junction) (Some signal_junction) (Some "new.jpg") (Some "old.jpg")
           agreeing_replies_within).
Defined.

Section ComplaintFlow.
Variable formatPhoneNumber : string -> string.
Variable categorizeDepartment : string -> Js.exn string.
Variable assessComplaintPriority : string -> Js.exn string.
Variable categorizeComplaintType : string -> Js.exn string.
Variable compareText : string -> string -> Js.exn TextReply.
Variable compareImages : string -> string -> Js.exn ImageReply.
Variable compareTypes : string -> string -> Js.exn TypeReply.
Variable haversine : Q -> Q -> Q -> Q -> Q.
Variable calculateAddressSimilarity : string -> string -> Q.
Variable geocodeAddress : Q -> Q -> string.

(** A duplicate check made without a location never answers "duplicate"
    and writes nothing, when the model's scores are in [0, 1]: without a
    location the location sub-score is 0, the aggregate stays below 0.75
    and no rule of the verdict applies. *)
Theorem checkDuplicateComplaint_needs_location (complaintText phoneNumber : string)
    (imageUrl : option string) (now : Z) (s : Store) :
  replies_within compareText compareImages compareTypes 0 1 ->
  exists r,
    FirebaseService.checkDuplicateComplaint formatPhoneNumber categorizeDepartment
      compareText compareImages compareTypes haversine calculateAddressSimilarity
      complaintText phoneNumber None imageUrl now s = (Js.Ok r, s) /\
    isDuplicate r = false /\
    forall existingComplaint existingLocation existingImageUrl,
      Similarity.isDuplicate
        (AiService.checkComplaintSimilarity compareText compareImages compareTypes
           haversine calculateAddressSimilarity now complaintText existingComplaint
           None existingLocation imageUrl existingImageUrl) = false.
Proof.
  intros Hreplies.
  destruct (checkDuplicateComplaint_without_location formatPhoneNumber
              categorizeDepartment compareText compareImages compareTypes haversine
              calculateAddressSimilarity complaintText phoneNumber imageUrl now s Hreplies)
    as (r & Hrun & Hdup).
  exists r. split; [exact Hrun|]. split; [exact Hdup|].
  intros existingComplaint existingLocation existingImageUrl.
  apply checkComplaintSimilarity_without_location. exact Hreplies.
Qed.

(** The complaint flow of the controller checks for duplicates without a
    location and without an image: with model scores in [0, 1] it never
    finds one.  Every complaint message stores a new draft of the reporter
    and changes no other document, even when it repeats an open complaint. *)
Theorem handleComplaintFlow_always_drafts (messageText phoneNumber : string)
    (imageUrl : option string) (complaintId : string) (now : Z) (s : Store) :
  replies_within compareText compareImages compareTypes 0 1 ->
  exists draft,
    WebhookController.handleComplaintFlow formatPhoneNumber categorizeDepartment
      assessComplaintPriority categorizeComplaintType compareText compareImages
      compareTypes haversine calculateAddressSimilarity
      messageText phoneNumber imageUrl complaintId now s
    = (Js.Ok (Some draft),
       {| complaints := <[complaintId := draft]> (complaints s);
          tickets := tickets s; citizens := citizens s; chats := chats s |}) /\
    Complaint.id draft = complaintId /\
    Complaint.createdBy draft = formatPhoneNumber phoneNumber /\
    Complaint.status draft = "draft" /\
    Complaint.followUpUsers draft = None.
Proof.
  intros Hreplies.
  destruct (checkDuplicateComplaint_without_location formatPhoneNumber
              categorizeDepartment compareText compareImages compareTypes haversine
              calculateAddressSimilarity messageText phoneNumber None now s Hreplies)
    as (r & Hrun & Hdup).
  destruct (createDraftComplaint_stored formatPhoneNumber categorizeDepartment
              assessComplaintPriority categorizeComplaintType
              messageText phoneNumber imageUrl complaintId now s)
    as (draft & Hdraft & Hid & Hby & Hstatus & _ & _ & Hfollow & _).
  exists draft. split; [|auto].
  unfold WebhookController.handleComplaintFlow.
  apply Async_try_catch_ok.
  rewrite (Async_bind_ok _ _ _ _ _ Hrun). rewrite Hdup.
  rewrite (Async_bind_ok _ _ _ _ _ Hdraft). reflexivity.
Qed.

End ComplaintFlow.

Lemma checkDuplicateComplaint_needs_location_witness :
  exists r,
    FirebaseService.checkDuplicateComplaint (fun phone => phone) (fun _ => Js.Ok "Water Supply")
      agreeing_text agreeing_images agreeing_types meridian_km (fun _ _ => 0)
      "Water leaking near the main signal" "919000000001" None (Some "new.jpg")
      1700000000000 shadow_store = (Js.Ok r, shadow_store) /\
    isDuplicate r = false.
Proof.
  destruct (checkDuplicateComplaint_needs_location (fun phone => phone)
              (fun _ => Js.Ok "Water Supply") agreeing_text agreeing_images agreeing_types
              meridian_km (fun _ _ => 0) "Water leaking near the main signal"
              "919000000001" (Some "new.jpg") 1700000000000 shadow_store
              agreeing_replies_within) as (r & Hrun & Hdup & _).
  exists r. split; assumption.
Defined.

Lemma handleComplaintFlow_always_drafts_witness :
  exists draft,
    fst (WebhookController.handleComplaintFlow (fun phone => phone)
           (fun _ => Js.Ok "Water Supply") (fun _ => Js.Ok "high")
           (fun _ => Js.Ok "Water Supply Issues")
           agreeing_text agreeing_images agreeing_types meridian_km (fun _ _ => 0)
           "Pipe leaking at the signal" "919000000001" None
           "PCMC-20231115-00FF00" 1700000000000 shadow_store)
    = Js.Ok (Some draft).
Proof.
  destruct (handleComplaintFlow_always_drafts (fun phone => phone)
              (fun _ => Js.Ok "Water Supply") (fun _ => Js.Ok "high")
              (fun _ => Js.Ok "Water Supply Issues")
              agreeing_text agreeing_images agreeing_types meridian_km (fun _ _ => 0)
              "Pipe leaking at the signal" "919000000001" None
              "PCMC-20231115-00FF00" 1700000000000 shadow_store
              agreeing_replies_within) as (draft & Hrun & _).
  exists draft. rewrite Hrun. reflexivity.
Defined.

(** ** The pending draft and the location that confirms it *)

(** A query by descending key is the prefix of a list of the matching
    documents sorted by descending key. *)
Lemma query_desc_prefix {A : Type} (p : A -> bool) (key : A -> Z) (n : nat)
    (m : gmap string A) :
  exists l,
    Firestore.query_desc p key n m = take n l /\
    StronglySorted (fun d d' : string * A => (key (snd d') <= key (snd d))%Z) l /\
    forall k a, (k, a) ∈ l <-> m !! k = Some a /\ p a = true.
Proof.
  unfold Firestore.query_desc.
  match goal with |- context [take n ?l] => exists l end.
  split; [reflexivity|]. split.
  - apply StronglySorted_merge_sort.
    + intros a b c Hab Hbc. lia.
    + intros a b. lia.
  - intros k a. rewrite merge_sort_Permutation.
    rewrite list_elem_of_In, filter_In, <- list_elem_of_In, elem_of_map_to_list.
    reflexivity.
Qed.

Lemma sorted_take_bound {A : Type} (R : A -> A -> Prop) (n : nat) (l : list A) (x y : A) :
  StronglySorted R l -> x ∈ take n l -> y ∈ drop n l -> R x y.
Proof.
  revert n. induction l as [|a l IH]; intros n Hs Hx Hy.
  - rewrite take_nil in Hx. apply elem_of_nil in Hx. contradiction.
  - apply StronglySorted_inv in Hs. destruct Hs as [Hs Hall].
    destruct n as [|n]; [apply elem_of_nil in Hx; contradiction|].
    cbn [take drop] in Hx, Hy. apply elem_of_cons in Hx. destruct Hx as [->|Hx].
    + rewrite Forall_forall in Hall. apply Hall.
      apply (subseteq_drop n). exact Hy.
    + apply (IH n); assumption.
Qed.

Lemma query_desc_complete {A : Type} (p : A -> bool) (key : A -> Z) (n : nat)
    (m : gmap string A) (k : string) (a : A) :
  m !! k = Some a -> p a = true ->
  (k, a) ∈ Firestore.query_desc p key n m \/
  (length (Firestore.query_desc p key n m) = n /\
   forall d, d ∈ Firestore.query_desc p key n m -> (key a <= key (snd d))%Z).
Proof.
  intros Hk Hp.
  destruct (query_desc_prefix p key n m) as (l & -> & Hsorted & Hl).
  assert (Hin : (k, a) ∈ l) by (apply Hl; auto).
  rewrite <- (take_drop n l) in Hin. apply elem_of_app in Hin.
  destruct Hin as [Hin|Hin]; [left; exact Hin|]. right. split.
  - apply length_take_le. destruct (le_lt_dec n (length l)) as [H|H]; [exact H|].
    rewrite drop_ge in Hin by lia. apply elem_of_nil in Hin. contradiction.
  - intros d Hd.
    exact (sorted_take_bound _ n l d (k, a) Hsorted Hd Hin).
Qed.

Lemma query_desc_head {A : Type} (p : A -> bool) (key : A -> Z) (n : nat)
    (m : gmap string A) (d : string * A) (rest : list (string * A)) :
  Firestore.query_desc p key n m = d :: rest ->
  forall k a, m !! k = Some a -> p a = true -> (key a <= key (snd d))%Z.
Proof.
  intros Hq k a Hk Hp.
  destruct (query_desc_prefix p key n m) as (l & Hql & Hsorted & Hl).
  rewrite Hq in Hql.
  assert (Hin : (k, a) ∈ l) by (apply Hl; auto).
  destruct l as [|x l']; [rewrite take_nil in Hql; discriminate|].
  destruct n as [|n]; [discriminate|]. cbn [take] in Hql. injection Hql as -> _.
  apply StronglySorted_inv in Hsorted. destruct Hsorted as [_ Hall].
  apply elem_of_cons in Hin. destruct Hin as [<-|Hin]; [cbn; lia|].
  rewrite Forall_forall in Hall. exact (Hall _ Hin).
Qed.

Lemma query_desc_nil {A : Type} (p : A -> bool) (key : A -> Z) (n : nat)
    (m : gmap string A) :
  Firestore.query_desc p key (S n) m = [] ->
  forall k a, m !! k = Some a -> p a = false.
Proof.
  intros Hq k a Hk.
  destruct (query_desc_prefix p key (S n) m) as (l & Hql & _ & Hl).
  rewrite Hq in Hql. destruct l as [|x l']; [|discriminate].
  destruct (p a) eqn:Hp; [|reflexivity].
  assert (Hin : (k, a) ∈ []) by (apply Hl; auto).
  apply elem_of_nil in Hin. contradiction.
Qed.

Lemma getPendingComplaintForUser_cases (phoneNumber : string) (s : Store) :
  (WebhookController.getPendingComplaintForUser phoneNumber s = (Js.Ok None, s) /\
   forall k c, complaints s !! k = Some c -> pending_draft phoneNumber c = false) \/
  (exists k d,
     WebhookController.getPendingComplaintForUser phoneNumber s = (Js.Ok (Some d), s) /\
     complaints s !! k = Some d /\
     pending_draft phoneNumber d = true /\
     forall k' c, complaints s !! k' = Some c -> pending_draft phoneNumber c = true ->
                  (Complaint.createdAt c <= Complaint.createdAt d)%Z).
Proof.
  unfold WebhookController.getPendingComplaintForUser, Async.try_catch, Async.bind,
    Async.get_store, Async.ret. cbn [fst snd].
  fold (pending_draft phoneNumber).
  change (fun c : Complaint.t =>
            String.eqb (Complaint.createdBy c) phoneNumber
            && String.eqb (Complaint.status c) "draft"
            && Bool.eqb (Complaint.requiresLocationSharing c) true)
    with (pending_draft phoneNumber).
  destruct (Firestore.query_desc (pending_draft phoneNumber) Complaint.createdAt 1
              (complaints s)) as [|doc rest] eqn:E.
  - left. split; [reflexivity|]. apply (query_desc_nil _ _ _ _ E).
  - right. exists (fst doc), (snd doc). split; [reflexivity|].
    assert (Hin : doc ∈ Firestore.query_desc (pending_draft phoneNumber)
                          Complaint.createdAt 1 (complaints s))
      by (rewrite E; apply list_elem_of_here).
    apply query_desc_elem in Hin. destruct Hin as [Hk Hp].
    split; [exact Hk|]. split; [exact Hp|].
    intros k' c Hk' Hc. exact (query_desc_head _ _ _ _ _ _ E k' c Hk' Hc).
Qed.

Section Location.
Variable formatPhoneNumber : string -> string.
Variable geocodeAddress : Q -> Q -> string.

Lemma confirmComplaint_chats (complaintId : string) (w : WhatsappLocation)
    (ticketId : string) (now : Z) (s : Store) :
  chats (snd (FirebaseService.confirmComplaint formatPhoneNumber geocodeAddress
                complaintId w ticketId now s)) = chats s.
Proof.
  unfold FirebaseService.confirmComplaint, FirebaseService.createTicketRecord,
    FirebaseService.updateCitizenComplaintCount, Async.try_catch, Async.bind,
    Async.get_store, Async.ret, Async.throw, Firestore.update_complaint,
    Firestore.set_ticket, Firestore.update_citizen.
  cbn [fst snd]. destruct (complaints s !! complaintId) as [c|] eqn:Hc; [|reflexivity].
  rewrite Hc. cbn [fst snd citizens complaints tickets chats].
  destruct (citizens s !! formatPhoneNumber (Complaint.createdBy c)); reflexivity.
Qed.

(** The three courses of the location handler. *)
Lemma handleLocationMessage_cases (phoneNumber : string) (w : WhatsappLocation)
    (ticketId : string) (now : Z) (s : Store) :
  wf_ids s ->
  (formatPhoneNumber phoneNumber = "" /\
   WebhookController.handleLocationMessage formatPhoneNumber geocodeAddress
     phoneNumber w ticketId now s = (Js.Ok None, s)) \/
  (formatPhoneNumber phoneNumber <> "" /\
   exists s',
     WebhookController.handleLocationMessage formatPhoneNumber geocodeAddress
       phoneNumber w ticketId now s = (Js.Ok None, s') /\
     location_saved formatPhoneNumber phoneNumber now s s' /\
     forall k c, complaints s !! k = Some c -> pending_draft phoneNumber c = false) \/
  (formatPhoneNumber phoneNumber <> "" /\
   exists d s0 s',
     WebhookController.handleLocationMessage formatPhoneNumber geocodeAddress
       phoneNumber w ticketId now s = (Js.Ok (Some ticketId), s') /\
     location_saved formatPhoneNumber phoneNumber now s s0 /\
     chats s' = chats s0 /\
     complaints s !! Complaint.id d = Some d /\
     pending_draft phoneNumber d = true /\
     (forall k c, complaints s !! k = Some c -> pending_draft phoneNumber c = true ->
                  (Complaint.createdAt c <= Complaint.createdAt d)%Z) /\
     complaints s'
     = <[Complaint.id d :=
           FirebaseService.confirmUpdate ticketId (locationData_of geocodeAddress w) now d]>
         (complaints s) /\
     exists t, tickets s' = <[ticketId := t]> (tickets s) /\
               Ticket.complaintId t = Complaint.id d /\
               Ticket.createdBy t = Complaint.createdBy d).
Proof.
  intros Hwf.
  destruct (saveChatMessage_location formatPhoneNumber phoneNumber now s)
    as [[Hempty (e & Hsave)] | (Hphone & s0 & Hsave & Hsaved)].
  { left. split; [exact Hempty|].
    unfold WebhookController.handleLocationMessage, Async.try_catch.
    rewrite (Async_bind_throw _ _ _ _ _ Hsave). reflexivity. }
  right. pose proof Hsaved as (Hc0 & Ht0 & _).
  destruct (getPendingComplaintForUser_cases phoneNumber s0)
    as [[Hrun Hnone] | (k & d & Hrun & Hk & Hp & Hmax)].
  - left. split; [exact Hphone|]. exists s0. rewrite Hc0 in Hnone.
    split; [|split; [exact Hsaved | exact Hnone]].
    unfold WebhookController.handleLocationMessage.
    apply Async_try_catch_ok. rewrite (Async_bind_ok _ _ _ _ _ Hsave).
    rewrite (Async_bind_ok _ _ _ _ _ Hrun). reflexivity.
  - right. split; [exact Hphone|].
    pose proof Hk as Hk0. rewrite Hc0 in Hk, Hmax.
    pose proof (Hwf k d Hk) as Hid. subst k.
    destruct (confirmComplaint_known formatPhoneNumber geocodeAddress
                (Complaint.id d) w ticketId now s0 d Hk0)
      as (s' & t & Hconf & Hcs & Hts & Hcid & Hby & _).
    exists d, s0, s'. split.
    { unfold WebhookController.handleLocationMessage.
      apply Async_try_catch_ok.
      rewrite (Async_bind_ok _ _ _ _ _ Hsave).
      rewrite (Async_bind_ok _ _ _ _ _ Hrun).
      rewrite (Async_bind_ok _ _ _ _ _ Hconf). reflexivity. }
    split; [exact Hsaved|]. split.
    { pose proof (confirmComplaint_chats (Complaint.id d) w ticketId now s0) as H.
      rewrite Hconf in H. exact H. }
    rewrite Hc0 in Hcs. rewrite Ht0 in Hts.
    repeat (split; [assumption|]). exists t. auto.
Qed.

End Location.

Lemma createDraftComplaint_draft
    (formatPhoneNumber : string -> string)
    (categorizeDepartment assessComplaintPriority categorizeComplaintType
       : string -> Js.exn string)
    (description phoneNumber : string) (imageUrl : option string)
    (complaintId : string) (now : Z) (s : Store) :
  exists c,
    FirebaseService.createDraftComplaint formatPhoneNumber categorizeDepartment
      assessComplaintPriority categorizeComplaintType
      description phoneNumber imageUrl complaintId now s
    = (Js.Ok c,
       {| complaints := <[complaintId := c]> (complaints s);
          tickets := tickets s; citizens := citizens s; chats := chats s |}) /\
    Complaint.id c = complaintId /\
    Complaint.createdBy c = formatPhoneNumber phoneNumber /\
    Complaint.status c = "draft" /\
    Complaint.createdAt c = now /\
    Complaint.requiresLocationSharing c = true /\
    Complaint.location c = None /\
    Complaint.ticketId c = None /\
    Complaint.confirmedAt c = None /\
    Complaint.cancelledAt c = None /\
    Complaint.followUpUsers c = None /\
    Complaint.workflow c
    = {| Complaint.step := "location_required";
         Complaint.nextAction := "await_location";
         Complaint.completionPercentage := 30;
         Complaint.lastUpdated := now |}.
Proof.
  eexists. split; [reflexivity|]. repeat split.
Qed.

Section DraftThenLocation.
Variable categorizeDepartment : string -> Js.exn string.
Variable assessComplaintPriority : string -> Js.exn string.
Variable categorizeComplaintType : string -> Js.exn string.
Variable geocodeAddress : Q -> Q -> string.

Lemma draft_then_location (from description : string) (imageUrl : option string)
    (complaintId : string) (now : Z) (w : WhatsappLocation) (ticketId : string)
    (now' : Z) (s : Store) :
  let phoneNumber := Helpers.formatPhoneNumber from in
  from <> "" ->
  wf_ids s ->
  (forall k c, complaints s !! k = Some c -> pending_draft phoneNumber c = true ->
               (Complaint.createdAt c < now)%Z) ->
  exists draft s1 s2 t,
    FirebaseService.createDraftComplaint Helpers.formatPhoneNumber categorizeDepartment
      assessComplaintPriority categorizeComplaintType
      description phoneNumber imageUrl complaintId now s = (Js.Ok draft, s1) /\
    Complaint.createdBy draft = phoneNumber /\
    WebhookController.handleLocationMessage Helpers.formatPhoneNumber geocodeAddress
      phoneNumber w ticketId now' s1 = (Js.Ok (Some ticketId), s2) /\
    complaints s2 !! complaintId
    = Some (FirebaseService.confirmUpdate ticketId (locationData_of geocodeAddress w)
              now' draft) /\
    tickets s2 !! ticketId = Some t /\
    Ticket.complaintId t = complaintId /\
    Ticket.createdBy t = phoneNumber.
Proof.
  intros phoneNumber Hfrom Hwf Holder.
  destruct (createDraftComplaint_draft Helpers.formatPhoneNumber categorizeDepartment
              assessComplaintPriority categorizeComplaintType
              description phoneNumber imageUrl complaintId now s)
    as (draft & Hrun & Hid & Hby & Hstatus & Hat & Hreq & _).
  assert (Hphone : Complaint.createdBy draft = phoneNumber).
  { rewrite Hby. unfold phoneNumber. apply formatPhoneNumber_fixed. }
  set (s1 := {| complaints := <[complaintId := draft]> (complaints s);
                tickets := tickets s; citizens := citizens s; chats := chats s |}) in *.
  assert (Hwf1 : wf_ids s1).
  { intros k c. unfold s1. cbn [complaints].
    destruct (decide (complaintId = k)) as [<-|Hne].
    - rewrite lookup_insert_eq. intros [= <-]. exact Hid.
    - rewrite lookup_insert_ne by exact Hne. apply Hwf. }
  assert (Hpending : pending_draft phoneNumber draft = true).
  { unfold pending_draft. rewrite Hphone, Hstatus, Hreq.
    rewrite String.eqb_refl. reflexivity. }
  assert (Hstored : complaints s1 !! complaintId = Some draft)
    by (unfold s1; cbn [complaints]; apply lookup_insert_eq).
  destruct (handleLocationMessage_cases Helpers.formatPhoneNumber geocodeAddress
              phoneNumber w ticketId now' s1 Hwf1)
    as [[Hempty _] | [(_ & s2 & _ & _ & Hnone)
       | (_ & d & s0 & s2 & Hloc & _ & _ & Hd & Hdp & Hmax & Hcs & t & Hts & Hcid & Htby)]].
  { unfold phoneNumber in Hempty. rewrite formatPhoneNumber_fixed in Hempty.
    apply formatPhoneNumber_empty in Hempty. contradiction. }
  { rewrite (Hnone _ _ Hstored) in Hpending. discriminate. }
  assert (Hsame : d = draft).
  { destruct (decide (complaintId = Complaint.id d)) as [Heq|Hne].
    - rewrite <- Heq in Hd. rewrite Hstored in Hd. injection Hd as <-. reflexivity.
    - exfalso. unfold s1 in Hd. cbn [complaints] in Hd.
      rewrite lookup_insert_ne in Hd by exact Hne.
      pose proof (Holder _ _ Hd Hdp) as Hlt.
      pose proof (Hmax _ _ Hstored Hpending) as Hle. lia. }
  subst d. exists draft, s1, s2, t.
  split; [exact Hrun|]. split; [exact Hphone|]. split; [exact Hloc|].
  split; [rewrite Hcs, Hid; apply lookup_insert_eq|].
  split; [rewrite Hts; apply lookup_insert_eq|].
  split; [rewrite Hcid; exact Hid | rewrite Htby; exact Hphone].
Qed.

End DraftThenLocation.

Lemma wf_ids_empty : wf_ids empty_store.
Proof.
  intros k c H. unfold empty_store in H. cbn [complaints] in H.
  rewrite lookup_empty in H. discriminate.
Qed.

(** The pending lookup never fails and never writes.  It answers with the
    most recent draft of the reporter that awaits a location, and with
    nothing exactly when the reporter has no such draft. *)
Theorem getPendingComplaintForUser_newest (phoneNumber : string) (s : Store) :
  exists r,
    WebhookController.getPendingComplaintForUser phoneNumber s = (Js.Ok r, s) /\
    (r = None <->
     forall k c, complaints s !! k = Some c -> pending_draft phoneNumber c = false) /\
    forall d, r = Some d ->
      (exists k, complaints s !! k = Some d) /\
      pending_draft phoneNumber d = true /\
      forall k c, complaints s !! k = Some c -> pending_draft phoneNumber c = true ->
                  (Complaint.createdAt c <= Complaint.createdAt d)%Z.
Proof.
  destruct (getPendingComplaintForUser_cases phoneNumber s)
    as [[Hrun Hnone] | (k & d & Hrun & Hk & Hp & Hmax)].
  - exists None. split; [exact Hrun|]. split; [tauto|]. discriminate.
  - exists (Some d). split; [exact Hrun|]. split.
    + split; [discriminate|]. intros Hnone. rewrite (Hnone _ _ Hk) in Hp. discriminate.
    + intros d' [= <-]. split; [exists k; exact Hk|]. split; assumption.
Qed.





(** The proviso is needed.  A draft stored under the empty number awaits
    a location, but the sender's location message cannot be saved under
    that number: the handler stops before the confirmation and the
    repository stays as it was. *)
Lemma draft_of_empty_number_not_confirmed :
  exists draft s1,
    FirebaseService.createDraftComplaint Helpers.formatPhoneNumber
      (fun _ => Js.Ok "Water Supply") (fun _ => Js.Ok "high")
      (fun _ => Js.Ok "Water Supply Issues")
      "Pipe leaking at the signal" (Helpers.formatPhoneNumber "") None
      "PCMC-20231114-0A1B2C" 1699990000000 empty_store = (Js.Ok draft, s1) /\
    pending_draft (Helpers.formatPhoneNumber "") draft = true /\
    WebhookController.handleLocationMessage Helpers.formatPhoneNumber
      (fun _ _ => "Location: 18.62, 73.8") (Helpers.formatPhoneNumber "")
      {| wa_latitude := 18.62; wa_longitude := 73.80; wa_address := None |}
      "LOY5K3QZ" 1699990060000 s1 = (Js.Ok None, s1).
Proof.
  eexists. eexists. split; [reflexivity|]. split; reflexivity.
Qed.

(** ** The candidate pool of the duplicate check *)

Lemma StronglySorted_take {A : Type} (R : A -> A -> Prop) (n : nat) (l : list A) :
  StronglySorted R l -> StronglySorted R (take n l).
Proof.
  revert n. induction l as [|a l IH]; intros n Hs.
  - rewrite take_nil. constructor.
  - destruct n as [|n]; [constructor|]. cbn [take].
    apply StronglySorted_inv in Hs. destruct Hs as [Hs Hall].
    constructor; [apply IH; exact Hs|].
    apply Forall_forall. intros x Hx. apply subseteq_take in Hx.
    rewrite Forall_forall in Hall. apply Hall. exact Hx.
Qed.

(** The duplicate check compares a new complaint with the open complaints
    of the last 30 days, newest first and 50 at most: every candidate is a
    stored complaint that is active, in progress or open and at most 30
    days old; an open complaint of the window is left out only when 50
    others, none older than it, are taken. *)
Theorem queryCandidates_window (now : Z) (s : Store) :
  let docs := FirebaseService.queryCandidates now s in
  (length docs <= 50)%nat /\
  (forall d, d ∈ docs ->
     complaints s !! fst d = Some (snd d) /\ open_candidate now (snd d) = true) /\
  StronglySorted
    (fun d d' : string * Complaint.t =>
       (Complaint.createdAt (snd d') <= Complaint.createdAt (snd d))%Z) docs /\
  forall k c,
    complaints s !! k = Some c -> open_candidate now c = true ->
    (k, c) ∈ docs \/
    (length docs = 50%nat /\
     forall d, d ∈ docs -> (Complaint.createdAt c <= Complaint.createdAt (snd d))%Z).
Proof.
  cbv zeta. unfold FirebaseService.queryCandidates.
  change (fun c : Complaint.t =>
            (String.eqb (Complaint.status c) "active"
             || String.eqb (Complaint.status c) "in_progress"
             || String.eqb (Complaint.status c) "open")
            && (now - 30 * 24 * 60 * 60 * 1000 <=? Complaint.createdAt c)%Z)
    with (open_candidate now).
  split; [|split; [|split]].
  - unfold Firestore.query_desc. rewrite length_take. lia.
  - intros d Hd. apply query_desc_elem in Hd. exact Hd.
  - destruct (query_desc_prefix (open_candidate now) Complaint.createdAt 50 (complaints s))
      as (l & -> & Hsorted & _).
    apply StronglySorted_take. exact Hsorted.
  - intros k c Hk Hc. apply query_desc_complete; assumption.
Qed.

(** ** What the duplicate check writes *)

Lemma first_by_id_eqb (complaintId : string) (m : gmap string Ticket.t)
    (k : string) (t : Ticket.t) :
  Firestore.first_by_id (fun t => String.eqb (Ticket.complaintId t) complaintId) m
  = Some (k, t) ->
  m !! k = Some t /\ Ticket.complaintId t = complaintId.
Proof.
  intros H. apply first_by_id_elem in H. destruct H as [H1 H2].
  apply String.eqb_eq in H2. auto.
Qed.

Lemma addUserToComplaintFollowUp_store (formatPhoneNumber : string -> string)
    (complaintId phoneNumber : string) (now : Z) (s : Store) :
  exists s',
    FirebaseService.addUserToComplaintFollowUp formatPhoneNumber
      complaintId phoneNumber now s = (Js.Ok tt, s') /\
    citizens s' = citizens s /\
    ((complaints s !! complaintId = None /\ s' = s) \/
     (exists c,
        complaints s !! complaintId = Some c /\
        complaints s'
        = <[complaintId := complaint_joined (formatPhoneNumber phoneNumber) now c]>
            (complaints s) /\
        (tickets s' = tickets s \/
         exists k t,
           tickets s !! k = Some t /\ Ticket.complaintId t = complaintId /\
           tickets s'
           = <[k := ticket_joined (formatPhoneNumber phoneNumber) now t]> (tickets s)))).
Proof.
  unfold FirebaseService.addUserToComplaintFollowUp, Async.try_catch, Async.bind,
    Async.get_store, Async.ret, Firestore.update_complaint, Firestore.update_ticket.
  destruct (complaints s !! complaintId) as [c|] eqn:Hc; cbn [fst snd].
  2:{ exists s. split; [reflexivity|]. split; [reflexivity|]. left. auto. }
  cbn [tickets complaints].
  destruct (Firestore.first_by_id _ (tickets s)) as [[k t]|] eqn:Hfirst.
  - apply first_by_id_eqb in Hfirst. destruct Hfirst as [Hk Hcid].
    cbn [fst snd tickets complaints]. rewrite Hk. cbn [fst snd].
    eexists. split; [reflexivity|]. cbn [citizens complaints tickets].
    split; [reflexivity|]. right. exists c. split; [reflexivity|].
    split; [reflexivity|]. right. exists k, t. auto.
  - cbn [fst snd]. eexists. split; [reflexivity|]. cbn [citizens complaints tickets].
    split; [reflexivity|]. right. exists c. split; [reflexivity|].
    split; [reflexivity|]. left. reflexivity.
Qed.

(** ** Joining twice *)

(** The order of document ids. *)
Lemma ltb_trans (a b c : string) :
  String.ltb a b = true -> String.ltb b c = true -> String.ltb a c = true.
Proof.
  unfold String.ltb. intros Hab Hbc.
  destruct (String.compare a b) eqn:E1; try discriminate.
  destruct (String.compare b c) eqn:E2; try discriminate.
  apply OrderedTypeEx.String_as_OT.cmp_lt in E1, E2.
  pose proof (OrderedTypeEx.String_as_OT.lt_trans _ _ _ E1 E2) as H.
  apply OrderedTypeEx.String_as_OT.cmp_lt in H.
  unfold OrderedTypeEx.String_as_OT.cmp in H. rewrite H. reflexivity.
Qed.

Lemma ltb_asym (a b : string) : String.ltb a b = true -> String.ltb b a = false.
Proof.
  unfold String.ltb. rewrite (String.compare_antisym b a).
  destruct (String.compare a b); simpl; congruence.
Qed.

Lemma ltb_total (a b : string) : String.ltb a b = false -> a = b \/ String.ltb b a = true.
Proof.
  unfold String.ltb. rewrite (String.compare_antisym b a).
  destruct (String.compare a b) eqn:E; simpl; try discriminate; intros _.
  - left. apply String.compare_eq_iff. exact E.
  - right. reflexivity.
Qed.

(** The fold of [first_by_id] over a list of documents. *)
Lemma first_fold_min {A : Type} (l : list (string * A)) (d : string * A) :
  foldr (fun d acc =>
           match acc with
           | Some d' => if String.ltb (fst d) (fst d') then Some d else Some d'
           | None => Some d
           end) None l = Some d ->
  forall d', In d' l -> fst d' = fst d \/ String.ltb (fst d) (fst d') = true.
Proof.
  revert d. induction l as [|x l IH]; intros d; simpl; [discriminate|].
  destruct (foldr _ None l) as [m|] eqn:E.
  - destruct (String.ltb (fst x) (fst m)) eqn:Hlt; intros [= <-] d' [<-|Hin].
    + left. reflexivity.
    + destruct (IH m eq_refl d' Hin) as [Heq|Hlt'].
      * right. rewrite Heq. exact Hlt.
      * right. exact (ltb_trans _ _ _ Hlt Hlt').
    + destruct (ltb_total _ _ Hlt) as [Heq|Hgt]; [left; exact Heq | right; exact Hgt].
    + exact (IH m eq_refl d' Hin).
  - intros [= <-] d' [<-|Hin]; [left; reflexivity|].
    destruct l as [|y l']; [destruct Hin|]. simpl in E.
    destruct (foldr _ None l'); [destruct (String.ltb _ _)|]; discriminate.
Qed.

Lemma first_fold_some {A : Type} (l : list (string * A)) :
  l <> [] ->
  exists d, foldr (fun d acc =>
                     match acc with
                     | Some d' => if String.ltb (fst d) (fst d') then Some d else Some d'
                     | None => Some d
                     end) None l = Some d.
Proof.
  destruct l as [|x l]; [congruence|]. intros _. simpl.
  destruct (foldr _ None l) as [m|]; [destruct (String.ltb _ _)|]; eexists; reflexivity.
Qed.

Lemma first_by_id_min {A : Type} (p : A -> bool) (m : gmap string A)
    (k : string) (a : A) :
  Firestore.first_by_id p m = Some (k, a) ->
  forall k' a', m !! k' = Some a' -> p a' = true -> k' = k \/ String.ltb k k' = true.
Proof.
  unfold Firestore.first_by_id. intros H k' a' Hk' Hp.
  apply (first_fold_min _ _ H (k', a')).
  apply filter_In. split; [|exact Hp].
  apply list_elem_of_In. apply elem_of_map_to_list. exact Hk'.
Qed.

Lemma first_by_id_some {A : Type} (p : A -> bool) (m : gmap string A)
    (k : string) (a : A) :
  m !! k = Some a -> p a = true -> exists d, Firestore.first_by_id p m = Some d.
Proof.
  intros Hk Hp. unfold Firestore.first_by_id. apply first_fold_some.
  intros Hnil.
  assert (Hin : In (k, a) (List.filter (fun d => p (snd d)) (map_to_list m))).
  { apply filter_In. split; [|exact Hp].
    apply list_elem_of_In. apply elem_of_map_to_list. exact Hk. }
  rewrite Hnil in Hin. destruct Hin.
Qed.

(** Rewriting the first document in place leaves it the first. *)
Lemma first_by_id_insert {A : Type} (p : A -> bool) (m : gmap string A)
    (k : string) (a a' : A) :
  Firestore.first_by_id p m = Some (k, a) -> p a' = true ->
  Firestore.first_by_id p (<[k := a']> m) = Some (k, a').
Proof.
  intros Hfirst Hp'.
  destruct (first_by_id_some p (<[k := a']> m) k a' (lookup_insert_eq _ _ _) Hp')
    as ([k2 a2] & H2).
  rewrite H2. pose proof (first_by_id_elem _ _ _ _ H2) as [Hk2 Hp2].
  destruct (first_by_id_min _ _ _ _ H2 k a' (lookup_insert_eq _ _ _) Hp') as [Heq|Hlt].
  - subst k2. rewrite lookup_insert_eq in Hk2. congruence.
  - assert (Hne : k <> k2).
    { intros ->. pose proof (ltb_asym _ _ Hlt). congruence. }
    rewrite lookup_insert_ne in Hk2 by exact Hne.
    destruct (first_by_id_min _ _ _ _ Hfirst k2 a2 Hk2 Hp2) as [Heq|Hlt'].
    + congruence.
    + pose proof (ltb_asym _ _ Hlt). congruence.
Qed.

Section JoinTwice.
Variable formatPhoneNumber : string -> string.

(** The store a join leaves. *)
Lemma addUserToComplaintFollowUp_exec (complaintId phoneNumber : string) (now : Z)
    (s : Store) :
  exec (FirebaseService.addUserToComplaintFollowUp formatPhoneNumber
          complaintId phoneNumber now) s
  = match complaints s !! complaintId with
    | None => s
    | Some c =>
        {| complaints :=
             <[complaintId := complaint_joined (formatPhoneNumber phoneNumber) now c]>
               (complaints s);
           tickets :=
             match Firestore.first_by_id
                     (fun t => String.eqb (Ticket.complaintId t) complaintId) (tickets s) with
             | Some d =>
                 <[fst d := ticket_joined (formatPhoneNumber phoneNumber) now (snd d)]>
                   (tickets s)
             | None => tickets s
             end;
           citizens := citizens s;
           chats := chats s |}
    end.
Proof.
  unfold exec, FirebaseService.addUserToComplaintFollowUp, Async.try_catch, Async.bind,
    Async.get_store, Async.ret, Firestore.update_complaint, Firestore.update_ticket.
  destruct (complaints s !! complaintId) as [c|] eqn:Hc; cbn [fst snd]; [|reflexivity].
  cbn [tickets complaints].
  destruct (Firestore.first_by_id _ (tickets s)) as [[k t]|] eqn:Hfirst.
  - pose proof (first_by_id_eqb _ _ _ _ Hfirst) as [Hk _].
    cbn [fst snd tickets complaints]. rewrite Hk. reflexivity.
  - reflexivity.
Qed.

Lemma complaint_joined_twice (phone : string) (now now' : Z) (c : Complaint.t) :
  complaint_joined phone now' (complaint_joined phone now c)
  = complaint_joined phone now' c.
Proof.
  unfold complaint_joined. cbn -[Firestore.arrayUnion].
  rewrite arrayUnion_idempotent. reflexivity.
Qed.

Lemma ticket_joined_twice (phone : string) (now now' : Z) (t : Ticket.t) :
  ticket_joined phone now' (ticket_joined phone now t) = ticket_joined phone now' t.
Proof.
  unfold ticket_joined. cbn -[Firestore.arrayUnion].
  rewrite arrayUnion_idempotent. reflexivity.
Qed.

(** A second join of the same reporter to the same complaint writes what
    the first alone would have written at that time. *)
Lemma join_twice (complaintId phoneNumber : string) (now now' : Z) (s : Store) :
  exec (FirebaseService.addUserToComplaintFollowUp formatPhoneNumber
          complaintId phoneNumber now')
    (exec (FirebaseService.addUserToComplaintFollowUp formatPhoneNumber
             complaintId phoneNumber now) s)
  = exec (FirebaseService.addUserToComplaintFollowUp formatPhoneNumber
            complaintId phoneNumber now') s.
Proof.
  rewrite !addUserToComplaintFollowUp_exec.
  destruct (complaints s !! complaintId) as [c|] eqn:Hc.
  2:{ rewrite Hc. reflexivity. }
  cbn [complaints tickets citizens chats]. rewrite lookup_insert_eq.
  rewrite complaint_joined_twice, insert_insert_eq.
  destruct (Firestore.first_by_id _ (tickets s)) as [[k t]|] eqn:Hfirst.
  - cbn [fst snd].
    rewrite (first_by_id_insert _ _ _ _
               (ticket_joined (formatPhoneNumber phoneNumber) now t) Hfirst).
    2:{ apply first_by_id_eqb in Hfirst. destruct Hfirst as [_ Hid].
        cbn. rewrite Hid. apply String.eqb_refl. }
    cbn [fst snd]. rewrite ticket_joined_twice, insert_insert_eq. reflexivity.
  - rewrite Hfirst. reflexivity.
Qed.

End JoinTwice.

Section JoinAppends.
Variable formatPhoneNumber : string -> string.
Variable categorizeDepartment : string -> Js.exn string.
Variable assessComplaintPriority : string -> Js.exn string.
Variable categorizeComplaintType : string -> Js.exn string.
Variable geocodeAddress : Q -> Q -> string.

(** A join appends.  On the complaint joined the reporter becomes a
    follower; on every complaint and on every ticket the creator, the
    department, priority, category and status, and the followers already
    there are kept; no document is created or removed.  A second join of
    the same reporter to the same complaint leaves what that join alone
    would have left, and changes no list of followers: joining twice is
    joining once. *)
Theorem join_appends_only (complaintId phoneNumber : string) (now now' : Z) (s : Store) :
  let join :=
    call formatPhoneNumber categorizeDepartment assessComplaintPriority
      categorizeComplaintType geocodeAddress (Join complaintId phoneNumber now) in
  let again :=
    call formatPhoneNumber categorizeDepartment assessComplaintPriority
      categorizeComplaintType geocodeAddress (Join complaintId phoneNumber now') in
  (forall k c, complaints s !! k = Some c ->
     exists c', complaints (join s) !! k = Some c' /\
                Complaint.createdBy c' = Complaint.createdBy c /\
                Complaint.department c' = Complaint.department c /\
                Complaint.priority c' = Complaint.priority c /\
                Complaint.category c' = Complaint.category c /\
                Complaint.status c' = Complaint.status c /\
                (forall x, x ∈ complaint_followers c -> x ∈ complaint_followers c') /\
                (k = complaintId -> formatPhoneNumber phoneNumber ∈ complaint_followers c')) /\
  (forall k t, tickets s !! k = Some t ->
     exists t', tickets (join s) !! k = Some t' /\
                Ticket.createdBy t' = Ticket.createdBy t /\
                Ticket.complaintId t' = Ticket.complaintId t /\
                Ticket.department t' = Ticket.department t /\
                Ticket.priority t' = Ticket.priority t /\
                Ticket.category t' = Ticket.category t /\
                Ticket.status t' = Ticket.status t /\
                (forall x, x ∈ Ticket.followUpUsers t -> x ∈ Ticket.followUpUsers t')) /\
  (forall k, complaints s !! k = None -> complaints (join s) !! k = None) /\
  (forall k, tickets s !! k = None -> tickets (join s) !! k = None) /\
  again (join s) = again s /\
  (forall k, complaint_followers <$> complaints (again (join s)) !! k
             = complaint_followers <$> complaints (join s) !! k) /\
  (forall k, Ticket.followUpUsers <$> tickets (again (join s)) !! k
             = Ticket.followUpUsers <$> tickets (join s) !! k).
Proof.
  cbv zeta. unfold call.
  rewrite join_twice.
  rewrite !addUserToComplaintFollowUp_exec.
  destruct (complaints s !! complaintId) as [c0|] eqn:Hc0.
  2:{ split; [|split; [|split; [|split; [|split; [|split]]]]]; try reflexivity;
        try (intros; assumption).
      - intros k c Hk. exists c. repeat split; auto. intros ->. congruence.
      - intros k t Hk. exists t. repeat split; auto. }
  cbn [complaints tickets citizens chats].
  split; [|split; [|split; [|split; [|split; [|split]]]]].
  - intros k c Hk. destruct (decide (complaintId = k)) as [->|Hne].
    + rewrite lookup_insert_eq. rewrite Hk in Hc0. injection Hc0 as ->.
      eexists. split; [reflexivity|]. unfold complaint_followers.
      cbn -[Firestore.arrayUnion].
      repeat split; [apply arrayUnion_keeps | intros _; apply arrayUnion_adds].
    + rewrite lookup_insert_ne by exact Hne. exists c. repeat split; auto.
      intros Heq. congruence.
  - intros k t Hk.
    destruct (Firestore.first_by_id _ (tickets s)) as [[kt t0]|] eqn:Hfirst;
      [|exists t; repeat split; auto].
    pose proof (first_by_id_eqb _ _ _ _ Hfirst) as [Hkt _]. cbn [fst snd].
    destruct (decide (kt = k)) as [->|Hne].
    + rewrite lookup_insert_eq. rewrite Hk in Hkt. injection Hkt as ->.
      eexists. split; [reflexivity|]. cbn -[Firestore.arrayUnion].
      repeat split. intros x Hx. apply (arrayUnion_keeps (Some _)). exact Hx.
    + rewrite lookup_insert_ne by exact Hne. exists t. repeat split; auto.
  - intros k Hk. rewrite lookup_insert_ne; [exact Hk|]. congruence.
  - intros k Hk.
    destruct (Firestore.first_by_id _ (tickets s)) as [[kt t0]|] eqn:Hfirst; [|exact Hk].
    pose proof (first_by_id_eqb _ _ _ _ Hfirst) as [Hkt _]. cbn [fst snd].
    rewrite lookup_insert_ne; [exact Hk|]. congruence.
  - reflexivity.
  - intros k. destruct (decide (complaintId = k)) as [->|Hne].
    + rewrite !lookup_insert_eq. reflexivity.
    + rewrite !lookup_insert_ne by exact Hne. reflexivity.
  - intros k.
    destruct (Firestore.first_by_id _ (tickets s)) as [[kt t0]|] eqn:Hfirst; [|reflexivity].
    cbn [fst snd]. destruct (decide (kt = k)) as [->|Hne].
    + rewrite !lookup_insert_eq. reflexivity.
    + rewrite !lookup_insert_ne by exact Hne. reflexivity.
Qed.
End JoinAppends.

Section DuplicateEffect.
Variable categorizeDepartment : string -> Js.exn string.
Variable compareText : string -> string -> Js.exn TextReply.
Variable compareImages : string -> string -> Js.exn ImageReply.
Variable compareTypes : string -> string -> Js.exn TypeReply.
Variable haversine : Q -> Q -> Q -> Q -> Q.
Variable calculateAddressSimilarity : string -> string -> Q.

Lemma scanned_not_own (complaintText formattedPhone : string)
    (location : option Location) (c : Complaint.t) :
  scanned categorizeDepartment haversine complaintText formattedPhone location c = true ->
  Complaint.createdBy c <> formattedPhone.
Proof.
  unfold scanned. intros H. apply andb_prop in H. destruct H as [H _].
  apply negb_true_iff in H. apply String.eqb_neq in H. exact H.
Qed.


End DuplicateEffect.

(** ** The shapes of stored complaints and tickets *)

Lemma confirmComplaint_ticket (formatPhoneNumber : string -> string)
    (geocodeAddress : Q -> Q -> string) (complaintId : string) (w : WhatsappLocation)
    (ticketId : string) (now : Z) (s : Store) (c : Complaint.t) :
  complaints s !! complaintId = Some c ->
  exists s' t,
    FirebaseService.confirmComplaint formatPhoneNumber geocodeAddress
      complaintId w ticketId now s = (Js.Ok ticketId, s') /\
    complaints s' =
      <[complaintId :=
          FirebaseService.confirmUpdate ticketId (locationData_of geocodeAddress w) now c]>
        (complaints s) /\
    tickets s' = <[ticketId := t]> (tickets s) /\
    Ticket.ticketId t = ticketId /\
    Ticket.complaintId t = complaintId /\
    Ticket.status t = "open" /\
    Ticket.completionPercentage (Ticket.workflow t) = 70%Z.
Proof.
  intros H.
  unfold FirebaseService.confirmComplaint, FirebaseService.createTicketRecord,
    FirebaseService.updateCitizenComplaintCount, Async.try_catch, Async.bind,
    Async.get_store, Async.ret, Firestore.update_complaint, Firestore.set_ticket,
    Firestore.update_citizen.
  simpl. rewrite H. simpl. rewrite H. simpl.
  destruct (citizens s !! formatPhoneNumber (Complaint.createdBy c)) eqn:E;
    simpl; eexists; eexists; (split; [reflexivity|]); simpl; repeat split.
Qed.

Lemma is_Some_insert {A : Type} (m : gmap string A) (k k' : string) (a : A) :
  is_Some (m !! k') -> is_Some (<[k := a]> m !! k').
Proof.
  intros H. destruct (decide (k = k')) as [->|Hne].
  - rewrite lookup_insert_eq. eauto.
  - rewrite lookup_insert_ne by exact Hne. exact H.
Qed.

(** An update of one complaint that keeps its id and its ticket id, and of
    the tickets that keeps their keys and fields. *)
Lemma lifecycle_invariant_update (s s' : Store) (k : string) (c c' : Complaint.t) :
  lifecycle_invariant s ->
  complaints s !! k = Some c ->
  complaints s' = <[k := c']> (complaints s) ->
  Complaint.id c' = Complaint.id c ->
  lifecycle_shape c' ->
  (forall ticketId, Complaint.ticketId c' = Some ticketId ->
                    is_Some (tickets s' !! ticketId)) ->
  (forall x, is_Some (tickets s !! x) -> is_Some (tickets s' !! x)) ->
  (forall x t', tickets s' !! x = Some t' ->
     Ticket.ticketId t' = x /\ Ticket.status t' = "open" /\
     Ticket.completionPercentage (Ticket.workflow t') = 70%Z /\
     (is_Some (complaints s !! Ticket.complaintId t') \/ Ticket.complaintId t' = k)) ->
  lifecycle_invariant s'.
Proof.
  intros [Hc Ht] Hk Hcs Hid Hshape Hticket Hkeep Htickets. split.
  - intros k0 c0. rewrite Hcs. destruct (decide (k = k0)) as [<-|Hne].
    + rewrite lookup_insert_eq. intros [= <-].
      split; [rewrite Hid; apply (Hc _ _ Hk)|]. split; [exact Hshape | exact Hticket].
    + rewrite lookup_insert_ne by exact Hne. intros H0.
      destruct (Hc _ _ H0) as (H1 & H2 & H3). split; [exact H1|]. split; [exact H2|].
      intros tid Htid. apply Hkeep. exact (H3 tid Htid).
  - intros x t' Hx. destruct (Htickets x t' Hx) as (H1 & H2 & H3 & H4).
    split; [exact H1|]. split; [exact H2|]. split; [exact H3|].
    rewrite Hcs. destruct H4 as [H4 | ->].
    + apply is_Some_insert. exact H4.
    + rewrite lookup_insert_eq. eauto.
Qed.

Section LifecycleShape.
Variable formatPhoneNumber : string -> string.
Variable categorizeDepartment : string -> Js.exn string.
Variable assessComplaintPriority : string -> Js.exn string.
Variable categorizeComplaintType : string -> Js.exn string.
Variable geocodeAddress : Q -> Q -> string.

Local Abbreviation call :=
  (call formatPhoneNumber categorizeDepartment assessComplaintPriority
     categorizeComplaintType geocodeAddress) (only parsing).

Lemma call_keeps_lifecycle_invariant (c : ServiceCall) (s : Store) :
  lifecycle_invariant s -> lifecycle_invariant (call c s).
Proof.
  intros Hinv. pose proof Hinv as [Hc Ht].
  destruct c as [description phone img id now | id w tid now | id now | id phone now].
  - unfold call, exec.
    destruct (createDraftComplaint_draft formatPhoneNumber categorizeDepartment
                assessComplaintPriority categorizeComplaintType
                description phone img id now s)
      as (c & Hrun & Hid & _ & Hstatus & _ & Hreq & Hloc & Htid & Hconf & Hcan & _ & Hwf).
    rewrite Hrun. cbn [snd]. split; cbn [complaints tickets].
    + intros k0 c0. destruct (decide (id = k0)) as [<-|Hne].
      * rewrite lookup_insert_eq. intros [= <-]. split; [exact Hid|]. split.
        -- left. rewrite Hwf. cbn. auto 10.
        -- intros x Hx. congruence.
      * rewrite lookup_insert_ne by exact Hne. apply Hc.
    + intros x t Hx. destruct (Ht x t Hx) as (H1 & H2 & H3 & H4).
      repeat (split; [assumption|]). apply is_Some_insert. exact H4.
  - unfold call, exec. destruct (complaints s !! id) as [c|] eqn:Hk.
    + destruct (confirmComplaint_ticket formatPhoneNumber geocodeAddress id w tid now s c Hk)
        as (s' & t & Hrun & Hcs & Hts & Htid & Hcid & Hst & Hpct).
      rewrite Hrun. cbn [snd].
      apply (lifecycle_invariant_update s s' id c _ Hinv Hk Hcs); [reflexivity | | | |].
      * right. left. cbn. repeat split; eauto.
      * cbn. intros x [= <-]. rewrite Hts, lookup_insert_eq. eauto.
      * intros x Hx. rewrite Hts. apply is_Some_insert. exact Hx.
      * intros x t' Hx. rewrite Hts in Hx.
        destruct (decide (tid = x)) as [<-|Hne].
        -- rewrite lookup_insert_eq in Hx. injection Hx as <-. auto.
        -- rewrite lookup_insert_ne in Hx by exact Hne.
           destruct (Ht x t' Hx) as (H1 & H2 & H3 & H4). auto.
    + rewrite (confirmComplaint_unknown _ _ _ _ _ _ _ Hk). exact Hinv.
  - unfold call, exec. destruct (complaints s !! id) as [c|] eqn:Hk.
    + rewrite (cancelComplaint_known _ _ _ _ Hk). cbn [snd].
      destruct (Hc _ _ Hk) as (_ & _ & Hticket).
      eapply (lifecycle_invariant_update s _ id c (FirebaseService.cancelUpdate now c) Hinv Hk);
        [reflexivity | reflexivity | | | |]; cbn [tickets].
      * right. right. cbn. repeat split; eauto.
      * exact Hticket.
      * auto.
      * intros x t' Hx. destruct (Ht x t' Hx) as (H1 & H2 & H3 & H4). auto.
    + rewrite (cancelComplaint_unknown _ _ _ Hk). exact Hinv.
  - unfold call, exec.
    destruct (addUserToComplaintFollowUp_store formatPhoneNumber id phone now s)
      as (s' & Hrun & _ & Hcases).
    rewrite Hrun. cbn [snd].
    destruct Hcases as [[_ ->] | (c & Hk & Hcs & Hts)]; [exact Hinv|].
    destruct (Hc _ _ Hk) as (_ & Hshape & Hticket).
    apply (lifecycle_invariant_update s s' id c _ Hinv Hk Hcs); [reflexivity | exact Hshape | | |].
    + cbn [complaint_joined Complaint.ticketId]. intros x Hx.
      destruct Hts as [-> | (kt & t & Hkt & _ & ->)]; [exact (Hticket x Hx)|].
      apply is_Some_insert. exact (Hticket x Hx).
    + intros x Hx. destruct Hts as [-> | (kt & t & Hkt & _ & ->)]; [exact Hx|].
      apply is_Some_insert. exact Hx.
    + intros x t' Hx. destruct Hts as [Heq | (kt & t & Hkt & _ & Heq)]; rewrite Heq in Hx.
      * destruct (Ht x t' Hx) as (H1 & H2 & H3 & H4). auto.
      * destruct (decide (kt = x)) as [<-|Hne].
        -- rewrite lookup_insert_eq in Hx. injection Hx as <-.
           destruct (Ht kt t Hkt) as (H1 & H2 & H3 & H4). cbn. auto.
        -- rewrite lookup_insert_ne in Hx by exact Hne.
           destruct (Ht x t' Hx) as (H1 & H2 & H3 & H4). auto.
Qed.

(** From an empty repository on, after any sequence of draft creations,
    confirmations, cancellations and joins: every complaint is a draft at
    30 without ticket or location, or active at 60 with a ticket id, a
    location and a confirmation date, or cancelled at 0 with a cancellation
    date; its ticket id names a stored ticket; every ticket is open, at 70,
    stored under its own id and belongs to a stored complaint.  No
    complaint is ever "in_progress" or "open": the candidates of the
    duplicate check are active complaints. *)
Theorem service_keeps_lifecycle (calls : list ServiceCall) :
  let s := fold_left (fun s c => call c s) calls empty_store in
  lifecycle_invariant s /\
  forall now k c, complaints s !! k = Some c -> open_candidate now c = true ->
                  Complaint.status c = "active".
Proof.
  cbv zeta.
  assert (Hgen : forall s, lifecycle_invariant s ->
                           lifecycle_invariant (fold_left (fun s c => call c s) calls s)).
  { induction calls as [|c calls IH]; intros s Hs; simpl; [exact Hs|].
    apply IH. apply call_keeps_lifecycle_invariant. exact Hs. }
  assert (Hinv : lifecycle_invariant (fold_left (fun s c => call c s) calls empty_store)).
  { apply Hgen. split; intros k x H; unfold empty_store in H; cbn in H;
      rewrite lookup_empty in H; discriminate. }
  split; [exact Hinv|].
  intros now k c Hk Hopen. destruct Hinv as [Hc _].
  destruct (Hc k c Hk) as (_ & Hshape & _).
  unfold open_candidate in Hopen. apply andb_prop in Hopen. destruct Hopen as [Hopen _].
  destruct Hshape as [(Hs & _) | [(Hs & _) | (Hs & _)]]; [|exact Hs|];
    rewrite Hs in Hopen; discriminate.
Qed.

End LifecycleShape.

(** ** Reporters' profiles *)

Section Profiles.
Variable formatPhoneNumber : string -> string.
Variable Math_sqrt : Q -> Q.
Variable categorizeDepartment : string -> Js.exn string.
Variable assessComplaintPriority : string -> Js.exn string.
Variable categorizeComplaintType : string -> Js.exn string.
Variable geocodeAddress : Q -> Q -> string.

Local Abbreviation call :=
  (call formatPhoneNumber categorizeDepartment assessComplaintPriority
     categorizeComplaintType geocodeAddress) (only parsing).
Local Abbreviation profile_call :=
  (profile_call formatPhoneNumber Math_sqrt categorizeDepartment assessComplaintPriority
     categorizeComplaintType geocodeAddress) (only parsing).
Local Abbreviation ensured := (ensured formatPhoneNumber) (only parsing).

Lemma service_call_citizens (c : ServiceCall) (s : Store) (phone : string) :
  match citizens s !! phone with
  | Some x =>
      exists x', citizens (call c s) !! phone = Some x' /\
                 Citizen.ethicalScore x' = Citizen.ethicalScore x /\
                 Citizen.avgEthicalScore x' = Citizen.avgEthicalScore x /\
                 Citizen.totalMessages x' = Citizen.totalMessages x /\
                 (Citizen.complaintsCount x <= Citizen.complaintsCount x')%Z
  | None => citizens (call c s) !! phone = None
  end.
Proof.
  assert (Hsame : forall s', citizens s' = citizens s ->
            match citizens s !! phone with
            | Some x =>
                exists x', citizens s' !! phone = Some x' /\
                           Citizen.ethicalScore x' = Citizen.ethicalScore x /\
                           Citizen.avgEthicalScore x' = Citizen.avgEthicalScore x /\
                           Citizen.totalMessages x' = Citizen.totalMessages x /\
                           (Citizen.complaintsCount x <= Citizen.complaintsCount x')%Z
            | None => citizens s' !! phone = None
            end).
  { intros s' ->. destruct (citizens s !! phone) as [x|]; [|reflexivity].
    exists x. repeat split; lia. }
  destruct c as [description p img id now | id w tid now | id now | id p now].
  - apply Hsame. unfold call.
    destruct (createDraftComplaint_stored formatPhoneNumber categorizeDepartment
                assessComplaintPriority categorizeComplaintType
                description p img id now s) as (c & Hrun & _).
    unfold exec. rewrite Hrun. reflexivity.
  - unfold call. unfold exec.
    destruct (complaints s !! id) as [c|] eqn:Hk.
    2:{ rewrite (confirmComplaint_unknown _ _ _ _ _ _ _ Hk). apply Hsame. reflexivity. }
    unfold FirebaseService.confirmComplaint, FirebaseService.createTicketRecord,
      FirebaseService.updateCitizenComplaintCount, Async.try_catch, Async.bind,
      Async.get_store, Async.ret, Firestore.update_complaint, Firestore.set_ticket,
      Firestore.update_citizen.
    simpl. rewrite Hk. simpl. rewrite Hk. simpl.
    destruct (citizens s !! formatPhoneNumber (Complaint.createdBy c)) as [y|] eqn:Hy;
      simpl.
    + destruct (decide (formatPhoneNumber (Complaint.createdBy c) = phone)) as [<-|Hne].
      * rewrite Hy, lookup_insert_eq. eexists. split; [reflexivity|]. cbn.
        repeat split. lia.
      * rewrite lookup_insert_ne by exact Hne.
        destruct (citizens s !! phone) as [x|]; [|reflexivity].
        exists x. repeat split; lia.
    + destruct (citizens s !! phone) as [x|]; [|reflexivity].
      exists x. repeat split; lia.
  - apply Hsame. unfold call. unfold exec.
    destruct (complaints s !! id) as [c|] eqn:Hk.
    + rewrite (cancelComplaint_known _ _ _ _ Hk). reflexivity.
    + rewrite (cancelComplaint_unknown _ _ _ Hk). reflexivity.
  - apply Hsame. unfold call. unfold exec.
    destruct (addUserToComplaintFollowUp_store formatPhoneNumber id p now s)
      as (s' & Hrun & Hcit & _).
    rewrite Hrun. exact Hcit.
Qed.

(** A saved message keeps every profile, its score and its message count;
    a complaint count may rise. *)
Lemma saveChatMessage_citizens (phoneNumber : string) (messageData : MessageData.t)
    (now : Z) (s : Store) (phone : string) :
  match citizens s !! phone with
  | Some x =>
      exists x',
        citizens (exec (FirebaseService.saveChatMessage formatPhoneNumber
                          phoneNumber messageData now) s) !! phone = Some x' /\
        Citizen.ethicalScore x' = Citizen.ethicalScore x /\
        Citizen.avgEthicalScore x' = Citizen.avgEthicalScore x /\
        Citizen.totalMessages x' = Citizen.totalMessages x /\
        (Citizen.complaintsCount x <= Citizen.complaintsCount x')%Z
  | None =>
      citizens (exec (FirebaseService.saveChatMessage formatPhoneNumber
                        phoneNumber messageData now) s) !! phone = None
  end.
Proof.
  assert (Hsame : match citizens s !! phone with
                  | Some x =>
                      exists x', citizens s !! phone = Some x' /\
                                 Citizen.ethicalScore x' = Citizen.ethicalScore x /\
                                 Citizen.avgEthicalScore x' = Citizen.avgEthicalScore x /\
                                 Citizen.totalMessages x' = Citizen.totalMessages x /\
                                 (Citizen.complaintsCount x <= Citizen.complaintsCount x')%Z
                  | None => citizens s !! phone = None
                  end).
  { destruct (citizens s !! phone) as [x|]; [|reflexivity].
    exists x. repeat split; lia. }
  unfold exec, FirebaseService.saveChatMessage, FirebaseService.updateCitizenStats,
    Firestore.doc, Firestore.add_chat, Firestore.update_citizen,
    Async.try_catch, Async.bind, Async.ret, Async.throw.
  destruct (String.eqb (formatPhoneNumber phoneNumber) ""); cbn [fst snd]; [exact Hsame|].
  cbn [citizens complaints tickets chats].
  destruct (String.eqb (formatPhoneNumber (formatPhoneNumber phoneNumber)) "");
    cbn [fst snd citizens]; [exact Hsame|].
  destruct (citizens s !! formatPhoneNumber (formatPhoneNumber phoneNumber))
    as [y|] eqn:Hy; cbn [fst snd citizens]; [|exact Hsame].
  destruct (decide (formatPhoneNumber (formatPhoneNumber phoneNumber) = phone))
    as [<-|Hne].
  - rewrite Hy, lookup_insert_eq. eexists. split; [reflexivity|].
    cbn [Citizen.ethicalScore Citizen.avgEthicalScore Citizen.totalMessages
         Citizen.complaintsCount].
    repeat split.
    destruct (MessageData.intent messageData) as [intent|]; [|lia].
    destruct (String.eqb intent "complaint"); lia.
  - rewrite lookup_insert_ne by exact Hne. exact Hsame.
Qed.

Lemma ensured_snoc (phone : string) (calls : list ProfileCall) (c : ProfileCall) :
  ensured phone (calls ++ [c])
  = (ensured phone calls
     + match c with
       | Ensure phoneNumber _ =>
           if String.eqb (formatPhoneNumber phoneNumber) phone then 1 else 0
       | _ => 0
       end)%Z.
Proof.
  unfold ensured. rewrite List.filter_app, length_app. cbn [List.filter].
  destruct c as [p now | p score now | p messageData now | c]; cbn [length]; try lia.
  destruct (String.eqb (formatPhoneNumber p) phone); cbn [length]; lia.
Qed.

Lemma profile_call_state (c : ProfileCall) (calls : list ProfileCall) (s : Store) :
  (forall phone, profile_state s phone (ensured phone calls)) ->
  forall phone, profile_state (profile_call c s) phone (ensured phone (calls ++ [c])).
Proof.
  intros Hinv phone. rewrite ensured_snoc. specialize (Hinv phone) as Hphone.
  unfold profile_state in *.
  destruct c as [p now | p score now | p messageData now | c].
  - unfold profile_call, exec, FirebaseService.ensureCitizenExists, Firestore.doc,
      Firestore.set_citizen, Firestore.update_citizen, Async.try_catch,
      Async.bind, Async.get_store, Async.ret, Async.throw.
    destruct (String.eqb_spec (formatPhoneNumber p) "") as [Hempty|Hfull]; cbn [fst snd].
    { rewrite Hempty.
      destruct (String.eqb_spec "" phone) as [<-|Hne]; cbv iota.
      - destruct (citizens s !! "") as [x|]; [destruct Hphone as [Hphone _]; congruence|].
        left. reflexivity.
      - rewrite Z.add_0_r. exact Hphone. }
    destruct (citizens s !! formatPhoneNumber p) as [y|] eqn:Hy; cbn [fst snd citizens].
    + rewrite Hy. cbn [fst snd citizens].
      destruct (String.eqb_spec (formatPhoneNumber p) phone) as [<-|Hne]; cbv iota.
      * rewrite lookup_insert_eq. rewrite Hy in Hphone.
        destruct Hphone as (_ & Hshape & Htotal & Hn).
        split; [exact Hfull|]. split; [exact Hshape|].
        cbn [Citizen.totalMessages]. rewrite Htotal.
        unfold Firestore.increment. cbn [default from_option]. unfold id.
        split; [f_equal; lia | lia].
      * rewrite lookup_insert_ne by exact Hne. rewrite Z.add_0_r. exact Hphone.
    + destruct (String.eqb_spec (formatPhoneNumber p) phone) as [<-|Hne]; cbv iota.
      * rewrite lookup_insert_eq. rewrite Hy in Hphone.
        destruct Hphone as [Hphone | Hphone]; [congruence|]. rewrite Hphone.
        split; [exact Hfull|]. split; [|split; [reflexivity | lia]].
        split; [exists 7.5; split; [reflexivity | lra]|]. split; [reflexivity | cbn; lia].
      * rewrite lookup_insert_ne by exact Hne. rewrite Z.add_0_r. exact Hphone.
  - rewrite Z.add_0_r.
    unfold profile_call, exec, FirebaseService.updateCitizenEthicalScore,
      Async.try_catch, Async.bind, Async.get_store, Async.ret, Firestore.update_citizen.
    cbn [fst snd].
    destruct (citizens s !! formatPhoneNumber p) as [y|] eqn:Hy; cbn [fst snd citizens];
      [|exact Hphone].
    rewrite Hy. cbn [fst snd citizens].
    destruct (String.eqb_spec (formatPhoneNumber p) phone) as [<-|Hne].
    + rewrite lookup_insert_eq. rewrite Hy in Hphone.
      destruct Hphone as (Hfull & (_ & _ & Hcount) & Htotal & Hn).
      split; [exact Hfull|]. split; [|split; [exact Htotal | exact Hn]].
      split; [|split; [reflexivity | exact Hcount]].
      eexists. split; [reflexivity|]. apply clamp_1_10.
    + rewrite lookup_insert_ne by exact Hne. exact Hphone.
  - rewrite Z.add_0_r. unfold profile_call.
    pose proof (saveChatMessage_citizens p messageData now s phone) as Hcall.
    destruct (citizens s !! phone) as [x|].
    + destruct Hcall as (x' & -> & He & Ha & Ht & Hc).
      destruct Hphone as (Hfull & ((q & Hq & Hrange) & Havg & Hcount) & Htotal & Hn).
      split; [exact Hfull|]. split; [|split; [congruence | exact Hn]].
      split; [exists q; split; [congruence | exact Hrange]|].
      split; [congruence | lia].
    + rewrite Hcall. exact Hphone.
  - rewrite Z.add_0_r. unfold profile_call.
    pose proof (service_call_citizens c s phone) as Hcall.
    destruct (citizens s !! phone) as [x|].
    + destruct Hcall as (x' & -> & He & Ha & Ht & Hc).
      destruct Hphone as (Hfull & ((q & Hq & Hrange) & Havg & Hcount) & Htotal & Hn).
      split; [exact Hfull|]. split; [|split; [congruence | exact Hn]].
      split; [exists q; split; [congruence | exact Hrange]|].
      split; [congruence | lia].
    + rewrite Hcall. exact Hphone.
Qed.


End Profiles.

(** ** The status list of a reporter *)

Lemma query_by_elem {A : Type} (p : A -> bool) (le : A -> A -> bool) (n : nat)
    (m : gmap string A) (d : string * A) :
  d ∈ Firestore.query_by p le n m -> m !! fst d = Some (snd d) /\ p (snd d) = true.
Proof.
  unfold Firestore.query_by. intros H.
  apply subseteq_take in H.
  rewrite merge_sort_Permutation in H.
  apply list_elem_of_In in H. apply filter_In in H. destruct H as [H Hp].
  split; [|exact Hp].
  apply list_elem_of_In in H. apply elem_of_map_to_list' in H. exact H.
Qed.

Lemma query_by_complete {A : Type} (p : A -> bool) (le : A -> A -> bool) (n : nat)
    (m : gmap string A) (k : string) (a : A) :
  m !! k = Some a -> p a = true ->
  (k, a) ∈ Firestore.query_by p le n m \/ length (Firestore.query_by p le n m) = n.
Proof.
  intros Hk Hp. unfold Firestore.query_by.
  match goal with |- context [take n ?l] => set (sorted := l) end.
  assert (Hin : (k, a) ∈ sorted).
  { unfold sorted. rewrite merge_sort_Permutation. apply list_elem_of_In, filter_In.
    split; [|exact Hp]. apply list_elem_of_In, elem_of_map_to_list. exact Hk. }
  rewrite <- (take_drop n sorted) in Hin. apply elem_of_app in Hin.
  destruct Hin as [Hin|Hin]; [left; exact Hin|]. right.
  apply length_take_le. destruct (le_lt_dec n (length sorted)) as [H|H]; [exact H|].
  rewrite drop_ge in Hin by lia. apply elem_of_nil in Hin. contradiction.
Qed.

(** The status list of a reporter never fails and never writes.  It holds
    25 entries at most, each made from a stored complaint of the reporter,
    under the formatted number, that is not cancelled; a complaint without
    a ticket is listed as "Pending"; a complaint of the reporter that is
    not cancelled is missing only from a full list. *)
Theorem getUserComplaintStatus_own_open (formatPhoneNumber : string -> string)
    (phoneNumber : string) (s : Store) :
  exists entries,
    FirebaseService.getUserComplaintStatus formatPhoneNumber phoneNumber s
    = (Js.Ok entries, s) /\
    (length entries <= 25)%nat /\
    (forall e, e ∈ entries ->
       exists k c,
         complaints s !! k = Some c /\
         e = FirebaseService.complaintSummary c /\
         Complaint.createdBy c = formatPhoneNumber phoneNumber /\
         Complaint.status c <> "cancelled" /\
         ComplaintSummary.status e <> "cancelled" /\
         (Complaint.ticketId c = None -> ComplaintSummary.ticketId e = "Pending")) /\
    forall k c,
      complaints s !! k = Some c ->
      Complaint.createdBy c = formatPhoneNumber phoneNumber ->
      Complaint.status c <> "cancelled" ->
      FirebaseService.complaintSummary c ∈ entries \/ length entries = 25%nat.
Proof.
  unfold FirebaseService.getUserComplaintStatus, Async.try_catch, Async.bind,
    Async.get_store, Async.ret. cbn [fst snd].
  eexists. split; [reflexivity|].
  set (own := fun c : Complaint.t =>
                String.eqb (Complaint.createdBy c) (formatPhoneNumber phoneNumber)
                && negb (String.eqb (Complaint.status c) "cancelled")).
  split; [|split].
  - rewrite length_map. unfold Firestore.query_by. rewrite length_take. lia.
  - intros e He. apply list_elem_of_fmap in He. destruct He as (d & -> & Hd).
    apply query_by_elem in Hd. destruct Hd as [Hk Hp].
    apply andb_prop in Hp. destruct Hp as [Hby Hst].
    apply String.eqb_eq in Hby. apply negb_true_iff, String.eqb_neq in Hst.
    exists (fst d), (snd d). repeat (split; [assumption || reflexivity|]).
    intros Hnone. cbn. rewrite Hnone. reflexivity.
  - intros k c Hk Hby Hst. rewrite length_map.
    destruct (query_by_complete own FirebaseService.statusOrder 25 (complaints s) k c Hk)
      as [Hin|Hfull].
    + unfold own. rewrite Hby, String.eqb_refl.
      apply String.eqb_neq in Hst. rewrite Hst. reflexivity.
    + left. apply list_elem_of_fmap. exists (k, c). split; [reflexivity | exact Hin].
    + right. exact Hfull.
Qed.

(** ** Ticket ids drawn in one millisecond *)

(** Two complaints confirmed within one millisecond share one ticket: the
    ticket id is the millisecond in base 36, so both confirmations draw
    the same id whatever the random draws; the second ticket record
    replaces the first, and the first complaint is left pointing at the
    ticket of the second. *)
Theorem confirmations_in_one_millisecond
    (formatPhoneNumber : string -> string) (geocodeAddress : Q -> Q -> string)
    (id1 id2 : string) (c1 c2 : Complaint.t) (w1 w2 : WhatsappLocation)
    (millisecond : Z) (random1 random2 : nat -> Q) (now1 now2 : Z) (s : Store) :
  (36 ^ 7 <= millisecond)%Z ->
  id1 <> id2 ->
  complaints s !! id1 = Some c1 ->
  complaints s !! id2 = Some c2 ->
  let ticketId1 := Helpers.generateTicketId 8 "" millisecond random1 in
  let ticketId2 := Helpers.generateTicketId 8 "" millisecond random2 in
  exists s1 s2 ticket first,
    FirebaseService.confirmComplaint formatPhoneNumber geocodeAddress
      id1 w1 ticketId1 now1 s = (Js.Ok ticketId1, s1) /\
    FirebaseService.confirmComplaint formatPhoneNumber geocodeAddress
      id2 w2 ticketId2 now2 s1 = (Js.Ok ticketId2, s2) /\
    ticketId1 = ticketId2 /\
    complaints s2 !! id1 = Some first /\
    Complaint.status first = "active" /\
    Complaint.ticketId first = Some ticketId1 /\
    tickets s2 !! ticketId1 = Some ticket /\
    Ticket.complaintId ticket = id2 /\
    forall k, k <> ticketId1 -> tickets s2 !! k = tickets s !! k.
Proof.
  intros Hms Hne H1 H2 ticketId1 ticketId2.
  assert (Hsame : ticketId1 = ticketId2).
  { unfold ticketId1, ticketId2.
    rewrite !generateTicketId_timestamp by exact Hms. reflexivity. }
  destruct (confirmComplaint_ticket formatPhoneNumber geocodeAddress id1 w1 ticketId1
              now1 s c1 H1) as (s1 & t1 & Hrun1 & Hcs1 & Hts1 & _).
  assert (H2' : complaints s1 !! id2 = Some c2).
  { rewrite Hcs1, lookup_insert_ne by exact Hne. exact H2. }
  destruct (confirmComplaint_ticket formatPhoneNumber geocodeAddress id2 w2 ticketId2
              now2 s1 c2 H2') as (s2 & t2 & Hrun2 & Hcs2 & Hts2 & _ & Hcid & _).
  exists s1, s2, t2. eexists.
  split; [exact Hrun1|]. split; [exact Hrun2|]. split; [exact Hsame|].
  split; [rewrite Hcs2, lookup_insert_ne by congruence;
          rewrite Hcs1; apply lookup_insert_eq|].
  split; [reflexivity|]. split; [reflexivity|].
  split; [rewrite Hts2, Hsame; apply lookup_insert_eq|].
  split; [exact Hcid|].
  intros k Hk. rewrite Hts2, lookup_insert_ne by congruence.
  rewrite Hts1, lookup_insert_ne by congruence. reflexivity.
Qed.

Lemma confirmations_in_one_millisecond_witness :
  exists s1 s2 ticket,
    FirebaseService.confirmComplaint (fun phone => phone) (fun _ _ => "Location")
      "A" {| wa_latitude := 18.62; wa_longitude := 73.80; wa_address := None |}
      (Helpers.generateTicketId 8 "" 1699990060000 (fun _ => 0.5)) 1699990060010
      shadow_store
    = (Js.Ok (Helpers.generateTicketId 8 "" 1699990060000 (fun _ => 0.5)), s1) /\
    FirebaseService.confirmComplaint (fun phone => phone) (fun _ _ => "Location")
      "B" {| wa_latitude := 19.62; wa_longitude := 73.80; wa_address := None |}
      (Helpers.generateTicketId 8 "" 1699990060000 (fun _ => 0.25)) 1699990060020 s1
    = (Js.Ok (Helpers.generateTicketId 8 "" 1699990060000 (fun _ => 0.25)), s2) /\
    tickets s2 !! Helpers.generateTicketId 8 "" 1699990060000 (fun _ => 0.5) = Some ticket /\
    Ticket.complaintId ticket = "B".
Proof.
  destruct (confirmations_in_one_millisecond (fun phone => phone) (fun _ _ => "Location")
              "A" "B"
              (active_complaint "A" "Pipe leaking at the signal" "919000000002"
                 1699990000000 signal_junction None)
              (active_complaint "B" "Water leaking near the main signal" "919000000003"
                 1699995000000 one_degree_north (Some "b.jpg"))
              {| wa_latitude := 18.62; wa_longitude := 73.80; wa_address := None |}
              {| wa_latitude := 19.62; wa_longitude := 73.80; wa_address := None |}
              1699990060000 (fun _ => 0.5) (fun _ => 0.25) 1699990060010 1699990060020
              shadow_store)
    as (s1 & s2 & ticket & first & Hrun1 & Hrun2 & _ & _ & _ & _ & Hticket & Hcid & _).
  - vm_compute. discriminate.
  - discriminate.
  - vm_compute. reflexivity.
  - vm_compute. reflexivity.
  - exists s1, s2, ticket. auto.
Defined.

(** ** The aggregate threshold in force *)

(** The first rule of the verdict never decides: an aggregate of 0.85 is
    also one of 0.80, which the last rule accepts.  The verdict is that of
    the five other rules, the aggregate threshold in force is 0.80, and a
    duplicate verdict needs an aggregate of at least 0.75 or a location
    score of at least 0.60. *)
Theorem decideDuplicateStatus_threshold (finalScore : Q) (semantic : Semantic.t)
    (location : Proximity.t) (image : Image.t) :
  (AiService.decideDuplicateStatus finalScore semantic location image = true <->
   0.80 <= finalScore \/
   (0.75 <= finalScore /\ Proximity.withinProximity location = true) \/
   (0.85 <= Semantic.score semantic /\ 0.70 <= Proximity.score location) \/
   (0.90 <= Proximity.score location /\ 0.60 <= Semantic.score semantic) \/
   (0.80 <= Image.score image /\ 0.60 <= Proximity.score location)) /\
  (AiService.decideDuplicateStatus finalScore semantic location image = true ->
   0.75 <= finalScore \/ 0.60 <= Proximity.score location).
Proof.
  rewrite decideDuplicateStatus_true_iff. unfold duplicate_rules.
  split; [split|]; intros H; intuition lra.
Qed.

(** ** Complaint counts *)

(** A confirmation counts for the creator of the complaint and for nobody
    else: the complaint count of the creator's profile rises by one, score
    and message count being kept, and every other profile is left as it
    was.  Without a profile of the creator the failed count is swallowed
    and the confirmation succeeds all the same. *)
Theorem confirmComplaint_counts_for_creator
    (formatPhoneNumber : string -> string) (geocodeAddress : Q -> Q -> string)
    (complaintId : string) (w : WhatsappLocation) (ticketId : string) (now : Z)
    (s : Store) (c : Complaint.t) :
  complaints s !! complaintId = Some c ->
  exists s',
    FirebaseService.confirmComplaint formatPhoneNumber geocodeAddress
      complaintId w ticketId now s = (Js.Ok ticketId, s') /\
    (forall phone, phone <> formatPhoneNumber (Complaint.createdBy c) ->
                   citizens s' !! phone = citizens s !! phone) /\
    match citizens s !! formatPhoneNumber (Complaint.createdBy c) with
    | Some x =>
        exists x',
          citizens s' !! formatPhoneNumber (Complaint.createdBy c) = Some x' /\
          Citizen.complaintsCount x' = (Citizen.complaintsCount x + 1)%Z /\
          Citizen.ethicalScore x' = Citizen.ethicalScore x /\
          Citizen.avgEthicalScore x' = Citizen.avgEthicalScore x /\
          Citizen.totalMessages x' = Citizen.totalMessages x
    | None => citizens s' !! formatPhoneNumber (Complaint.createdBy c) = None
    end.
Proof.
  intros Hk.
  unfold FirebaseService.confirmComplaint, FirebaseService.createTicketRecord,
    FirebaseService.updateCitizenComplaintCount, Async.try_catch, Async.bind,
    Async.get_store, Async.ret, Firestore.update_complaint, Firestore.set_ticket,
    Firestore.update_citizen.
  simpl. rewrite Hk. simpl. rewrite Hk. simpl.
  destruct (citizens s !! formatPhoneNumber (Complaint.createdBy c)) as [x|] eqn:Hx;
    simpl; eexists; (split; [reflexivity|]); simpl.
  - split.
    + intros phone Hne. apply lookup_insert_ne. congruence.
    + eexists. split; [apply lookup_insert_eq|]. repeat split.
  - split; [reflexivity | exact Hx].
Qed.

Lemma confirmComplaint_counts_for_creator_witness :
  exists s',
    FirebaseService.confirmComplaint (fun phone => phone) (fun _ _ => "Location")
      "A" {| wa_latitude := 18.62; wa_longitude := 73.80; wa_address := None |}
      "LOY5K3QZ" 1699990060000 shadow_store = (Js.Ok "LOY5K3QZ", s') /\
    citizens s' !! "919000000002" = None.
Proof.
  destruct (confirmComplaint_counts_for_creator (fun phone => phone)
              (fun _ _ => "Location") "A"
              {| wa_latitude := 18.62; wa_longitude := 73.80; wa_address := None |}
              "LOY5K3QZ" 1699990060000 shadow_store
              (active_complaint "A" "Pipe leaking at the signal" "919000000002"
                 1699990000000 signal_junction None))
    as (s' & Hrun & _ & Hcreator).
  - vm_compute. reflexivity.
  - exists s'. split; [exact Hrun|]. exact Hcreator.
Defined.

(** ** Complaints without a photo *)

Section WithoutImage.
Variable compareText : string -> string -> Js.exn TextReply.
Variable compareImages : string -> string -> Js.exn ImageReply.
Variable compareTypes : string -> string -> Js.exn TypeReply.
Variable calculateDistance : Q -> Q -> Q -> Q -> Q.
Variable calculateAddressSimilarity : string -> string -> Q.
Variable now : Z.

(** Two complaints of which one has no photo, compared with model scores
    in [0, 1].  The result carries its breakdown, in which the image
    sub-score is 0; the aggregate is at most 0.71 and stays below every
    aggregate threshold, so the pair is judged a duplicate exactly when
    the text and location sub-scores of that breakdown say so: text at
    least 0.85 with location at least 0.70, or location at least 0.90 with
    text at least 0.60. *)
Theorem checkComplaintSimilarity_without_image (newComplaint existingComplaint : string)
    (newLocation existingLocation : option Location)
    (newImageUrl existingImageUrl : option string) :
  replies_within compareText compareImages compareTypes 0 1 ->
  Js.falsy_str newImageUrl || Js.falsy_str existingImageUrl = true ->
  let r :=
    AiService.checkComplaintSimilarity compareText compareImages compareTypes
      calculateDistance calculateAddressSimilarity now newComplaint existingComplaint
      newLocation existingLocation newImageUrl existingImageUrl in
  exists b,
    Similarity.breakdown r = Some b /\
    Image.score (Breakdown.image b) = 0 /\
    Similarity.score r <= 0.71 /\
    (Similarity.isDuplicate r = true <->
     (0.85 <= Semantic.score (Breakdown.semantic b) /\
      0.70 <= Proximity.score (Breakdown.location b)) \/
     (0.90 <= Proximity.score (Breakdown.location b) /\
      0.60 <= Semantic.score (Breakdown.semantic b))).
Proof.
  intros (Htext & Himage & Htype) Hmissing. cbv zeta.
  destruct (checkComplaintSimilarity_unfold compareText compareImages compareTypes
              calculateDistance calculateAddressSimilarity now newComplaint
              existingComplaint newLocation existingLocation newImageUrl existingImageUrl)
    as (Hscore & Hdup & _).
  cbv zeta in Hscore, Hdup. rewrite Hdup. clear Hdup.
  pose proof (analyzeSemanticSimilarity_score compareText 0 1 newComplaint existingComplaint
                ltac:(lra) (Htext _ _)) as Hs.
  pose proof (analyzeComplaintType_score compareTypes 0 1 newComplaint existingComplaint
                ltac:(lra) (Htype _ _)) as Ht.
  pose proof (analyzeLocationProximity_score calculateDistance calculateAddressSimilarity
                newLocation existingLocation) as Hl.
  assert (Himg : AiService.analyzeImageSimilarity compareImages newImageUrl existingImageUrl
                 = Image.mk 0 "One or both images missing" None None false).
  { unfold AiService.analyzeImageSimilarity. rewrite Hmissing. reflexivity. }
  eexists. split.
  { unfold AiService.checkComplaintSimilarity. cbn [Js.try_catch Similarity.breakdown].
    reflexivity. }
  cbn [Breakdown.image Breakdown.semantic Breakdown.location].
  rewrite Himg in *. cbn [Image.score] in Hscore |- *.
  set (score := Similarity.score _) in *.
  assert (Hlow : score <= 0.71) by (rewrite Hscore; lra).
  split; [reflexivity|]. split; [exact Hlow|].
  rewrite decideDuplicateStatus_true_iff. unfold duplicate_rules. cbn [Image.score].
  split; intros H; intuition lra.
Qed.

End WithoutImage.

Lemma checkComplaintSimilarity_without_image_witness :
  exists b,
    Similarity.breakdown
      (AiService.checkComplaintSimilarity agreeing_text agreeing_images agreeing_types
         meridian_km (fun _ _ => 0) 1700000000000
         "Water leaking near the main signal" "Pipe leaking at the signal"
         (Some signal_junction) (Some signal_junction) None (Some "old.jpg"))
    = Some b /\
    Image.score (Breakdown.image b) = 0.
Proof.
  destruct (checkComplaintSimilarity_without_image agreeing_text agreeing_images
              agreeing_types meridian_km (fun _ _ => 0) 1700000000000
              "Water leaking near the main signal" "Pipe leaking at the signal"
              (Some signal_junction) (Some signal_junction) None (Some "old.jpg")
              agreeing_replies_within eq_refl) as (b & Hb & Himage & _).
  exists b. split; assumption.
Defined.

(** ** Nearer places *)

(** The nearer pair never scores lower: of two pairs of locations, the one
    that is no farther apart and whose addresses are no less alike gets a
    location score at least as high, and is within proximity whenever the
    other is. *)
Theorem analyzeLocationProximity_nearer_higher
    (calculateDistance : Q -> Q -> Q -> Q -> Q)
    (calculateAddressSimilarity : string -> string -> Q)
    (a b a' b' : Location) :
  calculateDistance (latitude a) (longitude a) (latitude b) (longitude b)
  <= calculateDistance (latitude a') (longitude a') (latitude b') (longitude b') ->
  calculateAddressSimilarity (Js.or_str (address a') "") (Js.or_str (address b') "")
  <= calculateAddressSimilarity (Js.or_str (address a) "") (Js.or_str (address b) "") ->
  let near :=
    AiService.analyzeLocationProximity calculateDistance calculateAddressSimilarity
      (Some a) (Some b) in
  let far :=
    AiService.analyzeLocationProximity calculateDistance calculateAddressSimilarity
      (Some a') (Some b') in
  Proximity.score far <= Proximity.score near /\
  (Proximity.withinProximity far = true -> Proximity.withinProximity near = true).
Proof.
  intros Hd Hs. cbv zeta. unfold AiService.analyzeLocationProximity.
  cbn [Js.try_catch].
  set (d := calculateDistance (latitude a) _ _ _) in *.
  set (d' := calculateDistance (latitude a') _ _ _) in *.
  set (sim := calculateAddressSimilarity (Js.or_str (address a) "") _) in *.
  set (sim' := calculateAddressSimilarity (Js.or_str (address a') "") _) in *.
  unfold Js.Math_min.
  destruct (Qle_bool d 0.05) eqn:D1; [|destruct (Qle_bool d 0.1) eqn:D2;
    [|destruct (Qle_bool d 0.2) eqn:D3; [|destruct (Qle_bool d 0.5) eqn:D4;
      [|destruct (Qle_bool d 1.0) eqn:D5]]]];
  (destruct (Qle_bool d' 0.05) eqn:F1; [|destruct (Qle_bool d' 0.1) eqn:F2;
    [|destruct (Qle_bool d' 0.2) eqn:F3; [|destruct (Qle_bool d' 0.5) eqn:F4;
      [|destruct (Qle_bool d' 1.0) eqn:F5]]]]);
  reflect_Qle; try (exfalso; lra);
  destruct (Qle_bool sim 0.8) eqn:S1; destruct (Qle_bool sim' 0.8) eqn:S2;
  reflect_Qle; try (exfalso; lra);
  simpl;
  repeat match goal with
    | |- context [Qle_bool ?x ?y] => destruct (Qle_bool x y) eqn:?
    end; reflect_Qle;
  (split; [lra | intros H; first [reflexivity | discriminate H]]).
Qed.

Lemma analyzeLocationProximity_nearer_higher_witness :
  Proximity.score
    (AiService.analyzeLocationProximity meridian_km (fun _ _ => 0)
       (Some signal_junction) (Some one_degree_north))
  <= Proximity.score
       (AiService.analyzeLocationProximity meridian_km (fun _ _ => 0)
          (Some signal_junction) (Some signal_junction)).
Proof.
  apply (analyzeLocationProximity_nearer_higher meridian_km (fun _ _ => 0)
           signal_junction signal_junction signal_junction one_degree_north).
  - vm_compute. discriminate.
  - vm_compute. discriminate.
Defined.

(** ** The direction of the reputation update *)

Lemma Math_min_cases (a b : Q) :
  (a <= b /\ Js.Math_min a b = a) \/ (b < a /\ Js.Math_min a b = b).
Proof.
  unfold Js.Math_min. destruct (Qle_bool a b) eqn:E; reflect_Qle; auto.
Qed.

Lemma Math_max_cases (a b : Q) :
  (a <= b /\ Js.Math_max a b = b) \/ (b < a /\ Js.Math_max a b = a).
Proof.
  unfold Js.Math_max. destruct (Qle_bool a b) eqn:E; reflect_Qle; auto.
Qed.

Lemma weighted_mean_between (q m B lo hi : Q) :
  0 <= B -> lo <= q <= hi -> lo <= m <= hi ->
  lo <= (q * B + m * 3) / (B + 3) <= hi.
Proof.
  intros HB Hq Hm. split.
  - apply Qle_shift_div_l; [lra|]. nra.
  - apply Qle_shift_div_r; [lra|]. nra.
Qed.

Lemma round_tenth (x : Q) :
  x - 0.05 <= inject_Z (Qfloor (x * 10 + (1 # 2))) / 10 <= x + 0.05.
Proof.
  pose proof (Qfloor_le (x * 10 + (1 # 2))) as Hle.
  pose proof (Qlt_floor (x * 10 + (1 # 2))) as Hlt.
  rewrite inject_Z_plus in Hlt. change (inject_Z 1) with 1 in Hlt.
  set (r := inject_Z (Qfloor (x * 10 + (1 # 2)))) in *.
  split.
  - apply Qle_shift_div_l; [lra|]. lra.
  - apply Qle_shift_div_r; [lra|]. lra.
Qed.

Lemma reputation_formula_between (sqrt : Q -> Q) (q t m lo hi : Q) :
  (forall x, 1 <= x -> 1 <= sqrt x) ->
  1 <= t -> 1 <= lo -> hi <= 10 -> lo <= q <= hi -> lo <= m <= hi ->
  lo - 0.05 <= reputation_formula sqrt q t m <= hi + 0.05.
Proof.
  intros Hsqrt Ht Hlo Hhi Hq Hm. unfold reputation_formula.
  set (weight := Js.Math_min t 100).
  set (decay := Js.Math_max 0.1 (1 / sqrt (t + 1))).
  assert (Hw : 0 <= weight).
  { unfold weight. destruct (Math_min_cases t 100) as [[_ ->] | [_ ->]]; lra. }
  assert (Hd : decay <= 1).
  { unfold decay. destruct (Math_max_cases 0.1 (1 / sqrt (t + 1))) as [[_ ->] | [_ ->]];
      [|lra].
    apply Qle_shift_div_r; [|rewrite Qmult_1_l; apply Hsqrt; lra].
    apply Qlt_le_trans with 1; [lra | apply Hsqrt; lra]. }
  assert (HB : 0 <= weight * (1 - decay)) by nra.
  pose proof (weighted_mean_between q m (weight * (1 - decay)) lo hi HB Hq Hm) as Hx.
  assert (Heq : (q * weight * (1 - decay) + m * 3) / (weight * (1 - decay) + 3)
                == (q * (weight * (1 - decay)) + m * 3) / (weight * (1 - decay) + 3)).
  { apply Qdiv_comp; [ring | reflexivity]. }
  set (x := (q * weight * (1 - decay) + m * 3) / (weight * (1 - decay) + 3)) in *.
  rewrite <- Heq in Hx.
  pose proof (round_tenth x) as Hr.
  set (rounded := inject_Z (Qfloor (x * 10 + (1 # 2))) / 10) in *.
  unfold Js.Math_max, Js.Math_min.
  destruct (Qle_bool 10 rounded) eqn:E1;
    match goal with |- context [Qle_bool ?a ?b] => destruct (Qle_bool a b) eqn:E2 end;
    reflect_Qle; lra.
Qed.

Lemma or_num_at_least (x d lo : Q) :
  lo <= d -> 0 < lo -> (~ x == 0 -> lo <= x) -> lo <= Js.or_num (Some x) d.
Proof.
  intros Hd Hlo Hx. unfold Js.or_num.
  destruct (Qeq_bool x 0) eqn:E; [exact Hd|].
  apply Hx. intros H. apply Qeq_bool_iff in H. congruence.
Qed.

Lemma or_num_nonzero (x d : Q) : ~ x == 0 -> Js.or_num (Some x) d = x.
Proof.
  intros H. unfold Js.or_num. destruct (Qeq_bool x 0) eqn:E; [|reflexivity].
  apply Qeq_bool_iff in E. contradiction.
Qed.

Lemma sqrt_dec_at_least_1 (x : Q) : 1 <= x -> 1 <= sqrt_dec x.
Proof.
  intros Hx. unfold sqrt_dec.
  apply Qle_shift_div_l; [reflexivity|]. rewrite Qmult_1_l.
  rewrite <- Zle_Qle.
  assert (Hfloor : (10 ^ 30 <= Qfloor (x * inject_Z (10 ^ 30)))%Z).
  { apply Z.le_trans with (Qfloor (inject_Z (10 ^ 30))); [rewrite Qfloor_Z; lia|].
    apply Qfloor_resp_le.
    assert (H30 : 0 <= inject_Z (10 ^ 30)) by (rewrite <- (Zle_Qle 0); lia).
    set (y := inject_Z (10 ^ 30)) in *. nra. }
  apply Z.sqrt_le_mono in Hfloor.
  replace (Z.sqrt (10 ^ 30)) with (10 ^ 15)%Z in Hfloor by (vm_compute; reflexivity).
  exact Hfloor.
Qed.

Section Reputation.
Variable formatPhoneNumber : string -> string.
Variable Math_sqrt : Q -> Q.

(** The update moves the stored score towards the score of the message and
    not beyond: when the stored score and the message score lie in an
    interval of [1, 10], the new stored score lies in that interval, up to
    the rounding of 0.05 (for a square root that is at least 1 from 1 on). *)
Theorem updateCitizenEthicalScore_between (phoneNumber : string)
    (messageEthicalScore : Q) (now : Z) (s : Store) (currentData : Citizen.t)
    (currentScore : Q) (totalMessages : Z) (lo hi : Q) :
  (forall x, 1 <= x -> 1 <= Math_sqrt x) ->
  citizens s !! formatPhoneNumber phoneNumber = Some currentData ->
  Citizen.ethicalScore currentData = Some currentScore ->
  Citizen.totalMessages currentData = Some totalMessages ->
  (0 <= totalMessages)%Z ->
  1 <= lo -> hi <= 10 ->
  lo <= currentScore <= hi ->
  lo <= messageEthicalScore <= hi ->
  exists s' stored,
    FirebaseService.updateCitizenEthicalScore formatPhoneNumber Math_sqrt
      phoneNumber messageEthicalScore now s = (Js.Ok tt, s') /\
    stored_score (formatPhoneNumber phoneNumber) s' = Some stored /\
    lo - 0.05 <= stored <= hi + 0.05.
Proof.
  intros Hsqrt Hdoc Hscore Htotal Hn Hlo Hhi Hq Hm.
  unfold FirebaseService.updateCitizenEthicalScore, Async.try_catch, Async.bind,
    Async.get_store, Firestore.update_citizen.
  rewrite Hdoc. simpl. rewrite Hdoc.
  eexists. eexists. split; [reflexivity|]. split.
  { unfold stored_score. simpl. rewrite lookup_insert_eq. reflexivity. }
  rewrite Hscore, Htotal. cbn [option_map].
  rewrite (or_num_nonzero currentScore 7.5) by lra.
  apply (reputation_formula_between Math_sqrt currentScore _ messageEthicalScore lo hi);
    try assumption.
  apply or_num_at_least; [lra | lra |].
  intros Hne. rewrite <- (Zle_Qle 1).
  assert (totalMessages <> 0)%Z.
  { intros ->. apply Hne. reflexivity. }
  lia.
Qed.

End Reputation.

Lemma updateCitizenEthicalScore_between_witness :
  exists s' stored,
    FirebaseService.updateCitizenEthicalScore (fun phone => phone) sqrt_dec
      "919000000002" 4 1700000000000
      (one_citizen "919000000002" (Citizen.mk (Some 8) (Some 20%Z) 1 (Some 8) 0))
    = (Js.Ok tt, s') /\
    stored_score "919000000002" s' = Some stored /\
    4 - 0.05 <= stored <= 8 + 0.05.
Proof.
  apply (updateCitizenEthicalScore_between (fun phone => phone) sqrt_dec
           "919000000002" 4 1700000000000
           (one_citizen "919000000002" (Citizen.mk (Some 8) (Some 20%Z) 1 (Some 8) 0))
           (Citizen.mk (Some 8) (Some 20%Z) 1 (Some 8) 0) 8 20 4 8
           sqrt_dec_at_least_1).
  - vm_compute. reflexivity.
  - reflexivity.
  - reflexivity.
  - lia.
  - lra.
  - lra.
  - lra.
  - lra.
Defined.
